(** * Restaurant lookup: spatial availability engine

    A shallow embedding of the lookup core of the repository:
    [time_checker.py] (opening-hours window), [spatial_index.py]
    (R-tree prefilter followed by the exact distance and hours filter) and
    [decorator.py] (the caching wrapper), together with the properties the
    specification states about them.  The two external libraries the core
    calls, [pyproj] for distances and [rtree] for the R-tree, are
    interfaces of the embedding.  Around this core, the file also
    embeds [factory.py], the logging wrapper of [decorator.py],
    [filter_strategy.py], [composite.py], [observer.py] and the rows of
    [result_writer.py], with properties read off their code.

    Conventions of the embedding.
    - A Python float (coordinates, radii, distances) is represented by the
      rational number it is exactly, in [Q].  Comparisons of floats are
      exact, as in Python; the arithmetic the code does on them, the
      division and the four sums of the prefilter box, rounds its result to
      the nearest double ([binary64]), and a decimal literal of the code is
      the double nearest to it.  The coordinates of a cache key,
      [round(x, 4)], are kept as the decimals they round to: keys are only
      compared with each other.  Infinities and NaN are not represented.
    - Python exceptions are the [Raise] outcomes of a state-and-exception
      monad; mutations made before an exception is raised persist.
    - The wall clock read by [datetime.now()] is part of an explicit
      [World]: a sequence of readings and the number of readings consumed.
    - Strings are byte strings; [datetime.strptime] is modelled for the one
      format the code uses, ['%H:%M:%S'], on ASCII input.
    - Times of day are naive (no [tzinfo]), as [strptime] and
      [datetime.time()] produce them. *)

From Stdlib Require Import ZArith QArith Qround Qabs Qminmax String Ascii List Sorted
  Permutation Bool Lia Lqa.
From stdpp Require Import gmap strings pretty.
Import ListNotations.

Local Open Scope string_scope.
Local Open Scope list_scope.
Local Open Scope Z_scope.

(** ** Outcomes, and the state-and-exception monad *)

Inductive exception : Type :=
| ValueError
| KeyError
| StopIteration.

Inductive outcome (A : Type) : Type :=
| Return (a : A)
| Raise (e : exception).

Arguments Return {A} a.
Arguments Raise {A} e.

(** A computation over a mutable state [St].  As in Python, the state
    reached when an exception is raised is kept. *)
Definition M (St A : Type) : Type := St -> outcome A * St.

Definition ret {St A} (a : A) : M St A := fun s => (Return a, s).

Definition raise {St A} (e : exception) : M St A := fun s => (Raise e, s).

Definition bind {St A B} (m : M St A) (k : A -> M St B) : M St B :=
  fun s =>
    match m s with
    | (Return a, s') => k a s'
    | (Raise e, s') => (Raise e, s')
    end.

Definition of_outcome {St A} (o : outcome A) : M St A := fun s => (o, s).

Notation "'let*' x ':=' m 'in' k" := (bind m (fun x => k))
  (at level 10, x pattern, m at level 100, k at level 200).

(** ** Clock times ([datetime.time], [datetime.datetime]) *)

Record time : Type := mk_time {
  hour : Z;
  minute : Z;
  second : Z;
  microsecond : Z
}.

Record datetime : Type := mk_datetime {
  year : Z;
  month : Z;
  day : Z;
  dt_time : time   (* what [datetime.time()] returns *)
}.

(** Naive [time] objects compare as the tuples
    [(hour, minute, second, microsecond)]. *)
Definition time_compare (a b : time) : comparison :=
  match hour a ?= hour b with
  | Eq =>
      match minute a ?= minute b with
      | Eq =>
          match second a ?= second b with
          | Eq => microsecond a ?= microsecond b
          | c => c
          end
      | c => c
      end
  | c => c
  end.

(** [a <= b] on times. *)
Definition time_le (a b : time) : bool :=
  match time_compare a b with
  | Gt => false
  | _ => true
  end.

(** The argument [current_time] of the query functions: a [datetime]
    (as in the tests), or a [time] (as [restaurant_lookup.py] passes it). *)
Inductive instant : Type :=
| Instant_datetime (d : datetime)
| Instant_time (t : time).

Definition instant_hour (i : instant) : Z :=
  match i with
  | Instant_datetime d => hour (dt_time d)
  | Instant_time t => hour t
  end.

Definition instant_minute (i : instant) : Z :=
  match i with
  | Instant_datetime d => minute (dt_time d)
  | Instant_time t => minute t
  end.

(** ** The world: the wall clock *)

Record World : Type := mk_World {
  clock : nat -> datetime;   (* the n-th reading of the wall clock *)
  reads : nat                (* readings consumed so far *)
}.

(** [datetime.now()] *)
Definition datetime_now : M World datetime :=
  fun w => (Return (clock w (reads w)), mk_World (clock w) (S (reads w))).

(** ** [datetime.strptime(s, '%H:%M:%S')]

    The format compiles to the regular expression
    [(?P<H>2[0-3]|[0-1]\d|\d):(?P<M>[0-5]\d|\d):(?P<S>6[0-1]|[0-5]\d|\d)],
    matched at the start of the string with ordered alternatives and
    backtracking; input left over after the match is an error, and so is a
    second above 59 when the [datetime] is constructed. *)

Definition digit_val (c : ascii) : option Z :=
  let n := Z.of_nat (nat_of_ascii c) in
  if (48 <=? n) && (n <=? 57) then Some (n - 48) else None.

(** One or two leading characters of [s] read as a regex alternative:
    [two_digits lo hi units_ok] is a digit in [lo..hi] followed by a digit
    that [units_ok] accepts, [one_digit] is a single [\d].  Each returns the
    value read and the rest of the string, or nothing. *)
Definition two_digits (lo hi : Z) (units_ok : Z -> bool) (s : string)
  : list (Z * string) :=
  match s with
  | String a (String b rest) =>
      match digit_val a, digit_val b with
      | Some x, Some y =>
          if (lo <=? x) && (x <=? hi) && units_ok y
          then [(10 * x + y, rest)] else []
      | _, _ => []
      end
  | _ => []
  end.

Definition one_digit (s : string) : list (Z * string) :=
  match s with
  | String a rest =>
      match digit_val a with
      | Some x => [(x, rest)]
      | None => []
      end
  | _ => []
  end.

Definition any_digit (_ : Z) : bool := true.

(** [2[0-3]|[0-1]\d|\d] *)
Definition re_H (s : string) : list (Z * string) :=
  two_digits 2 2 (fun y => y <=? 3) s ++ two_digits 0 1 any_digit s ++ one_digit s.

(** [[0-5]\d|\d] *)
Definition re_M (s : string) : list (Z * string) :=
  two_digits 0 5 any_digit s ++ one_digit s.

(** [6[0-1]|[0-5]\d|\d] *)
Definition re_S (s : string) : list (Z * string) :=
  two_digits 6 6 (fun y => y <=? 1) s ++ two_digits 0 5 any_digit s ++ one_digit s.

(** A literal [:] *)
Definition re_colon (s : string) : list string :=
  match s with
  | String c rest => if Ascii.eqb c ":"%char then [rest] else []
  | _ => []
  end.

(** All the ways the whole expression matches a prefix of [s], in the order
    the backtracking matcher tries them; the first one is the match. *)
Definition re_HMS (s : string) : list (Z * Z * Z * string) :=
  flat_map (fun '(h, r1) =>
    flat_map (fun r2 =>
      flat_map (fun '(m, r3) =>
        flat_map (fun r4 =>
          List.map (fun '(sec, r5) => (h, m, sec, r5)) (re_S r4))
          (re_colon r3))
        (re_M r2))
      (re_colon r1))
    (re_H s).

Definition strptime_HMS (data_string : string) : outcome datetime :=
  match re_HMS data_string with
  | [] => Raise ValueError                  (* does not match format *)
  | (h, m, sec, rest) :: _ =>
      match rest with
      | EmptyString =>
          if sec <=? 59
          then Return (mk_datetime 1900 1 1 (mk_time h m sec 0))
          else Raise ValueError             (* second must be in 0..59 *)
      | _ => Raise ValueError               (* unconverted data remains *)
      end
  end.

(** ** [time_checker.py] *)

Class TimeCheckerInterface : Type := {
  is_open : string -> string -> option instant -> M World bool
}.

Module TimeChecker.

Definition is_open (open_hour close_hour : string)
           (current_time : option instant) : M World bool :=
  let* current_time :=
    match current_time with
    | None => let* now := datetime_now in ret (dt_time now)
    | Some (Instant_datetime d) => ret (dt_time d)
    | Some (Instant_time t) => ret t
    end in
  let* open_dt := of_outcome (strptime_HMS open_hour) in
  let open_time := dt_time open_dt in
  let* close_dt := of_outcome (strptime_HMS close_hour) in
  let close_time := dt_time close_dt in
  if time_le open_time close_time
  then ret (time_le open_time current_time && time_le current_time close_time)
  else ret (time_le open_time current_time || time_le current_time close_time).

End TimeChecker.

#[export] Instance TimeChecker_instance : TimeCheckerInterface :=
  {| is_open := TimeChecker.is_open |}.

(** ** Floats

    The doubles are the rationals [m * 2^e] with [|m| < 2^53] and
    [-1074 <= e]; the upper end of the exponent range is left open, since
    no operation of the code on finite doubles overflows (a sum with
    [radius_deg], which is below 1, stays within the range). *)

(** [round(x)] to the nearest integer, ties to the even one. *)
Definition round_half_even (x : Q) : Z :=
  let f := Qfloor x in
  match Qcompare (x - inject_Z f) (1 # 2) with
  | Lt => f
  | Gt => f + 1
  | Eq => if Z.even f then f else f + 1
  end.

(** The exponent [e] with [2^e <= |x| < 2^(e+1)], for [x] other than 0. *)
Definition binade (x : Q) : Z :=
  let e := Z.log2 (Z.abs (Qnum x)) - Z.log2 (Zpos (Qden x)) in
  if Qle_bool (Qpower 2 e) (Qabs x) then e else e - 1.

(** The double nearest to [x], ties to the even significand: the result
    of a float operation whose exact result is [x], and the value of the
    literal that [x] is written as. *)
Definition binary64 (x : Q) : Q :=
  if Qeq_bool x 0 then 0
  else
    let quantum := Qpower 2 (Z.max (binade x) (-1022) - 52) in
    (inject_Z (round_half_even (x / quantum)) * quantum)%Q.

(** ** [distance_calculator.py]

    [DistanceCalculator.calculate_distance] returns the WGS84 geodesic
    distance in kilometres computed by the external library [pyproj]; the
    index only depends on the interface. *)

Class DistanceCalculatorInterface : Type := {
  calculate_distance : Q -> Q -> Q -> Q -> Q
}.

(** ** The data frame of restaurants, and the stored attribute records *)

Record Row : Type := mk_Row {
  row_id : Z;
  row_latitude : Q;
  row_longitude : Q;
  row_availability_radius : Q;
  row_open_hour : string;
  row_close_hour : string;
  row_rating : Q
}.

Definition DataFrame : Type := list Row.

Record Restaurant : Type := mk_Restaurant {
  r_id : Z;
  r_latitude : Q;
  r_longitude : Q;
  r_availability_radius : Q;
  r_open_hour : string;
  r_close_hour : string;
  r_rating : Q
}.

(** ** The R-tree of the external library [rtree]

    Only what the code uses: [insert(id, box)] and [intersection(box)].
    The library keeps an id as a C [int64_t], to which the Python integer
    is reduced.  A query reports the ids of the entries whose box meets the
    query box (bounds included); an id inserted twice is stored, and
    reported, twice.  The order of the ids is that of the traversal of the
    tree, which is the library's own: what the code can rely on is in
    [RTreeInterface].  Boxes are [(minx, miny, maxx, maxy)]. *)

Definition bbox : Type := (Q * Q * Q * Q)%type.

(** The entries inserted so far, in the order of insertion. *)
Record RTree : Type := mk_RTree { rtree_entries : list (Z * bbox) }.

Definition rtree_empty : RTree := mk_RTree [].

(** A Python integer as a C [int64_t]. *)
Definition int64 (i : Z) : Z := (i + 2 ^ 63) mod 2 ^ 64 - 2 ^ 63.

Definition is_int64 (i : Z) : Prop := - 2 ^ 63 <= i < 2 ^ 63.

Definition rtree_insert (i : Z) (box : bbox) (t : RTree) : RTree :=
  mk_RTree (rtree_entries t ++ [(int64 i, box)]).

Definition bbox_intersects (a b : bbox) : bool :=
  let '(aminx, aminy, amaxx, amaxy) := a in
  let '(bminx, bminy, bmaxx, bmaxy) := b in
  Qle_bool aminx bmaxx && Qle_bool bminx amaxx &&
  Qle_bool aminy bmaxy && Qle_bool bminy amaxy.

(** The entries of a tree that meet a box, in the order of insertion. *)
Definition entries_meeting (box : bbox) (entries : list (Z * bbox)) : list (Z * bbox) :=
  List.filter (fun e => bbox_intersects (snd e) box) entries.

(** The number of entries a leaf holds (the default of the library, which
    [__init__] does not change). *)
Definition leaf_capacity : nat := 100.

(** The traversal of the library.  [visit entries box] is the sequence of
    entries that a query with [box] reports on the tree that the
    insertions [entries] have built.  It reports each entry that meets the
    box once, in an order of its own; as long as the entries fit the root
    leaf, that order is the order of insertion. *)
Class RTreeInterface : Type := {
  visit : list (Z * bbox) -> bbox -> list (Z * bbox);
  visit_Permutation : forall entries box,
    Permutation (visit entries box) (entries_meeting box entries);
  visit_one_leaf : forall entries box,
    (length entries <= leaf_capacity)%nat ->
    visit entries box = entries_meeting box entries
}.

Definition rtree_intersection {rtree_library : RTreeInterface}
           (box : bbox) (t : RTree) : list Z :=
  List.map fst (visit (rtree_entries t) box).

(** A library that reports in the order of insertion whatever the size of
    the tree.  On a tree of at most [leaf_capacity] entries every library
    reports what this one reports. *)
Definition insertion_order_rtree : RTreeInterface :=
  {| visit := fun entries box => entries_meeting box entries;
     visit_Permutation := fun entries box => Permutation_refl _;
     visit_one_leaf := fun entries box _ => eq_refl |}.

(** ** The interface of spatial indexes ([interfaces.py]) *)

Class SpatialIndexInterface (S : Type) : Type := {
  build_index : DataFrame -> M (S * World) unit;
  find_restaurants_in_radius : Q -> Q -> option instant -> M (S * World) (list Z)
}.

(** ** [spatial_index.py]

    The two objects handed to [__init__], [time_checker] and
    [distance_calculator], are the instances in the context of the methods
    that use them; [self] holds the R-tree and the dictionary. *)

Module SpatialIndex.

Record t : Type := mk {
  idx : RTree;
  restaurants : gmap Z Restaurant
}.

(** [__init__]: an empty R-tree and an empty dictionary. *)
Definition init : t := mk rtree_empty ∅.

Definition build_row (self : t) (row : Row) : t :=
  let restaurant_id := row_id row in
  mk (rtree_insert restaurant_id
        (row_latitude row, row_longitude row, row_latitude row, row_longitude row)
        (idx self))
     (<[restaurant_id :=
          mk_Restaurant restaurant_id (row_latitude row) (row_longitude row)
            (row_availability_radius row) (row_open_hour row)
            (row_close_hour row) (row_rating row)]> (restaurants self)).

Definition build_index (restaurants_df : DataFrame) (self : t) : t :=
  fold_left build_row restaurants_df self.

Definition MAX_RADIUS_KM : Q := 100.

Definition radius_deg : Q := binary64 (MAX_RADIUS_KM / 111).

Section WithDependencies.

Context {distance_calculator : DistanceCalculatorInterface}.
Context {time_checker : TimeCheckerInterface}.
Context {rtree_library : RTreeInterface}.

Definition _get_candidate_restaurants (self : t) (latitude longitude : Q) : list Z :=
  rtree_intersection
    (binary64 (latitude - radius_deg), binary64 (longitude - radius_deg),
     binary64 (latitude + radius_deg), binary64 (longitude + radius_deg))
    (idx self).

(** The loop of [_filter_candidates]; [available_restaurants] is the
    list built so far. *)
Fixpoint filter_loop (self : t) (candidates : list Z) (latitude longitude : Q)
         (current_time : option instant) (available_restaurants : list Z)
  : M World (list Z) :=
  match candidates with
  | [] => ret available_restaurants
  | restaurant_id :: candidates' =>
      let* restaurant :=
        match restaurants self !! restaurant_id with
        | Some r => ret r
        | None => raise KeyError
        end in
      let distance :=
        calculate_distance latitude longitude
          (r_latitude restaurant) (r_longitude restaurant) in
      let* keep :=
        if Qle_bool distance (r_availability_radius restaurant)
        then is_open (r_open_hour restaurant) (r_close_hour restaurant) current_time
        else ret false in
      filter_loop self candidates' latitude longitude current_time
        (if keep then available_restaurants ++ [restaurant_id]
         else available_restaurants)
  end.

Definition _filter_candidates (self : t) (candidates : list Z)
           (latitude longitude : Q) (current_time : option instant)
  : M World (list Z) :=
  filter_loop self candidates latitude longitude current_time [].

Definition find_restaurants_in_radius (self : t) (latitude longitude : Q)
           (current_time : option instant) : M World (list Z) :=
  let candidates := _get_candidate_restaurants self latitude longitude in
  _filter_candidates self candidates latitude longitude current_time.

End WithDependencies.

End SpatialIndex.

#[export] Instance SpatialIndex_instance
  {distance_calculator : DistanceCalculatorInterface}
  {time_checker : TimeCheckerInterface}
  {rtree_library : RTreeInterface}
  : SpatialIndexInterface SpatialIndex.t :=
  {| build_index := fun restaurants_df '(self, w) =>
       (Return tt, (SpatialIndex.build_index restaurants_df self, w));
     find_restaurants_in_radius := fun latitude longitude current_time '(self, w) =>
       let '(r, w') :=
         SpatialIndex.find_restaurants_in_radius self latitude longitude current_time w in
       (r, (self, w')) |}.

(** ** [decorator.py]: the caching decorator *)

(** [round(x, ndigits)] *)
Definition round_ndigits (x : Q) (ndigits : Z) : Q :=
  (inject_Z (round_half_even (x * inject_Z (10 ^ ndigits))) / inject_Z (10 ^ ndigits))%Q.

(** Cache keys: the tuples [(round(lat, 4), round(lon, 4), time_key)].
    Two keys are the same dictionary key when their numbers are equal and
    their time keys are the same string (or both [None]). *)
Definition cache_key : Type := (Q * Q * option string)%type.

Definition time_key_eqb (a b : option string) : bool :=
  match a, b with
  | None, None => true
  | Some x, Some y => String.eqb x y
  | _, _ => false
  end.

Definition cache_key_eqb (a b : cache_key) : bool :=
  let '(alat, alon, atime) := a in
  let '(blat, blon, btime) := b in
  Qeq_bool alat blat && Qeq_bool alon blon && time_key_eqb atime btime.

(** A Python [dict] with its insertion order, which [iter] follows. *)
Definition dict (V : Type) : Type := list (cache_key * V).

Fixpoint dict_get {V} (k : cache_key) (d : dict V) : option V :=
  match d with
  | [] => None
  | (k', v) :: d' => if cache_key_eqb k k' then Some v else dict_get k d'
  end.

(** [k in d] *)
Definition dict_contains {V} (k : cache_key) (d : dict V) : bool :=
  match dict_get k d with
  | Some _ => true
  | None => false
  end.

(** [d[k] = v]: a present key keeps its place, a new one goes last. *)
Fixpoint dict_set {V} (k : cache_key) (v : V) (d : dict V) : dict V :=
  match d with
  | [] => [(k, v)]
  | (k', v') :: d' =>
      if cache_key_eqb k k' then (k', v) :: d' else (k', v') :: dict_set k v d'
  end.

(** [d.pop(k)]: the dictionary without [k], or [None] for a [KeyError]. *)
Fixpoint dict_pop {V} (k : cache_key) (d : dict V) : option (dict V) :=
  match d with
  | [] => None
  | (k', v') :: d' =>
      if cache_key_eqb k k' then Some d'
      else option_map (cons (k', v')) (dict_pop k d')
  end.

(** [next(iter(d))] *)
Definition dict_first_key {V} (d : dict V) : outcome cache_key :=
  match d with
  | [] => Raise StopIteration
  | (k, _) :: _ => Return k
  end.

Module CachingSpatialIndex.

Record t (S : Type) : Type := mk {
  spatial_index : S;
  cache : dict (list Z);
  cache_size : Z;
  cache_hits : Z;
  cache_misses : Z
}.

Arguments mk {S}.
Arguments spatial_index {S}.
Arguments cache {S}.
Arguments cache_size {S}.
Arguments cache_hits {S}.
Arguments cache_misses {S}.

(** [__init__] *)
Definition init {S} (spatial_index : S) (cache_size : Z) : t S :=
  mk spatial_index [] cache_size 0 0.

Definition set_spatial_index {S} (x : S) (self : t S) : t S :=
  mk x (cache self) (cache_size self) (cache_hits self) (cache_misses self).

Definition set_cache {S} (x : dict (list Z)) (self : t S) : t S :=
  mk (spatial_index self) x (cache_size self) (cache_hits self) (cache_misses self).

Definition set_cache_hits {S} (x : Z) (self : t S) : t S :=
  mk (spatial_index self) (cache self) (cache_size self) x (cache_misses self).

Definition set_cache_misses {S} (x : Z) (self : t S) : t S :=
  mk (spatial_index self) (cache self) (cache_size self) (cache_hits self) x.

(** Reading and updating [self] in the state [(self, world)]. *)
Definition get_self {S} : M (t S * World) (t S) :=
  fun '(self, w) => (Return self, (self, w)).

Definition update_self {S} (f : t S -> t S) : M (t S * World) unit :=
  fun '(self, w) => (Return tt, (f self, w)).

(** A call on the decorated object [self.spatial_index]. *)
Definition on_spatial_index {S A} (m : M (S * World) A) : M (t S * World) A :=
  fun '(self, w) =>
    let '(r, (s', w')) := m (spatial_index self, w) in
    (r, (set_spatial_index s' self, w')).

Section Decorator.

Context {S : Type} {wrapped : SpatialIndexInterface S}.

(** In the two methods below, the [build_index] and
    [find_restaurants_in_radius] applied under [on_spatial_index] are the
    methods of the wrapped index. *)
Definition build_index (restaurants_data : DataFrame) : M (t S * World) unit :=
  let* _ := update_self (set_cache []) in
  let* _ := update_self (set_cache_hits 0) in
  let* _ := update_self (set_cache_misses 0) in
  on_spatial_index (build_index restaurants_data).

Definition make_cache_key (latitude longitude : Q) (current_time : option instant)
  : cache_key :=
  let time_key :=
    match current_time with
    | None => None
    | Some c => Some (pretty (instant_hour c) ++ ":" ++ pretty (instant_minute c))%string
    end in
  (round_ndigits latitude 4, round_ndigits longitude 4, time_key).

Definition find_restaurants_in_radius (latitude longitude : Q)
           (current_time : option instant) : M (t S * World) (list Z) :=
  let cache_key := make_cache_key latitude longitude current_time in
  let* self := get_self in
  if dict_contains cache_key (cache self) then
    let* _ := update_self (fun self => set_cache_hits (cache_hits self + 1) self) in
    let* self := get_self in
    match dict_get cache_key (cache self) with
    | Some result => ret result
    | None => raise KeyError
    end
  else
    let* _ := update_self (fun self => set_cache_misses (cache_misses self + 1) self) in
    let* result :=
      on_spatial_index (find_restaurants_in_radius latitude longitude current_time) in
    let* self := get_self in
    let* _ :=
      if Z.of_nat (length (cache self)) >=? cache_size self then
        let* k := of_outcome (dict_first_key (cache self)) in
        match dict_pop k (cache self) with
        | Some d => update_self (set_cache d)
        | None => raise KeyError
        end
      else ret tt in
    let* _ := update_self (fun self => set_cache (dict_set cache_key result (cache self)) self) in
    ret result.

(** [get_cache_stats]: hits, misses, size, max_size. *)
Definition get_cache_stats (self : t S) : Z * Z * Z * Z :=
  (cache_hits self, cache_misses self, Z.of_nat (length (cache self)), cache_size self).

End Decorator.

End CachingSpatialIndex.

#[export] Instance CachingSpatialIndex_instance {S} {wrapped : SpatialIndexInterface S}
  : SpatialIndexInterface (CachingSpatialIndex.t S) :=
  {| build_index := CachingSpatialIndex.build_index;
     find_restaurants_in_radius := CachingSpatialIndex.find_restaurants_in_radius |}.

(** ** Shorthands used in the statements *)

(** The time of day an explicit [current_time] denotes. *)
Definition instant_time_of (i : instant) : time :=
  match i with
  | Instant_datetime d => dt_time d
  | Instant_time t => t
  end.

Definition time_leq (a b : time) : Prop := time_le a b = true.

Definition time_gt (a b : time) : Prop := time_compare a b = Gt.

(** The hours of a row parse. *)
Definition well_formed_hours (row : Row) : Prop :=
  (exists d, strptime_HMS (row_open_hour row) = Return d) /\
  (exists d, strptime_HMS (row_close_hour row) = Return d).

Definition restaurant_of_row (row : Row) : Restaurant :=
  mk_Restaurant (row_id row) (row_latitude row) (row_longitude row)
    (row_availability_radius row) (row_open_hour row) (row_close_hour row)
    (row_rating row).

(** The entry of the R-tree that [build_index] makes of a row. *)
Definition entry_of_row (row : Row) : Z * bbox :=
  (int64 (row_id row),
   (row_latitude row, row_longitude row, row_latitude row, row_longitude row)).

(** The box that [_get_candidate_restaurants] queries the R-tree with. *)
Definition prefilter_box (latitude longitude : Q) : bbox :=
  (binary64 (latitude - SpatialIndex.radius_deg),
   binary64 (longitude - SpatialIndex.radius_deg),
   binary64 (latitude + SpatialIndex.radius_deg),
   binary64 (longitude + SpatialIndex.radius_deg)).

(** The point of a row lies in that box. *)
Definition in_prefilter_box (latitude longitude : Q) (row : Row) : bool :=
  bbox_intersects (snd (entry_of_row row)) (prefilter_box latitude longitude).

(** The ids, as the R-tree keeps them, of the rows whose point lies in the
    box, in the order of the data frame. *)
Definition rows_in_box (latitude longitude : Q) (restaurants_df : DataFrame) : list Z :=
  List.map (fun row => int64 (row_id row))
           (List.filter (in_prefilter_box latitude longitude) restaurants_df).

(** The query point is within the delivery radius of the row. *)
Definition within_radius {dc : DistanceCalculatorInterface}
           (latitude longitude : Q) (row : Row) : bool :=
  Qle_bool (calculate_distance latitude longitude (row_latitude row) (row_longitude row))
           (row_availability_radius row).

(** [is_open] answers [True] for these hours at an explicit instant. *)
Definition open_at (i : instant) (open_hour close_hour : string) : bool :=
  match strptime_HMS open_hour, strptime_HMS close_hour with
  | Return o, Return c =>
      let t := instant_time_of i in
      if time_le (dt_time o) (dt_time c)
      then time_le (dt_time o) t && time_le t (dt_time c)
      else time_le (dt_time o) t || time_le t (dt_time c)
  | _, _ => false
  end.

(** What the fine filter decides for a candidate id at an explicit instant. *)
Definition candidate_available {dc : DistanceCalculatorInterface}
           (self : SpatialIndex.t) (latitude longitude : Q) (i : instant)
           (restaurant_id : Z) : bool :=
  match SpatialIndex.restaurants self !! restaurant_id with
  | Some r =>
      Qle_bool (calculate_distance latitude longitude (r_latitude r) (r_longitude r))
               (r_availability_radius r)
      && open_at i (r_open_hour r) (r_close_hour r)
  | None => false
  end.

(** The fine filter gets past a candidate at an explicit instant: the
    candidate is stored, and its hours parse if the query point is within
    its radius (they are not looked at otherwise). *)
Definition candidate_passes {dc : DistanceCalculatorInterface}
           (self : SpatialIndex.t) (latitude longitude : Q) (restaurant_id : Z) : Prop :=
  match SpatialIndex.restaurants self !! restaurant_id with
  | Some r =>
      Qle_bool (calculate_distance latitude longitude (r_latitude r) (r_longitude r))
               (r_availability_radius r) = true ->
      (exists d, strptime_HMS (r_open_hour r) = Return d) /\
      (exists d, strptime_HMS (r_close_hour r) = Return d)
  | None => False
  end.

(** The same decision read off a row of the data frame. *)
Definition row_available {dc : DistanceCalculatorInterface}
           (latitude longitude : Q) (i : instant) (row : Row) : bool :=
  within_radius latitude longitude row
  && open_at i (row_open_hour row) (row_close_hour row).

(** The scan over all loaded providers, in the order of the data frame. *)
Definition brute_force_scan (keep : Row -> bool) (restaurants_df : DataFrame)
  : list Z :=
  List.map row_id (List.filter keep restaurants_df).

Definition ascending (ids : list Z) : Prop := StronglySorted Z.le ids.

(** Sequences of calls on a caching index. *)
Inductive call : Type :=
| Call_find (latitude longitude : Q) (current_time : option instant)
| Call_build (restaurants_data : DataFrame).

Definition run_call {S} {wrapped : SpatialIndexInterface S} (c : call)
           (st : CachingSpatialIndex.t S * World) : CachingSpatialIndex.t S * World :=
  match c with
  | Call_find latitude longitude current_time =>
      snd (CachingSpatialIndex.find_restaurants_in_radius latitude longitude current_time st)
  | Call_build restaurants_data =>
      snd (CachingSpatialIndex.build_index restaurants_data st)
  end.

Definition run_calls {S} {wrapped : SpatialIndexInterface S} (calls : list call)
           (st : CachingSpatialIndex.t S * World) : CachingSpatialIndex.t S * World :=
  fold_left (fun st c => run_call c st) calls st.

(** The number of queries since construction or the latest [build_index]. *)
Definition queries_since_build (calls : list call) : Z :=
  fold_left (fun n c => match c with Call_find _ _ _ => n + 1 | Call_build _ => 0 end)
            calls 0.

(** Two queries the cache cannot tell apart. *)
Definition same_minute (a b : option instant) : Prop :=
  match a, b with
  | None, None => True
  | Some x, Some y => instant_hour x = instant_hour y /\ instant_minute x = instant_minute y
  | _, _ => False
  end.

(** The row that [build_index] leaves in the dictionary under an id: the
    last one of the data frame carrying it. *)
Fixpoint last_row_with_id (i : Z) (restaurants_df : DataFrame) : option Row :=
  match restaurants_df with
  | [] => None
  | row :: rest =>
      match last_row_with_id i rest with
      | Some r => Some r
      | None => if row_id row =? i then Some row else None
      end
  end.

(** ** Concrete data

    An implementation of the distance interface on which the model can be
    run: 111 km per degree along the meridian plus 111 km per degree along
    the parallel.  It stands in for [pyproj] at the inputs below, where the
    geodesic distance gives the same comparisons: coincident points are at
    distance 0 for both; from (51.2, 6.45) to the first provider of the
    tests the geodesic is under 1 km against 1.25 km here (radius 5); and
    from (60, 0) to the four providers of [street_df] it is about 13.9,
    55.7, 27.9 and 0 km against 27.75, 55.5, 55.5 and 0 km here (radii 60,
    5, 60 and 10). *)
Definition taxicab_calculator : DistanceCalculatorInterface :=
  {| calculate_distance := fun lat1 lon1 lat2 lon2 =>
       (111 * (Qabs (lat1 - lat2) + Qabs (lon1 - lon2)))%Q |}.

(** The data frame of the tests. *)
Definition sample_restaurants_df : DataFrame :=
  [ mk_Row 1 (511942536 # 10000000) (6455508 # 1000000) 5 "14:00:00" "23:00:00" (47 # 10);
    mk_Row 2 (50132921 # 1000000) (196385061 # 10000000) 2 "14:00:00" "23:00:00" (48 # 10);
    mk_Row 3 (525018668 # 10000000) (133254556 # 10000000) 3 "09:00:00" "20:00:00" 4;
    mk_Row 4 (509118822 # 10000000) (44350511 # 10000000) 1 "08:00:00" "23:00:00" (49 # 10) ].

Definition hms (h m s : Z) : time := mk_time h m s 0.

Definition at_time (h m s : Z) : option instant :=
  Some (Instant_datetime (mk_datetime 1900 1 1 (hms h m s))).

(** A world whose clock always shows the given time of 2023-01-01. *)
Definition frozen_world (h m s : Z) : World :=
  mk_World (fun _ => mk_datetime 2023 1 1 (hms h m s)) 0.

(** Distances around the 60th parallel, where a degree of longitude is
    half as long as a degree of latitude: 111 km per degree along the
    meridian plus 55.5 km per degree along the parallel.  From (60, 0) to
    (60, 1) that is 55.5 km; the WGS84 geodesic is 55.8 km. *)
Definition parallel_60_calculator : DistanceCalculatorInterface :=
  {| calculate_distance := fun lat1 lon1 lat2 lon2 =>
       (111 * (Qabs (lat1 - lat2) + Qabs (lon1 - lon2) / 2))%Q |}.

(** A provider on the 60th parallel with a 60 km radius, open all day. *)
Definition parallel_row : Row := mk_Row 1 60 1 60 "00:00:00" "23:59:59" 5.

(** Four providers around (60, 0), loaded in the order of their ids: the
    second delivers within 5 km only, the fourth is open from 9 to 17. *)
Definition street_df : DataFrame :=
  [ mk_Row 1 60 (1 # 4) 60 "00:00:00" "23:59:59" 5;
    mk_Row 2 (121 # 2) 0 5 "00:00:00" "23:59:59" 5;
    mk_Row 3 60 (1 # 2) 60 "00:00:00" "23:59:59" 5;
    mk_Row 4 60 0 10 "09:00:00" "17:00:00" 5 ].

Definition noon : instant := Instant_datetime (mk_datetime 1900 1 1 (hms 12 0 0)).

(** Two providers at the same place, the larger id loaded first. *)
Definition unordered_df : DataFrame :=
  [ mk_Row 2 0 0 5 "00:00:00" "23:59:59" 5;
    mk_Row 1 0 0 5 "00:00:00" "23:59:59" 5 ].

(** Queries and a rebuild, in the order a caller might make them. *)
Definition sample_calls : list call :=
  [ Call_find (512 # 10) (645 # 100) None;
    Call_find 40 0 None;
    Call_build sample_restaurants_df;
    Call_find (512 # 10) (645 # 100) None;
    Call_find (512 # 10) (645 # 100) None ].

(** An earlier and a later dataset with different providers. *)
Definition earlier_df : DataFrame := [ mk_Row 1 0 0 5 "00:00:00" "23:59:59" 5 ].
Definition later_df : DataFrame := [ mk_Row 2 10 10 5 "00:00:00" "23:59:59" 5 ].

(** ** [factory.py]

    [create_index] passes the time checker and the distance calculator
    on to [SpatialIndex]; in the model they are the instances in context. *)

Module SpatialIndexFactory.

Definition create_index (index_type : string) : outcome SpatialIndex.t :=
  if String.eqb index_type "rtree"
  then Return SpatialIndex.init
  else Raise ValueError.

End SpatialIndexFactory.

(** [build_index] called on a new index with one data frame after the
    other. *)
Definition build_all (dfs : list DataFrame) : SpatialIndex.t :=
  fold_left (fun self df => SpatialIndex.build_index df self) dfs SpatialIndex.init.

(** The first test of the fine filter on a candidate: the query point is
    within the radius stored for it. *)
Definition candidate_within_radius {dc : DistanceCalculatorInterface}
           (self : SpatialIndex.t) (latitude longitude : Q) (restaurant_id : Z) : bool :=
  match SpatialIndex.restaurants self !! restaurant_id with
  | Some r =>
      Qle_bool (calculate_distance latitude longitude (r_latitude r) (r_longitude r))
               (r_availability_radius r)
  | None => false
  end.

(** No two entries of the dictionary carry the same key, as in every
    Python [dict]. *)
Fixpoint dict_keys_distinct {V} (d : dict V) : bool :=
  match d with
  | [] => true
  | (k, _) :: d' => negb (dict_contains k d') && dict_keys_distinct d'
  end.

(** Every character of a string satisfies [P]. *)
Fixpoint all_chars (P : ascii -> Prop) (s : string) : Prop :=
  match s with
  | EmptyString => True
  | String c s' => P c /\ all_chars P s'
  end.

(** A provider whose opening hour does not parse. *)
Definition malformed_df : DataFrame := [ mk_Row 1 0 0 5 "25:00:00" "23:00:00" 5 ].

(** A full cache of two entries, for the points (0, 0) and (1, 1). *)
Definition two_entries : dict (list Z) :=
  [ (@CachingSpatialIndex.make_cache_key 0 0 None, [1]);
    (@CachingSpatialIndex.make_cache_key 1 1 None, []) ].

(** ** [decorator.py]: the logging decorator

    The messages are kept as the values their f-strings print, and the
    lines that [_log] appends to the log file or prints are collected, with
    their destination, in the field [output] of the object. *)

Inductive log_message : Type :=
| Log_building (restaurants : nat)
    (* Building spatial index with {len(restaurants_data)} restaurants *)
| Log_built
    (* Spatial index built successfully *)
| Log_query (query_count : Z) (latitude longitude : Q) (current_time : option instant)
    (* Query #{query_count}: Finding restaurants near ({latitude}, {longitude}) at {current_time} *)
| Log_found (query_count : Z) (found : nat).
    (* Query #{query_count}: Found {len(result)} restaurants *)

Inductive log_destination : Type :=
| To_file (path : string)
| To_console.

Module LoggingSpatialIndex.

Record t (S : Type) : Type := mk {
  spatial_index : S;
  log_file : option string;
  query_count : Z;
  output : list (log_destination * log_message)
}.

Arguments mk {S}.
Arguments spatial_index {S}.
Arguments log_file {S}.
Arguments query_count {S}.
Arguments output {S}.

(** [__init__] *)
Definition init {S} (spatial_index : S) (log_file : option string) : t S :=
  mk spatial_index log_file 0 [].

Definition set_spatial_index {S} (x : S) (self : t S) : t S :=
  mk x (log_file self) (query_count self) (output self).

Definition set_query_count {S} (x : Z) (self : t S) : t S :=
  mk (spatial_index self) (log_file self) x (output self).

Definition get_self {S} : M (t S * World) (t S) :=
  fun '(self, w) => (Return self, (self, w)).

Definition update_self {S} (f : t S -> t S) : M (t S * World) unit :=
  fun '(self, w) => (Return tt, (f self, w)).

Definition on_spatial_index {S A} (m : M (S * World) A) : M (t S * World) A :=
  fun '(self, w) =>
    let '(r, (s', w')) := m (spatial_index self, w) in
    (r, (set_spatial_index s' self, w')).

(** [if self.log_file:] holds of a path that is not the empty string. *)
Definition destination {S} (self : t S) : log_destination :=
  match log_file self with
  | Some path => if String.eqb path EmptyString then To_console else To_file path
  | None => To_console
  end.

Definition _log {S} (message : log_message) : M (t S * World) unit :=
  update_self (fun self =>
    mk (spatial_index self) (log_file self) (query_count self)
       (output self ++ [(destination self, message)])).

Section Decorator.

Context {S : Type} {wrapped : SpatialIndexInterface S}.

(** As in the caching decorator, the methods applied under
    [on_spatial_index] are those of the wrapped index. *)
Definition build_index (restaurants_data : DataFrame) : M (t S * World) unit :=
  let* _ := _log (Log_building (length restaurants_data)) in
  let* _ := update_self (set_query_count 0) in
  let* _ := on_spatial_index (build_index restaurants_data) in
  _log Log_built.

Definition find_restaurants_in_radius (latitude longitude : Q)
           (current_time : option instant) : M (t S * World) (list Z) :=
  let* _ := update_self (fun self => set_query_count (query_count self + 1) self) in
  let* self := get_self in
  let* _ := _log (Log_query (query_count self) latitude longitude current_time) in
  let* result :=
    on_spatial_index (find_restaurants_in_radius latitude longitude current_time) in
  let* self := get_self in
  let* _ := _log (Log_found (query_count self) (length result)) in
  ret result.

End Decorator.

End LoggingSpatialIndex.

#[export] Instance LoggingSpatialIndex_instance {S} {wrapped : SpatialIndexInterface S}
  : SpatialIndexInterface (LoggingSpatialIndex.t S) :=
  {| build_index := LoggingSpatialIndex.build_index;
     find_restaurants_in_radius := LoggingSpatialIndex.find_restaurants_in_radius |}.

(** Calls made through a logging index. *)
Definition run_logged_call {S} {wrapped : SpatialIndexInterface S} (c : call)
           (st : LoggingSpatialIndex.t S * World) : LoggingSpatialIndex.t S * World :=
  match c with
  | Call_find latitude longitude current_time =>
      snd (LoggingSpatialIndex.find_restaurants_in_radius latitude longitude current_time st)
  | Call_build restaurants_data =>
      snd (LoggingSpatialIndex.build_index restaurants_data st)
  end.

Definition run_logged_calls {S} {wrapped : SpatialIndexInterface S} (calls : list call)
           (st : LoggingSpatialIndex.t S * World) : LoggingSpatialIndex.t S * World :=
  fold_left (fun st c => run_logged_call c st) calls st.

(** ** [filter_strategy.py] *)

Class FilterStrategy : Type := {
  filter_restaurants :
    list Z -> gmap Z Restaurant -> Q -> Q -> option instant -> M World (list Z)
}.

Module DistanceAndTimeFilterStrategy.

Section WithDependencies.

Context {distance_calculator : DistanceCalculatorInterface}.
Context {time_checker : TimeCheckerInterface}.

(** The loop of [filter_restaurants]; [available_restaurants] is the list
    built so far. *)
Fixpoint filter_loop (candidates : list Z) (restaurants : gmap Z Restaurant)
         (user_lat user_lon : Q) (current_time : option instant)
         (available_restaurants : list Z) : M World (list Z) :=
  match candidates with
  | [] => ret available_restaurants
  | restaurant_id :: candidates' =>
      let* restaurant :=
        match restaurants !! restaurant_id with
        | Some r => ret r
        | None => raise KeyError
        end in
      let distance :=
        calculate_distance user_lat user_lon
          (r_latitude restaurant) (r_longitude restaurant) in
      let* keep :=
        if Qle_bool distance (r_availability_radius restaurant)
        then is_open (r_open_hour restaurant) (r_close_hour restaurant) current_time
        else ret false in
      filter_loop candidates' restaurants user_lat user_lon current_time
        (if keep then available_restaurants ++ [restaurant_id]
         else available_restaurants)
  end.

Definition filter_restaurants (candidates : list Z) (restaurants : gmap Z Restaurant)
           (user_lat user_lon : Q) (current_time : option instant)
  : M World (list Z) :=
  filter_loop candidates restaurants user_lat user_lon current_time [].

End WithDependencies.

End DistanceAndTimeFilterStrategy.

#[export] Instance DistanceAndTimeFilterStrategy_instance
  {distance_calculator : DistanceCalculatorInterface}
  {time_checker : TimeCheckerInterface} : FilterStrategy :=
  {| filter_restaurants := DistanceAndTimeFilterStrategy.filter_restaurants |}.

Module RatingFilterStrategy.

(** The comprehension
    [[id for id in base_results if restaurants[id]['rating'] >= min_rating]]. *)
Fixpoint by_rating (restaurants : gmap Z Restaurant) (min_rating : Q)
         (base_results : list Z) : outcome (list Z) :=
  match base_results with
  | [] => Return []
  | restaurant_id :: rest =>
      match restaurants !! restaurant_id with
      | None => Raise KeyError
      | Some r =>
          match by_rating restaurants min_rating rest with
          | Return kept =>
              Return (if Qle_bool min_rating (r_rating r)
                      then restaurant_id :: kept else kept)
          | Raise e => Raise e
          end
      end
  end.

Definition filter_restaurants (base_strategy : FilterStrategy) (min_rating : Q)
           (candidates : list Z) (restaurants : gmap Z Restaurant)
           (user_lat user_lon : Q) (current_time : option instant)
  : M World (list Z) :=
  let* base_results :=
    @filter_restaurants base_strategy candidates restaurants
      user_lat user_lon current_time in
  of_outcome (by_rating restaurants min_rating base_results).

End RatingFilterStrategy.

(** [RatingFilterStrategy(base_strategy, min_rating)] *)
Definition RatingFilterStrategy_instance (base_strategy : FilterStrategy)
           (min_rating : Q) : FilterStrategy :=
  {| filter_restaurants :=
       RatingFilterStrategy.filter_restaurants base_strategy min_rating |}.

(** The rating stored for an id is at least [min_rating]. *)
Definition rated_at_least (restaurants : gmap Z Restaurant) (min_rating : Q)
           (restaurant_id : Z) : bool :=
  match restaurants !! restaurant_id with
  | Some r => Qle_bool min_rating (r_rating r)
  | None => false
  end.

(** ** [composite.py]

    A region is the tree of its parts as it stands when [contains] is
    called.  [CompositeRegion], [UnionRegion] and [IntersectionRegion] share
    the list [regions] and [add_region]; they differ in [contains].
    [remove_region] compares regions by object identity, which a tree of
    values does not have, and is left out. *)

Inductive composite_kind : Type :=
| Composite
| Union
| Intersection.

#[warnings="-register-all"]
Inductive Region : Type :=
| CircleRegion (center_lat center_lon radius_km : Q)
| RectangleRegion (sw_lat sw_lon ne_lat ne_lon : Q)
| CompositeRegion (kind : composite_kind) (regions : list Region).

(** The two points [CircleRegion.contains] accepts without measuring:
    the doubles that the literals 50.5, 5.5, 51.1 and 6.1 denote. *)
Definition is_test_point (latitude longitude : Q) : bool :=
  (Qeq_bool latitude (binary64 (505 # 10)) && Qeq_bool longitude (binary64 (55 # 10)))
  || (Qeq_bool latitude (binary64 (511 # 10)) && Qeq_bool longitude (binary64 (61 # 10))).

Fixpoint contains {distance_calculator : DistanceCalculatorInterface}
         (self : Region) (latitude longitude : Q) : bool :=
  match self with
  | CircleRegion center_lat center_lon radius_km =>
      if is_test_point latitude longitude then true
      else
        let distance := calculate_distance center_lat center_lon latitude longitude in
        Qle_bool distance radius_km
  | RectangleRegion sw_lat sw_lon ne_lat ne_lon =>
      (Qle_bool sw_lat latitude && Qle_bool latitude ne_lat)
      && (Qle_bool sw_lon longitude && Qle_bool longitude ne_lon)
  | CompositeRegion Composite regions
  | CompositeRegion Union regions =>
      existsb (fun region => contains region latitude longitude) regions
  | CompositeRegion Intersection regions =>
      match regions with
      | [] => false
      | _ => forallb (fun region => contains region latitude longitude) regions
      end
  end.

(** [add_region], a method of the composite classes only. *)
Definition add_region (self : Region) (region : Region) : option Region :=
  match self with
  | CompositeRegion kind regions => Some (CompositeRegion kind (regions ++ [region]))
  | _ => None
  end.

(** ** [observer.py]

    Observers are objects that the subject holds by reference and compares
    by identity; the model keeps them in a heap, under the references that
    the subject lists.  The lines an [AvailabilityLogger] appends to its
    file or prints are collected in its field [lines]. *)

Inductive Observer : Type :=
| AvailabilityLogger (log_file : option string) (lines : list string)
| AvailabilityMonitor (restaurants_of_interest : gset Z)
                      (available_restaurants_of_interest : gset Z).

(** [update], of either class. *)
Definition update (self : Observer) (restaurant_id : Z) (is_available : bool) : Observer :=
  match self with
  | AvailabilityLogger log_file lines =>
      let status := if is_available then "available" else "unavailable" in
      let message := ("Restaurant " +:+ pretty restaurant_id +:+ " is now " +:+ status) in
      AvailabilityLogger log_file (lines ++ [message])
  | AvailabilityMonitor restaurants_of_interest available =>
      if decide (restaurant_id ∈ restaurants_of_interest) then
        if is_available
        then AvailabilityMonitor restaurants_of_interest (available ∪ {[restaurant_id]})
        else AvailabilityMonitor restaurants_of_interest (available ∖ {[restaurant_id]})
      else self
  end.

(** [AvailabilityMonitor(restaurants_of_interest)] *)
Definition new_monitor (restaurants_of_interest : list Z) : Observer :=
  AvailabilityMonitor (list_to_set restaurants_of_interest) ∅.

(** [is_any_available]; [false] for a logger, which has no such method. *)
Definition is_any_available (self : Observer) : bool :=
  match self with
  | AvailabilityMonitor _ available => negb (Nat.eqb (size available) 0)
  | AvailabilityLogger _ _ => false
  end.

Module RestaurantAvailabilitySubject.

Record t : Type := mk {
  observers : list nat;           (* references into the heap *)
  available_restaurants : gset Z
}.

(** [__init__] *)
Definition init : t := mk [] ∅.

(** [x in l], on references. *)
Definition ref_in (observer : nat) (l : list nat) : bool :=
  existsb (Nat.eqb observer) l.

(** [l.remove(x)]: without the first occurrence of [x]. *)
Fixpoint list_remove (observer : nat) (l : list nat) : list nat :=
  match l with
  | [] => []
  | o :: l' => if Nat.eqb observer o then l' else o :: list_remove observer l'
  end.

Definition attach (observer : nat) (self : t) : t :=
  if negb (ref_in observer (observers self))
  then mk (observers self ++ [observer]) (available_restaurants self)
  else self.

Definition detach (observer : nat) (self : t) : t :=
  if ref_in observer (observers self)
  then mk (list_remove observer (observers self)) (available_restaurants self)
  else self.

(** [notify_availability_change]: the subject first, then every observer
    in the order of the list. *)
Definition notify_availability_change (restaurant_id : Z) (is_available : bool)
           (st : t * gmap nat Observer) : t * gmap nat Observer :=
  let '(self, heap) := st in
  let self' :=
    if is_available
    then mk (observers self) (available_restaurants self ∪ {[restaurant_id]})
    else mk (observers self) (available_restaurants self ∖ {[restaurant_id]}) in
  (self',
   fold_left (fun heap observer =>
                alter (fun o => update o restaurant_id is_available) observer heap)
             (observers self') heap).

(** [get_available_restaurants] *)
Definition get_available_restaurants (self : t) : gset Z := available_restaurants self.

End RestaurantAvailabilitySubject.

(** What a program does with a subject, step by step. *)
Inductive subject_call : Type :=
| Attach (observer : nat)
| Detach (observer : nat)
| Notify (restaurant_id : Z) (is_available : bool).

Definition run_subject_call (c : subject_call)
           (st : RestaurantAvailabilitySubject.t * gmap nat Observer)
  : RestaurantAvailabilitySubject.t * gmap nat Observer :=
  match c with
  | Attach observer => (RestaurantAvailabilitySubject.attach observer (fst st), snd st)
  | Detach observer => (RestaurantAvailabilitySubject.detach observer (fst st), snd st)
  | Notify restaurant_id is_available =>
      RestaurantAvailabilitySubject.notify_availability_change restaurant_id is_available st
  end.

Definition run_subject_calls (calls : list subject_call)
           (st : RestaurantAvailabilitySubject.t * gmap nat Observer)
  : RestaurantAvailabilitySubject.t * gmap nat Observer :=
  fold_left (fun st c => run_subject_call c st) calls st.

(** No call of the list detaches the observer. *)
Definition never_detaches (observer : nat) (calls : list subject_call) : Prop :=
  ~ In (Detach observer) calls.

(** ** [result_writer.py]

    Of [write_results], the rows it hands to [csv.writer.writerow], one per
    result, each a location and the field of restaurant ids; creating the
    directory, opening the file and the quoting of the [csv] module are
    outside the model. *)

(** [sep.join(parts)] *)
Fixpoint join (sep : string) (parts : list string) : string :=
  match parts with
  | [] => EmptyString
  | [part] => part
  | part :: rest => part +:+ sep +:+ join sep rest
  end.

Module CSVResultWriter.

Definition row (result : string * list Z) : list string :=
  let user_location := fst result in
  let available_restaurants := snd result in
  match available_restaurants with
  | _ :: _ =>
      let restaurant_ids := join ";" (List.map pretty available_restaurants) in
      [user_location; restaurant_ids]
  | [] => [user_location; EmptyString]
  end.

Definition write_results (results : list (string * list Z)) : list (list string) :=
  List.map row results.

End CSVResultWriter.

(** The observers of the test: a logger and a monitor of 1, 3 and 5. *)
Definition test_heap : gmap nat Observer :=
  {[ 0%nat := AvailabilityLogger None []; 1%nat := new_monitor [1; 3; 5] ]}.

Definition test_notifications : list subject_call :=
  [ Attach 0; Notify 1 true; Notify 2 true; Notify 1 false; Detach 0; Notify 3 true ].


(** * Properties *)

(** ** The time checker *)

Lemma strptime_HMS_raises (s : string) (e : exception) :
  strptime_HMS s = Raise e -> e = ValueError.
Proof.
  unfold strptime_HMS.
  destruct (re_HMS s) as [|[[[h m] sec] rest] l]; [congruence|].
  destruct rest; [|congruence].
  destruct (sec <=? 59); congruence.
Qed.

Lemma time_le_false_gt (a b : time) : time_le a b = false <-> time_gt a b.
Proof.
  unfold time_le, time_gt.
  destruct (time_compare a b); split; congruence.
Qed.

(** With an explicit instant, [is_open] is a function of its arguments. *)
Lemma is_open_explicit (open_hour close_hour : string) (i : instant) (w : World) :
  TimeChecker.is_open open_hour close_hour (Some i) w =
  (match strptime_HMS open_hour with
   | Raise e => Raise e
   | Return o =>
       match strptime_HMS close_hour with
       | Raise e => Raise e
       | Return c =>
           let t := instant_time_of i in
           Return (if time_le (dt_time o) (dt_time c)
                   then time_le (dt_time o) t && time_le t (dt_time c)
                   else time_le (dt_time o) t || time_le t (dt_time c))
       end
   end, w).
Proof.
  unfold TimeChecker.is_open, bind, of_outcome, ret.
  destruct i as [d|t]; cbn;
    destruct (strptime_HMS open_hour) as [o|e]; try reflexivity;
    destruct (strptime_HMS close_hour) as [c|e]; try reflexivity;
    destruct (time_le (dt_time o) (dt_time c)); reflexivity.
Qed.

(** Without an instant, [is_open] reads the clock once and then behaves as
    at the time of day read. *)
Lemma is_open_omitted (open_hour close_hour : string) (w : World) :
  TimeChecker.is_open open_hour close_hour None w =
  (fst (TimeChecker.is_open open_hour close_hour
          (Some (Instant_datetime (clock w (reads w)))) w),
   mk_World (clock w) (S (reads w))).
Proof.
  rewrite is_open_explicit.
  unfold TimeChecker.is_open, bind, of_outcome, ret, datetime_now; cbn.
  destruct (strptime_HMS open_hour) as [o|e]; try reflexivity.
  destruct (strptime_HMS close_hour) as [c|e]; try reflexivity.
  destruct (time_le (dt_time o) (dt_time c)); reflexivity.
Qed.

(** C5: for well-formed opening and closing hours and every instant,
    [is_open] returns a boolean that is true exactly when the instant lies
    in the closed window [open, close] if [open <= close], and exactly when
    it is at or after [open] or at or before [close] if [open > close]; a
    22:00:00-06:00:00 window is open at 23:00:00 and 02:00:00 and closed at
    21:59:59 and 06:00:01. *)
Theorem is_open_window :
  (forall (open_hour close_hour : string) (open_dt close_dt : datetime)
          (i : instant) (w : World),
      strptime_HMS open_hour = Return open_dt ->
      strptime_HMS close_hour = Return close_dt ->
      let open_time := dt_time open_dt in
      let close_time := dt_time close_dt in
      let t := instant_time_of i in
      exists b : bool,
        TimeChecker.is_open open_hour close_hour (Some i) w = (Return b, w) /\
        (time_leq open_time close_time ->
         (b = true <-> time_leq open_time t /\ time_leq t close_time)) /\
        (time_gt open_time close_time ->
         (b = true <-> time_leq open_time t \/ time_leq t close_time))) /\
  (forall w : World,
      fst (TimeChecker.is_open "22:00:00" "06:00:00" (at_time 23 0 0) w) = Return true /\
      fst (TimeChecker.is_open "22:00:00" "06:00:00" (at_time 2 0 0) w) = Return true /\
      fst (TimeChecker.is_open "22:00:00" "06:00:00" (at_time 21 59 59) w) = Return false /\
      fst (TimeChecker.is_open "22:00:00" "06:00:00" (at_time 6 0 1) w) = Return false).
Proof.
  split.
  - intros open_hour close_hour open_dt close_dt i w Ho Hc open_time close_time t.
    rewrite is_open_explicit, Ho, Hc; cbn zeta.
    fold open_time close_time t.
    eexists; split; [reflexivity|].
    unfold time_leq; split.
    + intros Hle. rewrite Hle. apply andb_true_iff.
    + intros Hgt. apply time_le_false_gt in Hgt. rewrite Hgt. apply orb_true_iff.
  - intros w. unfold at_time. rewrite !is_open_explicit. repeat split.
Qed.

Lemma is_open_window_witness :
  exists b : bool,
    TimeChecker.is_open "14:00:00" "23:00:00" (at_time 23 0 0) (frozen_world 9 0 0)
    = (Return b, frozen_world 9 0 0) /\ b = true.
Proof.
  destruct (proj1 is_open_window "14:00:00" "23:00:00" _ _
              (Instant_datetime (mk_datetime 1900 1 1 (hms 23 0 0)))
              (frozen_world 9 0 0) eq_refl eq_refl) as (b & Hrun & Hle & _).
  exists b. split; [exact Hrun|].
  apply Hle; [reflexivity | split; reflexivity].
Defined.

(** C8 (as stated, refuted): [is_open] is handed the opening hours as
    strings and parses them itself, so a malformed string is rejected
    inside it with [ValueError]; and without an instant its answer follows
    the wall clock. *)
Lemma is_open_rejects_inside :
  fst (TimeChecker.is_open "25:00:00" "23:00:00" (at_time 15 0 0) (frozen_world 15 0 0))
  = Raise ValueError /\
  fst (TimeChecker.is_open "14:00:00" "23:00:00" None (frozen_world 15 0 0))
  <> fst (TimeChecker.is_open "14:00:00" "23:00:00" None (frozen_world 12 0 0)).
Proof.
  split; [reflexivity|].
  rewrite !is_open_omitted. cbn. discriminate.
Qed.

(** C8 (amended): [is_open] takes the two hours as ['%H:%M:%S'] strings and
    parses them itself.  When both parse it returns a boolean, whatever the
    instant argument; when one of them does not parse it raises
    [ValueError]; with an explicit instant it neither reads nor changes the
    world; and without one it takes one reading of the clock and answers
    for that time of day. *)
Theorem is_open_total_on_well_formed
        (open_hour close_hour : string) (current_time : option instant) (w : World) :
  ((exists d, strptime_HMS open_hour = Return d) ->
   (exists d, strptime_HMS close_hour = Return d) ->
   exists b : bool,
     fst (TimeChecker.is_open open_hour close_hour current_time w) = Return b) /\
  ((exists e, strptime_HMS open_hour = Raise e) \/
   (exists e, strptime_HMS close_hour = Raise e) ->
   fst (TimeChecker.is_open open_hour close_hour current_time w) = Raise ValueError) /\
  (forall (i : instant) (w' : World),
      TimeChecker.is_open open_hour close_hour (Some i) w' =
      (fst (TimeChecker.is_open open_hour close_hour (Some i) w), w')) /\
  TimeChecker.is_open open_hour close_hour None w =
  (fst (TimeChecker.is_open open_hour close_hour
          (Some (Instant_datetime (clock w (reads w)))) w),
   mk_World (clock w) (S (reads w))).
Proof.
  assert (Hred : exists i, fst (TimeChecker.is_open open_hour close_hour current_time w) =
                           fst (TimeChecker.is_open open_hour close_hour (Some i) w)).
  { destruct current_time as [j|].
    - exists j; reflexivity.
    - eexists. rewrite is_open_omitted. reflexivity. }
  destruct Hred as [i Hred].
  split; [|split; [|split]].
  - intros [o Ho] [c Hc]. rewrite Hred, is_open_explicit, Ho, Hc.
    eexists; reflexivity.
  - intros Hbad. rewrite Hred, is_open_explicit. cbn [fst].
    destruct (strptime_HMS open_hour) as [o|e] eqn:Ho.
    + destruct Hbad as [[e He]|[e He]]; [discriminate|].
      rewrite He. f_equal. eapply strptime_HMS_raises; eassumption.
    + f_equal. eapply strptime_HMS_raises; eassumption.
  - intros j w'. rewrite !is_open_explicit. reflexivity.
  - apply is_open_omitted.
Qed.

Lemma is_open_total_on_well_formed_witness :
  (exists b : bool,
     fst (TimeChecker.is_open "09:00:00" "20:00:00" None (frozen_world 15 0 0)) = Return b) /\
  fst (TimeChecker.is_open "09:00:00" "20:61:00" None (frozen_world 15 0 0))
  = Raise ValueError.
Proof.
  split.
  - apply (proj1 (is_open_total_on_well_formed "09:00:00" "20:00:00" None
                    (frozen_world 15 0 0))); eexists; reflexivity.
  - apply (proj1 (proj2 (is_open_total_on_well_formed "09:00:00" "20:61:00" None
                           (frozen_world 15 0 0)))).
    right. eexists; reflexivity.
Defined.

(** ** Building the index *)

Lemma build_index_cons (row : Row) (df : DataFrame) (self : SpatialIndex.t) :
  SpatialIndex.build_index (row :: df) self =
  SpatialIndex.build_index df (SpatialIndex.build_row self row).
Proof. reflexivity. Qed.

Lemma build_index_entries (df : DataFrame) (self : SpatialIndex.t) :
  rtree_entries (SpatialIndex.idx (SpatialIndex.build_index df self)) =
  rtree_entries (SpatialIndex.idx self) ++ List.map entry_of_row df.
Proof.
  revert self. induction df as [|row df IH]; intros self.
  - cbn. now rewrite app_nil_r.
  - rewrite build_index_cons, IH. cbn. now rewrite <- app_assoc.
Qed.

Lemma build_index_lookup (df : DataFrame) (self : SpatialIndex.t) (i : Z) :
  SpatialIndex.restaurants (SpatialIndex.build_index df self) !! i =
  match last_row_with_id i df with
  | Some row => Some (restaurant_of_row row)
  | None => SpatialIndex.restaurants self !! i
  end.
Proof.
  revert self. induction df as [|row df IH]; intros self; [reflexivity|].
  rewrite build_index_cons, IH. cbn.
  destruct (last_row_with_id i df); [reflexivity|].
  rewrite lookup_insert.
  destruct (Z.eqb_spec (row_id row) i) as [<-|Hne].
  - rewrite decide_True by reflexivity. reflexivity.
  - rewrite decide_False by assumption. reflexivity.
Qed.

Lemma last_row_with_id_None (i : Z) (df : DataFrame) :
  ~ In i (List.map row_id df) -> last_row_with_id i df = None.
Proof.
  induction df as [|row df IH]; cbn; [reflexivity|].
  intros Hnot. rewrite IH by tauto.
  destruct (Z.eqb_spec (row_id row) i); [tauto | reflexivity].
Qed.

Lemma last_row_with_id_NoDup (df : DataFrame) (row : Row) :
  List.NoDup (List.map row_id df) -> In row df ->
  last_row_with_id (row_id row) df = Some row.
Proof.
  induction df as [|r df IH]; cbn; [tauto|].
  intros Hnd Hin. apply NoDup_cons_iff in Hnd as [Hnot Hnd].
  destruct Hin as [->|Hin].
  - now rewrite last_row_with_id_None, Z.eqb_refl.
  - now rewrite IH.
Qed.

(** C4: [SpatialIndex.build_index] never empties the R-tree or the
    dictionary.  After a second call with another dataset, a provider of
    the earlier dataset alone is still stored and is still returned; after
    a second call with the same dataset, the query returns its provider
    twice. *)
Theorem build_index_keeps_earlier :
  let self :=
    SpatialIndex.build_index later_df
      (SpatialIndex.build_index earlier_df SpatialIndex.init) in
  let same :=
    SpatialIndex.build_index earlier_df
      (SpatialIndex.build_index earlier_df SpatialIndex.init) in
  ~ In 1 (List.map row_id later_df) /\
  SpatialIndex.restaurants self !! 1 <> None /\
  In 1 (List.map fst (rtree_entries (SpatialIndex.idx self))) /\
  fst (@SpatialIndex.find_restaurants_in_radius
         taxicab_calculator _ insertion_order_rtree
         self 0 0 (at_time 12 0 0) (frozen_world 12 0 0)) = Return [1] /\
  fst (@SpatialIndex.find_restaurants_in_radius
         taxicab_calculator _ insertion_order_rtree
         same 0 0 (at_time 12 0 0) (frozen_world 12 0 0)) = Return [1; 1].
Proof.
  cbv zeta. split; [|split; [|split; [|split]]].
  - cbn. intros [H|[]]. discriminate H.
  - vm_compute. discriminate.
  - cbn. left. reflexivity.
  - vm_compute. reflexivity.
  - vm_compute. reflexivity.
Qed.

(** X29: [build_index] adds the dataset to what the index already holds.
    The R-tree keeps its entries and gains one per row, under the id of
    the row as a 64-bit integer; the dictionary maps an id of the new
    dataset to its last row with that id and keeps every other id as it
    was; so a second call leaves the index as a single call on both
    datasets one after the other would, and the dictionary of an index
    that was empty has exactly the ids of the new dataset. *)
Theorem build_index_accumulates (df1 df2 : DataFrame) (self : SpatialIndex.t) :
  SpatialIndex.build_index df2 (SpatialIndex.build_index df1 self) =
  SpatialIndex.build_index (df1 ++ df2) self /\
  rtree_entries (SpatialIndex.idx (SpatialIndex.build_index df2 self)) =
  rtree_entries (SpatialIndex.idx self) ++ List.map entry_of_row df2 /\
  (forall i : Z,
      SpatialIndex.restaurants (SpatialIndex.build_index df2 self) !! i =
      match last_row_with_id i df2 with
      | Some row => Some (restaurant_of_row row)
      | None => SpatialIndex.restaurants self !! i
      end) /\
  (forall i : Z,
      SpatialIndex.restaurants (SpatialIndex.build_index df2 SpatialIndex.init) !! i <> None
      <-> In i (List.map row_id df2)).
Proof.
  split; [|split; [|split]].
  - unfold SpatialIndex.build_index. now rewrite fold_left_app.
  - apply build_index_entries.
  - intros i. apply build_index_lookup.
  - intros i. rewrite build_index_lookup. cbn.
    split.
    + intros H. destruct (in_dec Z.eq_dec i (List.map row_id df2)) as [Hin|Hnot]; [exact Hin|].
      rewrite (last_row_with_id_None _ _ Hnot), lookup_empty in H. now destruct H.
    + intros Hin. induction df2 as [|row df IH]; [destruct Hin|].
      cbn. destruct (last_row_with_id i df) eqn:E; [discriminate|].
      destruct Hin as [->|Hin].
      * rewrite Z.eqb_refl. discriminate.
      * specialize (IH Hin). rewrite lookup_empty in IH. now destruct IH.
Qed.

(** ** The fine filter *)

Lemma open_at_is_open (i : instant) (open_hour close_hour : string) (w : World) :
  open_at i open_hour close_hour = true <->
  fst (TimeChecker.is_open open_hour close_hour (Some i) w) = Return true.
Proof.
  rewrite is_open_explicit. unfold open_at. cbn.
  destruct (strptime_HMS open_hour) as [o|e]; [|split; discriminate].
  destruct (strptime_HMS close_hour) as [c|e]; [|split; discriminate].
  split; [intros -> | intros H; injection H]; auto.
Qed.

Section FineFilter.

Context {distance_calculator : DistanceCalculatorInterface}.

Section AnyTimeChecker.

Context {time_checker : TimeCheckerInterface}.

(** One turn of the loop of [_filter_candidates]. *)
Lemma filter_loop_cons (self : SpatialIndex.t) (restaurant_id : Z)
      (candidates : list Z) (latitude longitude : Q)
      (current_time : option instant) (available : list Z) (w : World) :
  SpatialIndex.filter_loop self (restaurant_id :: candidates)
    latitude longitude current_time available w =
  match SpatialIndex.restaurants self !! restaurant_id with
  | None => (Raise KeyError, w)
  | Some r =>
      if Qle_bool (calculate_distance latitude longitude (r_latitude r) (r_longitude r))
                  (r_availability_radius r)
      then
        match is_open (r_open_hour r) (r_close_hour r) current_time w with
        | (Return keep, w') =>
            SpatialIndex.filter_loop self candidates latitude longitude current_time
              (if keep then available ++ [restaurant_id] else available) w'
        | (Raise e, w') => (Raise e, w')
        end
      else
        SpatialIndex.filter_loop self candidates latitude longitude current_time
          available w
  end.
Proof.
  cbn [SpatialIndex.filter_loop]. unfold bind at 1.
  destruct (SpatialIndex.restaurants self !! restaurant_id) as [r|]; [|reflexivity].
  cbn [ret]. unfold bind at 1.
  destruct (Qle_bool _ _); [|reflexivity].
  destruct (is_open _ _ _ w) as [[keep|e] w']; reflexivity.
Qed.

(** The list returned extends the list built so far by candidates
    taken in their order. *)
Lemma filter_loop_sublist (self : SpatialIndex.t) (candidates : list Z)
      (latitude longitude : Q) (current_time : option instant) :
  forall (available ids : list Z) (w w' : World),
    SpatialIndex.filter_loop self candidates latitude longitude current_time
      available w = (Return ids, w') ->
    exists kept, ids = available ++ kept /\ sublist kept candidates.
Proof.
  induction candidates as [|c candidates IH]; intros available ids w w' Hrun.
  - cbn in Hrun. injection Hrun as <- _. exists []. split.
    + now rewrite app_nil_r.
    + constructor.
  - rewrite filter_loop_cons in Hrun.
    destruct (SpatialIndex.restaurants self !! c) as [r|]; [|discriminate].
    destruct (Qle_bool _ _).
    + destruct (is_open _ _ _ w) as [[[|]|e] w1]; [| |discriminate].
      * apply IH in Hrun as (kept & -> & Hsub).
        exists (c :: kept). split.
        -- now rewrite <- app_assoc.
        -- now constructor.
      * apply IH in Hrun as (kept & -> & Hsub).
        exists kept. split; [reflexivity | now constructor].
    + apply IH in Hrun as (kept & -> & Hsub).
      exists kept. split; [reflexivity | now constructor].
Qed.

End AnyTimeChecker.

(** With an explicit instant the loop neither reads nor changes the
    world. *)
Lemma filter_loop_explicit_pure (self : SpatialIndex.t) (candidates : list Z)
      (latitude longitude : Q) (i : instant) :
  forall (available : list Z) (w1 w2 : World),
    SpatialIndex.filter_loop self candidates latitude longitude (Some i) available w2 =
    (fst (SpatialIndex.filter_loop self candidates latitude longitude (Some i)
            available w1), w2).
Proof.
  induction candidates as [|c candidates IH]; intros available w1 w2; [reflexivity|].
  rewrite !filter_loop_cons.
  destruct (SpatialIndex.restaurants self !! c) as [r|]; [|reflexivity].
  destruct (Qle_bool _ _); [|apply IH].
  cbn [is_open TimeChecker_instance]. rewrite !is_open_explicit.
  destruct (strptime_HMS (r_open_hour r)) as [o|e]; [|reflexivity].
  destruct (strptime_HMS (r_close_hour r)) as [cl|e]; [|reflexivity].
  apply IH.
Qed.

(** When every candidate is stored with hours that parse, the loop
    returns the candidates the fine filter accepts, in their order. *)
Lemma filter_loop_explicit (self : SpatialIndex.t) (candidates : list Z)
      (latitude longitude : Q) (i : instant) :
  (forall c, In c candidates ->
             exists r, SpatialIndex.restaurants self !! c = Some r /\
                       (exists d, strptime_HMS (r_open_hour r) = Return d) /\
                       (exists d, strptime_HMS (r_close_hour r) = Return d)) ->
  forall (available : list Z) (w : World),
    SpatialIndex.filter_loop self candidates latitude longitude (Some i) available w =
    (Return (available ++
             List.filter (candidate_available self latitude longitude i) candidates), w).
Proof.
  induction candidates as [|c candidates IH]; intros Hstored available w.
  - cbn. now rewrite app_nil_r.
  - destruct (Hstored c (or_introl eq_refl)) as (r & Hr & [o Ho] & [cl Hcl]).
    assert (Hc : candidate_available self latitude longitude i c =
                 Qle_bool (calculate_distance latitude longitude
                             (r_latitude r) (r_longitude r))
                          (r_availability_radius r)
                 && open_at i (r_open_hour r) (r_close_hour r))
      by (unfold candidate_available; now rewrite Hr).
    assert (Hrest : forall c', In c' candidates ->
              exists r, SpatialIndex.restaurants self !! c' = Some r /\
                        (exists d, strptime_HMS (r_open_hour r) = Return d) /\
                        (exists d, strptime_HMS (r_close_hour r) = Return d))
      by (intros c' Hin; apply Hstored; now right).
    rewrite filter_loop_cons, Hr. cbn [List.filter]. rewrite Hc.
    destruct (Qle_bool _ _); cbn [andb]; [|now apply IH].
    cbn [is_open TimeChecker_instance]. rewrite is_open_explicit.
    unfold open_at. rewrite Ho, Hcl. cbn zeta.
    rewrite (IH Hrest).
    match goal with
    | |- context [if ?b then available ++ [c] else available] => destruct b
    end; [now rewrite <- app_assoc | reflexivity].
Qed.

(** Whenever the loop returns at an explicit instant, it returns the
    candidates the fine filter accepts, in their order. *)
Lemma filter_loop_returns (self : SpatialIndex.t) (candidates : list Z)
      (latitude longitude : Q) (i : instant) :
  forall (available ids : list Z) (w w' : World),
    SpatialIndex.filter_loop self candidates latitude longitude (Some i) available w =
    (Return ids, w') ->
    ids = available ++
          List.filter (candidate_available self latitude longitude i) candidates.
Proof.
  induction candidates as [|c candidates IH]; intros available ids w w' Hrun.
  - cbn in Hrun. injection Hrun as <- _. cbn. now rewrite app_nil_r.
  - rewrite filter_loop_cons in Hrun. cbn [List.filter].
    unfold candidate_available at 1.
    destruct (SpatialIndex.restaurants self !! c) as [r|]; [|discriminate].
    destruct (Qle_bool _ _); cbn [andb]; [|now apply IH in Hrun].
    cbn [is_open TimeChecker_instance] in Hrun. rewrite is_open_explicit in Hrun.
    unfold open_at.
    destruct (strptime_HMS (r_open_hour r)) as [o|e]; [|discriminate].
    destruct (strptime_HMS (r_close_hour r)) as [cl|e]; [|discriminate].
    cbn zeta in Hrun. apply IH in Hrun. rewrite Hrun.
    match goal with
    | |- context [if ?b then available ++ [c] else available] => destruct b
    end; [now rewrite <- app_assoc | reflexivity].
Qed.

End FineFilter.

(** ** The coarse prefilter *)

Lemma filter_map_commute {A B} (f : B -> bool) (g : A -> B) (l : list A) :
  List.filter f (List.map g l) = List.map g (List.filter (fun a => f (g a)) l).
Proof.
  induction l as [|a l IH]; cbn; [reflexivity|].
  destruct (f (g a)); cbn; now rewrite IH.
Qed.

Lemma filter_Permutation_list {A} (f : A -> bool) (l1 l2 : list A) :
  Permutation l1 l2 -> Permutation (List.filter f l1) (List.filter f l2).
Proof.
  induction 1 as [|x l1 l2 Hp IH|x y l|l1 l2 l3 H12 IH12 H23 IH23]; cbn.
  - constructor.
  - destruct (f x); [now constructor | exact IH].
  - destruct (f x), (f y); try reflexivity. constructor.
  - now transitivity (List.filter f l2).
Qed.

Lemma int64_id (i : Z) : is_int64 i -> int64 i = i.
Proof.
  unfold is_int64, int64. intros Hrange.
  rewrite Z.mod_small by lia. lia.
Qed.

Lemma in_prefilter_box_spec (latitude longitude : Q) (row : Row) :
  in_prefilter_box latitude longitude row = true <->
  (binary64 (latitude - SpatialIndex.radius_deg) <= row_latitude row /\
   row_latitude row <= binary64 (latitude + SpatialIndex.radius_deg) /\
   binary64 (longitude - SpatialIndex.radius_deg) <= row_longitude row /\
   row_longitude row <= binary64 (longitude + SpatialIndex.radius_deg))%Q.
Proof.
  unfold in_prefilter_box, prefilter_box, entry_of_row, bbox_intersects; cbn [snd].
  rewrite !andb_true_iff, !Qle_bool_iff. tauto.
Qed.

Lemma entries_meeting_rows (latitude longitude : Q) (df : DataFrame) :
  List.map fst (entries_meeting (prefilter_box latitude longitude)
                  (List.map entry_of_row df)) =
  rows_in_box latitude longitude df.
Proof.
  unfold entries_meeting, rows_in_box.
  rewrite filter_map_commute, map_map. reflexivity.
Qed.

Lemma entries_meeting_app (box : bbox) (entries1 entries2 : list (Z * bbox)) :
  entries_meeting box (entries1 ++ entries2) =
  entries_meeting box entries1 ++ entries_meeting box entries2.
Proof. apply List.filter_app. Qed.

Lemma built_index_entries (df : DataFrame) :
  rtree_entries (SpatialIndex.idx (SpatialIndex.build_index df SpatialIndex.init)) =
  List.map entry_of_row df.
Proof. rewrite build_index_entries. reflexivity. Qed.

Section Prefilter.

Context {rtree_library : RTreeInterface}.

(** The candidates are the ids of the entries that meet the box, in the
    order of the library. *)
Lemma candidates_Permutation (self : SpatialIndex.t) (latitude longitude : Q) :
  Permutation
    (SpatialIndex._get_candidate_restaurants self latitude longitude)
    (List.map fst (entries_meeting (prefilter_box latitude longitude)
                     (rtree_entries (SpatialIndex.idx self)))).
Proof.
  unfold SpatialIndex._get_candidate_restaurants, rtree_intersection.
  apply Permutation_map, visit_Permutation.
Qed.

(** While the entries fit one leaf, they come in the order of insertion. *)
Lemma candidates_one_leaf (self : SpatialIndex.t) (latitude longitude : Q) :
  (length (rtree_entries (SpatialIndex.idx self)) <= leaf_capacity)%nat ->
  SpatialIndex._get_candidate_restaurants self latitude longitude =
  List.map fst (entries_meeting (prefilter_box latitude longitude)
                  (rtree_entries (SpatialIndex.idx self))).
Proof.
  intros Hfit. unfold SpatialIndex._get_candidate_restaurants, rtree_intersection.
  now rewrite visit_one_leaf.
Qed.

(** On an index built once from a data frame, the candidates are the rows
    whose point lies in the box. *)
Lemma candidates_of_built_index (df : DataFrame) (latitude longitude : Q) :
  Permutation
    (SpatialIndex._get_candidate_restaurants
       (SpatialIndex.build_index df SpatialIndex.init) latitude longitude)
    (rows_in_box latitude longitude df).
Proof.
  rewrite <- entries_meeting_rows, <- built_index_entries.
  apply candidates_Permutation.
Qed.

Lemma candidates_of_small_index (df : DataFrame) (latitude longitude : Q) :
  (length df <= leaf_capacity)%nat ->
  SpatialIndex._get_candidate_restaurants
    (SpatialIndex.build_index df SpatialIndex.init) latitude longitude =
  rows_in_box latitude longitude df.
Proof.
  intros Hfit. rewrite candidates_one_leaf.
  - now rewrite built_index_entries, entries_meeting_rows.
  - now rewrite built_index_entries, length_map.
Qed.

(** X27: on an index built once from a data frame, the prefilter returns
    the providers whose point lies in the box of the query, each under its
    id as a 64-bit integer and as often as the data frame has it: the box
    runs from the latitude minus [radius_deg] to the latitude plus
    [radius_deg], and likewise in longitude, each bound rounded as a float.
    The order is that of the R-tree; it is the order of the data frame as
    long as the rows fit one leaf. *)
Theorem prefilter_returns_rows_in_box (df : DataFrame) (latitude longitude : Q) :
  let candidates :=
    SpatialIndex._get_candidate_restaurants
      (SpatialIndex.build_index df SpatialIndex.init) latitude longitude in
  Permutation candidates (rows_in_box latitude longitude df) /\
  ((length df <= leaf_capacity)%nat -> candidates = rows_in_box latitude longitude df) /\
  (forall i : Z,
     In i candidates <->
     exists row, In row df /\ int64 (row_id row) = i /\
       (binary64 (latitude - SpatialIndex.radius_deg) <= row_latitude row /\
        row_latitude row <= binary64 (latitude + SpatialIndex.radius_deg) /\
        binary64 (longitude - SpatialIndex.radius_deg) <= row_longitude row /\
        row_longitude row <= binary64 (longitude + SpatialIndex.radius_deg))%Q).
Proof.
  cbv zeta. split; [apply candidates_of_built_index|].
  split; [apply candidates_of_small_index|].
  intros i. split.
  - intros Hc. apply (Permutation_in _ (candidates_of_built_index df latitude longitude)) in Hc.
    unfold rows_in_box in Hc. apply in_map_iff in Hc as (row & Hid & Hin).
    apply filter_In in Hin as [Hin Hbox].
    exists row. split; [exact Hin|]. split; [exact Hid|].
    now apply in_prefilter_box_spec.
  - intros (row & Hin & <- & Hbox).
    apply (Permutation_in _ (Permutation_sym
                               (candidates_of_built_index df latitude longitude))).
    unfold rows_in_box.
    apply (in_map (fun r => int64 (row_id r))), filter_In. split; [exact Hin|].
    now apply in_prefilter_box_spec.
Qed.

End Prefilter.

(** On an index whose entries fit one leaf, the candidates do not depend
    on the library: what the examples below compute with
    [insertion_order_rtree], every library computes. *)
Lemma candidates_any_library (lib1 lib2 : RTreeInterface)
      (self : SpatialIndex.t) (latitude longitude : Q) :
  (length (rtree_entries (SpatialIndex.idx self)) <= leaf_capacity)%nat ->
  @SpatialIndex._get_candidate_restaurants lib1 self latitude longitude =
  @SpatialIndex._get_candidate_restaurants lib2 self latitude longitude.
Proof.
  intros Hfit.
  now rewrite (@candidates_one_leaf lib1), (@candidates_one_leaf lib2).
Qed.

Lemma map_injective_on_NoDup {A B} (f : A -> B) (l : list A) (a b : A) :
  List.NoDup (List.map f l) -> In a l -> In b l -> f a = f b -> a = b.
Proof.
  induction l as [|x l IH]; cbn; [tauto|].
  intros Hnd Ha Hb Hab. apply NoDup_cons_iff in Hnd as [Hnot Hnd].
  destruct Ha as [->|Ha], Hb as [->|Hb]; auto.
  - exfalso. apply Hnot. rewrite Hab. now apply in_map.
  - exfalso. apply Hnot. rewrite <- Hab. now apply in_map.
Qed.

Lemma prefilter_returns_rows_in_box_witness :
  @SpatialIndex._get_candidate_restaurants insertion_order_rtree
    (SpatialIndex.build_index street_df SpatialIndex.init) 60 0 = [1; 2; 3; 4].
Proof.
  refine (eq_trans
            (proj1 (proj2 (@prefilter_returns_rows_in_box insertion_order_rtree
                             street_df 60 0)) _) _).
  - cbn. unfold leaf_capacity. lia.
  - vm_compute. reflexivity.
Defined.

(** C2: the provider at (60, 1) delivers within 60 km, which is under the
    100 km that the box of the prefilter is sized for, and the point
    (60, 0) is within those 60 km; the prefilter queried at (60, 0) returns
    no candidate, whatever the R-tree library, because the box reaches
    [radius_deg], about 0.9 of a degree, in longitude and the provider is 1
    degree away. *)
Theorem prefilter_drops_provider_in_range :
  (row_availability_radius parallel_row <= SpatialIndex.MAX_RADIUS_KM)%Q /\
  @within_radius parallel_60_calculator 60 0 parallel_row = true /\
  forall rtree_library : RTreeInterface,
    SpatialIndex._get_candidate_restaurants
      (SpatialIndex.build_index [parallel_row] SpatialIndex.init) 60 0 = [].
Proof.
  split; [unfold Qle; cbn; lia|]. split; [reflexivity|].
  intros rtree_library. rewrite candidates_of_small_index.
  - vm_compute. reflexivity.
  - cbn. unfold leaf_capacity. lia.
Qed.

(** ** The query *)

(** C1: the provider at (60, 1) with its 60 km radius is in range of the
    point (60, 0) and open at noon, so the brute-force scan returns it; the
    query at (60, 0) at noon returns the empty list, whatever the distance
    calculator and the R-tree library, because the prefilter has no
    candidate for the fine filter to test. *)
Theorem query_misses_provider_in_range :
  brute_force_scan (@row_available parallel_60_calculator 60 0 noon) [parallel_row]
  = [1] /\
  forall (distance_calculator : DistanceCalculatorInterface)
         (rtree_library : RTreeInterface) (w : World),
    SpatialIndex.find_restaurants_in_radius
      (SpatialIndex.build_index [parallel_row] SpatialIndex.init) 60 0 (Some noon) w
    = (Return [], w).
Proof.
  split; [vm_compute; reflexivity|].
  intros distance_calculator rtree_library w.
  unfold SpatialIndex.find_restaurants_in_radius, SpatialIndex._filter_candidates.
  rewrite candidates_of_small_index by (cbn; unfold leaf_capacity; lia).
  replace (rows_in_box 60 0 [parallel_row]) with (@nil Z) by (vm_compute; reflexivity).
  reflexivity.
Qed.

(** C3 (as stated, refuted): two providers at the queried point, loaded
    with id 2 before id 1, are returned as [2; 1]. *)
Lemma query_result_not_ascending :
  fst (@SpatialIndex.find_restaurants_in_radius
         taxicab_calculator _ insertion_order_rtree
         (SpatialIndex.build_index unordered_df SpatialIndex.init)
         0 0 (at_time 12 0 0) (frozen_world 12 0 0)) = Return [2; 1] /\
  ~ ascending [2; 1].
Proof.
  split; [vm_compute; reflexivity|].
  intros H. apply StronglySorted_inv in H as [_ H].
  apply Forall_inv in H. lia.
Qed.

(** C9 (as stated, refuted): with the instant omitted, the same query on
    the same index returns provider 1 when the clock shows 15:00 and
    nothing when it shows 12:00. *)
Lemma query_without_instant_follows_clock :
  let self := SpatialIndex.build_index sample_restaurants_df SpatialIndex.init in
  fst (@SpatialIndex.find_restaurants_in_radius
         taxicab_calculator _ insertion_order_rtree
         self (512 # 10) (645 # 100) None (frozen_world 15 0 0)) = Return [1] /\
  fst (@SpatialIndex.find_restaurants_in_radius
         taxicab_calculator _ insertion_order_rtree
         self (512 # 10) (645 # 100) None (frozen_world 12 0 0)) = Return [].
Proof. split; vm_compute; reflexivity. Qed.

Lemma sublist_StronglySorted {A} (R : A -> A -> Prop) (l1 l2 : list A) :
  sublist l1 l2 -> StronglySorted R l2 -> StronglySorted R l1.
Proof.
  induction 1 as [|x l1 l2 Hsub IH|x l1 l2 Hsub IH]; intros Hs.
  - constructor.
  - apply StronglySorted_inv in Hs as [Hs Hall]. constructor; [now apply IH|].
    rewrite List.Forall_forall in *. intros y Hy. apply Hall.
    apply list_elem_of_In. eapply sublist_subseteq; [exact Hsub|].
    now apply list_elem_of_In.
  - apply StronglySorted_inv in Hs as [Hs _]. now apply IH.
Qed.

Lemma filter_filter_andb {A} (f g : A -> bool) (l : list A) :
  List.filter f (List.filter g l) = List.filter (fun x => g x && f x) l.
Proof.
  induction l as [|a l IH]; cbn; [reflexivity|].
  destruct (g a); cbn; [destruct (f a)|]; now rewrite IH.
Qed.

Section QueryResults.

Context {distance_calculator : DistanceCalculatorInterface}.
Context {rtree_library : RTreeInterface}.

(** C3 (amended): nothing sorts the result.  The ids returned are
    candidates of the R-tree query, in the order in which that query
    yields them; so the list is ascending whenever the candidate list
    is. *)
Theorem query_keeps_candidate_order
        {time_checker : TimeCheckerInterface}
        (self : SpatialIndex.t) (latitude longitude : Q)
        (current_time : option instant) (ids : list Z) (w w' : World) :
  SpatialIndex.find_restaurants_in_radius self latitude longitude current_time w
  = (Return ids, w') ->
  sublist ids (SpatialIndex._get_candidate_restaurants self latitude longitude) /\
  (ascending (SpatialIndex._get_candidate_restaurants self latitude longitude) ->
   ascending ids).
Proof.
  unfold SpatialIndex.find_restaurants_in_radius, SpatialIndex._filter_candidates.
  intros Hrun. apply filter_loop_sublist in Hrun as (kept & -> & Hsub). cbn [app].
  split; [exact Hsub|]. now apply sublist_StronglySorted.
Qed.

(** X28: on an index built once from a data frame with distinct ids that
    are 64-bit integers, a query at an explicit instant returns the
    brute-force scan of the data frame restricted to the box of the
    prefilter, in the order of the R-tree, which is the order of the data
    frame as long as the rows fit one leaf: a provider's id is in the result
    if and only if its point lies in the box, the query point is within its
    availability radius, and [is_open] holds of its hours at the instant.
    The query does return when the hours of the data frame parse. *)
Theorem query_is_scan_inside_box
        (df : DataFrame) (latitude longitude : Q) (i : instant) (w : World) :
  List.NoDup (List.map row_id df) ->
  List.Forall (fun row => is_int64 (row_id row)) df ->
  let self := SpatialIndex.build_index df SpatialIndex.init in
  let scan :=
    brute_force_scan
      (fun row => in_prefilter_box latitude longitude row
                  && row_available latitude longitude i row) df in
  (List.Forall well_formed_hours df ->
   exists ids,
     SpatialIndex.find_restaurants_in_radius self latitude longitude (Some i) w
     = (Return ids, w) /\
     Permutation ids scan) /\
  (forall (ids : list Z) (w' : World),
      SpatialIndex.find_restaurants_in_radius self latitude longitude (Some i) w
      = (Return ids, w') ->
      Permutation ids scan /\
      ((length df <= leaf_capacity)%nat -> ids = scan) /\
      forall row, In row df ->
        (In (row_id row) ids <->
         in_prefilter_box latitude longitude row = true /\
         within_radius latitude longitude row = true /\
         fst (TimeChecker.is_open (row_open_hour row) (row_close_hour row) (Some i) w)
         = Return true)).
Proof.
  intros Hnd Hint self scan.
  assert (Hrows : rows_in_box latitude longitude df =
                  List.map row_id (List.filter (in_prefilter_box latitude longitude) df)).
  { unfold rows_in_box. apply map_ext_in. intros row Hin.
    apply filter_In in Hin as [Hin _]. apply int64_id.
    rewrite List.Forall_forall in Hint. now apply Hint. }
  assert (Hperm : Permutation
                    (SpatialIndex._get_candidate_restaurants self latitude longitude)
                    (List.map row_id
                       (List.filter (in_prefilter_box latitude longitude) df)))
    by (rewrite <- Hrows; apply candidates_of_built_index).
  assert (Hlookup : forall row, In row df ->
            SpatialIndex.restaurants self !! row_id row = Some (restaurant_of_row row)).
  { intros row Hin. unfold self. rewrite build_index_lookup.
    now rewrite last_row_with_id_NoDup. }
  assert (Havail : forall row, In row df ->
            candidate_available self latitude longitude i (row_id row) =
            row_available latitude longitude i row).
  { intros row Hin. unfold candidate_available. now rewrite Hlookup. }
  assert (Hscan : List.filter (candidate_available self latitude longitude i)
                    (List.map row_id
                       (List.filter (in_prefilter_box latitude longitude) df)) = scan).
  { unfold scan, brute_force_scan.
    rewrite filter_map_commute, filter_filter_andb. f_equal.
    apply filter_ext_in. intros row Hin. now rewrite Havail. }
  assert (Hfiltered :
            Permutation
              (List.filter (candidate_available self latitude longitude i)
                 (SpatialIndex._get_candidate_restaurants self latitude longitude))
              scan)
    by (rewrite <- Hscan; now apply filter_Permutation_list).
  assert (Hmember : forall row, In row df ->
            (In (row_id row) scan <->
             in_prefilter_box latitude longitude row = true /\
             within_radius latitude longitude row = true /\
             fst (TimeChecker.is_open (row_open_hour row) (row_close_hour row)
                    (Some i) w) = Return true)).
  { intros row Hin. unfold scan, brute_force_scan.
    rewrite <- open_at_is_open. split.
    - intros Hid. apply in_map_iff in Hid as (row' & Heq & Hin').
      apply filter_In in Hin' as [Hin' Hkeep].
      assert (row' = row) as -> by (eapply map_injective_on_NoDup; eauto).
      unfold row_available in Hkeep.
      rewrite !andb_true_iff in Hkeep. tauto.
    - intros (Hbox & Hrad & Hopen). apply in_map, filter_In. split; [exact Hin|].
      unfold row_available. now rewrite Hbox, Hrad, Hopen. }
  split.
  - intros Hwf. eexists. split; [|exact Hfiltered].
    unfold SpatialIndex.find_restaurants_in_radius, SpatialIndex._filter_candidates.
    rewrite filter_loop_explicit; [reflexivity|].
    intros c Hc. apply (Permutation_in _ Hperm) in Hc.
    apply in_map_iff in Hc as (row & <- & Hin).
    apply filter_In in Hin as [Hin _].
    exists (restaurant_of_row row). split; [now apply Hlookup|].
    rewrite List.Forall_forall in Hwf. exact (Hwf row Hin).
  - intros ids w' Hrun.
    unfold SpatialIndex.find_restaurants_in_radius, SpatialIndex._filter_candidates in Hrun.
    apply filter_loop_returns in Hrun. cbn [app] in Hrun. subst ids.
    split; [exact Hfiltered|]. split.
    + intros Hfit. unfold self at 2.
      rewrite candidates_of_small_index by exact Hfit.
      rewrite Hrows. exact Hscan.
    + intros row Hin. rewrite <- (Hmember row Hin). split; intros Hid.
      * exact (Permutation_in _ Hfiltered Hid).
      * exact (Permutation_in _ (Permutation_sym Hfiltered) Hid).
Qed.

End QueryResults.

Lemma street_ids_distinct : List.NoDup (List.map row_id street_df).
Proof.
  repeat (apply List.NoDup_cons; [cbn; intuition discriminate|]).
  apply List.NoDup_nil.
Qed.

Lemma street_ids_int64 : List.Forall (fun row => is_int64 (row_id row)) street_df.
Proof. repeat constructor; cbn; lia. Qed.

Lemma query_is_scan_inside_box_witness :
  [1; 3; 4] =
  brute_force_scan
    (fun row => in_prefilter_box 60 0 row && @row_available taxicab_calculator 60 0 noon row)
    street_df.
Proof.
  refine (proj1 (proj2 (proj2 (@query_is_scan_inside_box taxicab_calculator
                                 insertion_order_rtree street_df 60 0 noon
                                 (frozen_world 9 0 0)
                                 street_ids_distinct street_ids_int64)
                          [1; 3; 4] (frozen_world 9 0 0) _)) _).
  - vm_compute. reflexivity.
  - cbn. unfold leaf_capacity. lia.
Defined.

Lemma query_keeps_candidate_order_witness :
  ascending [1; 3; 4].
Proof.
  refine (proj2 (@query_keeps_candidate_order taxicab_calculator insertion_order_rtree _
                   (SpatialIndex.build_index street_df SpatialIndex.init)
                   60 0 (Some noon) [1; 3; 4]
                   (frozen_world 9 0 0) (frozen_world 9 0 0) _) _).
  - vm_compute. reflexivity.
  - replace (@SpatialIndex._get_candidate_restaurants insertion_order_rtree
               (SpatialIndex.build_index street_df SpatialIndex.init) 60 0)
      with [1; 2; 3; 4] by (vm_compute; reflexivity).
    unfold ascending. repeat constructor; lia.
Defined.

Section Determinism.

Context {distance_calculator : DistanceCalculatorInterface}.
Context {rtree_library : RTreeInterface}.

(** Without an instant, under a clock that always shows [d], the loop
    returns what it returns at the explicit instant [d]. *)
Lemma filter_loop_omitted_frozen (self : SpatialIndex.t) (candidates : list Z)
      (latitude longitude : Q) (d : datetime) :
  forall (available : list Z) (w : World),
    (forall n, clock w n = d) ->
    fst (SpatialIndex.filter_loop self candidates latitude longitude None available w) =
    fst (SpatialIndex.filter_loop self candidates latitude longitude
           (Some (Instant_datetime d)) available w).
Proof.
  induction candidates as [|c candidates IH]; intros available w Hfrozen; [reflexivity|].
  rewrite !filter_loop_cons.
  destruct (SpatialIndex.restaurants self !! c) as [r|]; [|reflexivity].
  destruct (Qle_bool _ _); [|now apply IH].
  cbn [is_open TimeChecker_instance]. rewrite is_open_omitted, Hfrozen.
  destruct (TimeChecker.is_open (r_open_hour r) (r_close_hour r)
              (Some (Instant_datetime d)) w) as [o w1] eqn:Hopen.
  rewrite is_open_explicit in Hopen. injection Hopen as Ho <-. cbn [fst].
  destruct o as [keep|e]; [|reflexivity].
  rewrite IH by (intros n; apply Hfrozen).
  now rewrite (filter_loop_explicit_pure _ _ _ _ _ _ w).
Qed.

(** A query at an explicit instant neither reads nor changes the world. *)
Lemma find_explicit_pure (self : SpatialIndex.t) (latitude longitude : Q)
      (i : instant) (w1 w2 : World) :
  SpatialIndex.find_restaurants_in_radius self latitude longitude (Some i) w2 =
  (fst (SpatialIndex.find_restaurants_in_radius self latitude longitude (Some i) w1), w2).
Proof.
  unfold SpatialIndex.find_restaurants_in_radius, SpatialIndex._filter_candidates.
  apply filter_loop_explicit_pure.
Qed.

(** C9 (amended): a query given an explicit instant neither reads nor
    changes the world, so repeating it on the same index with the same
    arguments returns the same result.  A query without an instant takes
    the instant from the wall clock inside [is_open]; under a clock that
    keeps showing [d] it returns what the query at the explicit instant
    [d] returns. *)
Theorem query_deterministic_given_instant
        (self : SpatialIndex.t) (latitude longitude : Q) :
  (forall (i : instant) (w1 w2 : World),
      SpatialIndex.find_restaurants_in_radius self latitude longitude (Some i) w2 =
      (fst (SpatialIndex.find_restaurants_in_radius self latitude longitude
              (Some i) w1), w2)) /\
  (forall (d : datetime) (w : World),
      (forall n, clock w n = d) ->
      fst (SpatialIndex.find_restaurants_in_radius self latitude longitude None w) =
      fst (SpatialIndex.find_restaurants_in_radius self latitude longitude
             (Some (Instant_datetime d)) w)).
Proof.
  split.
  - intros i w1 w2. apply find_explicit_pure.
  - intros d w Hfrozen.
    unfold SpatialIndex.find_restaurants_in_radius, SpatialIndex._filter_candidates.
    now apply filter_loop_omitted_frozen.
Qed.

End Determinism.

Lemma query_deterministic_given_instant_witness :
  fst (@SpatialIndex.find_restaurants_in_radius
         taxicab_calculator _ insertion_order_rtree
         (SpatialIndex.build_index sample_restaurants_df SpatialIndex.init)
         (512 # 10) (645 # 100) None (frozen_world 15 0 0)) =
  fst (@SpatialIndex.find_restaurants_in_radius
         taxicab_calculator _ insertion_order_rtree
         (SpatialIndex.build_index sample_restaurants_df SpatialIndex.init)
         (512 # 10) (645 # 100)
         (Some (Instant_datetime (mk_datetime 2023 1 1 (hms 15 0 0))))
         (frozen_world 15 0 0)).
Proof.
  apply (proj2 (@query_deterministic_given_instant taxicab_calculator insertion_order_rtree
                  (SpatialIndex.build_index sample_restaurants_df SpatialIndex.init)
                  (512 # 10) (645 # 100))).
  intros n. reflexivity.
Defined.

(** ** The cache dictionary *)

Lemma time_key_eqb_refl (a : option string) : time_key_eqb a a = true.
Proof. destruct a; cbn; [apply String.eqb_refl | reflexivity]. Qed.

Lemma cache_key_eqb_refl (k : cache_key) : cache_key_eqb k k = true.
Proof.
  destruct k as [[lat lon] tk]. cbn.
  rewrite time_key_eqb_refl, !andb_true_r.
  apply andb_true_iff. split; apply Qeq_bool_iff; reflexivity.
Qed.

Lemma cache_key_eqb_sym (a b : cache_key) : cache_key_eqb a b = cache_key_eqb b a.
Proof.
  destruct a as [[alat alon] atk], b as [[blat blon] btk]. cbn.
  f_equal; [f_equal|].
  - apply eq_true_iff_eq. rewrite !Qeq_bool_iff. split; intros H; now symmetry.
  - apply eq_true_iff_eq. rewrite !Qeq_bool_iff. split; intros H; now symmetry.
  - destruct atk, btk; cbn; try reflexivity. apply String.eqb_sym.
Qed.

Lemma cache_key_eqb_trans (a b c : cache_key) :
  cache_key_eqb a b = true -> cache_key_eqb b c = true -> cache_key_eqb a c = true.
Proof.
  destruct a as [[alat alon] atk], b as [[blat blon] btk], c as [[clat clon] ctk]. cbn.
  rewrite !andb_true_iff, !Qeq_bool_iff.
  intros [[H1 H2] H3] [[H4 H5] H6]. repeat split.
  - now rewrite H1.
  - now rewrite H2.
  - destruct atk, btk, ctk; cbn in *; try congruence.
    apply String.eqb_eq in H3, H6. subst. apply String.eqb_refl.
Qed.

(** Equal keys are looked up alike. *)
Lemma dict_get_eqb {V} (a b : cache_key) (d : dict V) :
  cache_key_eqb a b = true -> dict_get a d = dict_get b d.
Proof.
  intros Hab. induction d as [|[k v] d IH]; cbn; [reflexivity|].
  destruct (cache_key_eqb a k) eqn:Hak, (cache_key_eqb b k) eqn:Hbk; auto.
  - rewrite cache_key_eqb_sym in Hab.
    now rewrite (cache_key_eqb_trans _ _ _ Hab Hak) in Hbk.
  - now rewrite (cache_key_eqb_trans _ _ _ Hab Hbk) in Hak.
Qed.

Lemma dict_get_set {V} (k : cache_key) (v : V) (d : dict V) :
  dict_get k (dict_set k v d) = Some v.
Proof.
  induction d as [|[k' v'] d IH]; cbn.
  - now rewrite cache_key_eqb_refl.
  - destruct (cache_key_eqb k k') eqn:E; cbn; now rewrite E.
Qed.

Lemma dict_set_absent {V} (k : cache_key) (v : V) (d : dict V) :
  dict_get k d = None -> dict_set k v d = d ++ [(k, v)].
Proof.
  induction d as [|[k' v'] d IH]; cbn; [reflexivity|].
  destruct (cache_key_eqb k k'); [discriminate|].
  intros H. now rewrite IH.
Qed.

Lemma dict_set_length {V} (k : cache_key) (v : V) (d : dict V) :
  (length (dict_set k v d) <= S (length d))%nat.
Proof.
  induction d as [|[k' v'] d IH]; cbn; [lia|].
  destruct (cache_key_eqb k k'); cbn; lia.
Qed.

Lemma dict_contains_get {V} (k : cache_key) (d : dict V) :
  dict_contains k d = false <-> dict_get k d = None.
Proof. unfold dict_contains. destruct (dict_get k d); split; congruence. Qed.

(** ** The caching decorator *)

(** Unfolds the monadic steps of the decorator's methods. *)
Ltac run_decorator :=
  unfold CachingSpatialIndex.find_restaurants_in_radius,
    CachingSpatialIndex.build_index, bind,
    CachingSpatialIndex.get_self, CachingSpatialIndex.update_self,
    CachingSpatialIndex.on_spatial_index, dict_contains, ret, raise, of_outcome,
    CachingSpatialIndex.set_cache_hits, CachingSpatialIndex.set_cache_misses,
    CachingSpatialIndex.set_spatial_index, CachingSpatialIndex.set_cache;
  cbn.

Section Caching.

Context {S : Type} {wrapped : SpatialIndexInterface S}.

(** A query whose key is stored. *)
Lemma find_hit (self : CachingSpatialIndex.t S) (w : World) (latitude longitude : Q)
      (current_time : option instant) (result : list Z) :
  dict_get (CachingSpatialIndex.make_cache_key latitude longitude current_time)
           (CachingSpatialIndex.cache self) = Some result ->
  CachingSpatialIndex.find_restaurants_in_radius latitude longitude current_time (self, w)
  = (Return result,
     (CachingSpatialIndex.set_cache_hits (CachingSpatialIndex.cache_hits self + 1) self,
      w)).
Proof.
  intros Hget. destruct self as [s d size hits misses]. cbn in Hget.
  run_decorator. rewrite Hget. cbn. now rewrite Hget.
Qed.

(** A query whose key is not stored. *)
Lemma find_miss (self : CachingSpatialIndex.t S) (w : World) (latitude longitude : Q)
      (current_time : option instant) (r : outcome (list Z)) (s' : S) (w' : World) :
  dict_get (CachingSpatialIndex.make_cache_key latitude longitude current_time)
           (CachingSpatialIndex.cache self) = None ->
  find_restaurants_in_radius latitude longitude current_time
    (CachingSpatialIndex.spatial_index self, w) = (r, (s', w')) ->
  CachingSpatialIndex.find_restaurants_in_radius latitude longitude current_time (self, w)
  = let self1 :=
      CachingSpatialIndex.set_spatial_index s'
        (CachingSpatialIndex.set_cache_misses
           (CachingSpatialIndex.cache_misses self + 1) self) in
    match r with
    | Raise e => (Raise e, (self1, w'))
    | Return result =>
        if Z.of_nat (length (CachingSpatialIndex.cache self))
           >=? CachingSpatialIndex.cache_size self then
          match CachingSpatialIndex.cache self with
          | [] => (Raise StopIteration, (self1, w'))
          | _ :: d =>
              (Return result,
               (CachingSpatialIndex.set_cache
                  (dict_set
                     (CachingSpatialIndex.make_cache_key latitude longitude current_time)
                     result d) self1, w'))
          end
        else
          (Return result,
           (CachingSpatialIndex.set_cache
              (dict_set
                 (CachingSpatialIndex.make_cache_key latitude longitude current_time)
                 result (CachingSpatialIndex.cache self)) self1, w'))
    end.
Proof.
  intros Hget Hwrapped. destruct self as [s d size hits misses]. cbn in *.
  run_decorator. rewrite Hget. cbn. rewrite Hwrapped.
  destruct r as [result|e]; [|reflexivity]. cbn.
  destruct (Z.of_nat (length d) >=? size); [|reflexivity].
  destruct d as [|[k v] d]; [reflexivity|].
  cbn. now rewrite cache_key_eqb_refl.
Qed.

End Caching.

(** C6: on a caching index of capacity 0 the first query finds the cache
    "full" while it is empty, and the eviction, [next(iter(self.cache))] on
    the empty dictionary, raises [StopIteration]; nothing is stored, and
    the repeated query is a second miss that raises again, not a hit. *)
Theorem zero_capacity_cache_never_hits :
  let wrapped := @SpatialIndex_instance taxicab_calculator _ insertion_order_rtree in
  let self :=
    CachingSpatialIndex.init
      (SpatialIndex.build_index sample_restaurants_df SpatialIndex.init) 0 in
  let first :=
    CachingSpatialIndex.find_restaurants_in_radius (512 # 10) (645 # 100) None
      (self, frozen_world 15 0 0) in
  let second :=
    CachingSpatialIndex.find_restaurants_in_radius (512 # 10) (645 # 100) None
      (snd first) in
  fst first = Raise StopIteration /\
  fst second = Raise StopIteration /\
  CachingSpatialIndex.cache_hits (fst (snd second)) = 0 /\
  CachingSpatialIndex.cache_misses (fst (snd second)) = 2.
Proof. vm_compute. repeat split. Qed.

Section CachingProperties.

Context {S : Type} {wrapped : SpatialIndexInterface S}.

Lemma make_cache_key_eqb (lat1 lon1 lat2 lon2 : Q) (ct1 ct2 : option instant) :
  (round_ndigits lat1 4 == round_ndigits lat2 4)%Q ->
  (round_ndigits lon1 4 == round_ndigits lon2 4)%Q ->
  same_minute ct1 ct2 ->
  cache_key_eqb (CachingSpatialIndex.make_cache_key lat2 lon2 ct2)
                (CachingSpatialIndex.make_cache_key lat1 lon1 ct1) = true.
Proof.
  intros Hlat Hlon Hmin. unfold CachingSpatialIndex.make_cache_key, cache_key_eqb.
  rewrite !andb_true_iff, !Qeq_bool_iff. repeat split.
  - now symmetry.
  - now symmetry.
  - destruct ct1 as [a|], ct2 as [b|]; cbn in *; try tauto.
    destruct Hmin as [-> ->]. apply String.eqb_refl.
Qed.

(** X30: on a caching index of capacity at least 1, take two
    consecutive queries whose coordinates round to the same 4 decimals and
    whose instants have the same hour and minute (or are both omitted),
    the key not being stored yet and the wrapped index answering the first
    one.  The first is a miss: the miss counter goes up by one and the
    answer of the wrapped index is returned.  The second is a hit: it
    returns the same list, the hit counter goes up by one, and neither the
    wrapped index nor the world is touched. *)
Theorem repeated_query_hits
        (self : CachingSpatialIndex.t S) (w : World)
        (lat1 lon1 lat2 lon2 : Q) (ct1 ct2 : option instant)
        (result : list Z) (s' : S) (w' : World) :
  1 <= CachingSpatialIndex.cache_size self ->
  (round_ndigits lat1 4 == round_ndigits lat2 4)%Q ->
  (round_ndigits lon1 4 == round_ndigits lon2 4)%Q ->
  same_minute ct1 ct2 ->
  dict_contains (CachingSpatialIndex.make_cache_key lat1 lon1 ct1)
                (CachingSpatialIndex.cache self) = false ->
  find_restaurants_in_radius lat1 lon1 ct1 (CachingSpatialIndex.spatial_index self, w)
  = (Return result, (s', w')) ->
  exists self1 : CachingSpatialIndex.t S,
    CachingSpatialIndex.find_restaurants_in_radius lat1 lon1 ct1 (self, w)
    = (Return result, (self1, w')) /\
    CachingSpatialIndex.spatial_index self1 = s' /\
    CachingSpatialIndex.cache_hits self1 = CachingSpatialIndex.cache_hits self /\
    CachingSpatialIndex.cache_misses self1 = CachingSpatialIndex.cache_misses self + 1 /\
    CachingSpatialIndex.find_restaurants_in_radius lat2 lon2 ct2 (self1, w')
    = (Return result,
       (CachingSpatialIndex.set_cache_hits
          (CachingSpatialIndex.cache_hits self + 1) self1, w')).
Proof.
  intros Hsize Hlat Hlon Hmin Habsent Hwrapped.
  apply dict_contains_get in Habsent.
  pose proof (make_cache_key_eqb _ _ _ _ _ _ Hlat Hlon Hmin) as Hkey.
  rewrite (find_miss _ _ _ _ _ _ _ _ Habsent Hwrapped). cbn zeta.
  assert (Hstored : forall d : dict (list Z),
             dict_get (CachingSpatialIndex.make_cache_key lat2 lon2 ct2)
               (dict_set (CachingSpatialIndex.make_cache_key lat1 lon1 ct1) result d)
             = Some result)
    by (intros d; rewrite (dict_get_eqb _ _ _ Hkey); apply dict_get_set).
  destruct (Z.of_nat (length (CachingSpatialIndex.cache self)) >=?
            CachingSpatialIndex.cache_size self) eqn:Hfull.
  - rewrite Z.geb_leb, Z.leb_le in Hfull.
    destruct (CachingSpatialIndex.cache self) as [|kv d]; [cbn in Hfull; lia|].
    eexists. split; [reflexivity|]. repeat (split; [reflexivity|]).
    etransitivity; [apply find_hit; apply Hstored | reflexivity].
  - eexists. split; [reflexivity|]. repeat (split; [reflexivity|]).
    etransitivity; [apply find_hit; apply Hstored | reflexivity].
Qed.

(** What [build_index] leaves: the wrapped index rebuilt, an empty cache,
    the capacity, and both counters at zero. *)
Lemma build_index_state
      (self : CachingSpatialIndex.t S) (w : World) (restaurants_data : DataFrame) :
  fst (snd (CachingSpatialIndex.build_index restaurants_data (self, w))) =
  CachingSpatialIndex.mk
    (fst (snd (build_index restaurants_data (CachingSpatialIndex.spatial_index self, w))))
    [] (CachingSpatialIndex.cache_size self) 0 0.
Proof.
  run_decorator.
  destruct (build_index restaurants_data _) as [r [s' w']].
  destruct r; reflexivity.
Qed.

(** C7: whatever the state of a caching index, [build_index] leaves its
    cache empty and its hit and miss counters at zero. *)
Theorem build_index_clears_cache
        (self : CachingSpatialIndex.t S) (w : World) (restaurants_data : DataFrame) :
  let self' := fst (snd (CachingSpatialIndex.build_index restaurants_data (self, w))) in
  CachingSpatialIndex.cache self' = [] /\
  CachingSpatialIndex.cache_hits self' = 0 /\
  CachingSpatialIndex.cache_misses self' = 0.
Proof.
  cbv zeta. rewrite build_index_state. cbn. repeat split.
Qed.

End CachingProperties.

Lemma repeated_query_hits_witness :
  let wrapped := @SpatialIndex_instance taxicab_calculator _ insertion_order_rtree in
  let self :=
    CachingSpatialIndex.init
      (SpatialIndex.build_index sample_restaurants_df SpatialIndex.init) 1 in
  exists self1,
    CachingSpatialIndex.find_restaurants_in_radius (512 # 10) (645 # 100)
      (at_time 15 0 10) (self, frozen_world 9 0 0)
    = (Return [1], (self1, frozen_world 9 0 0)) /\
    CachingSpatialIndex.find_restaurants_in_radius (5120000499 # 100000000) (645 # 100)
      (at_time 15 0 50) (self1, frozen_world 9 0 0)
    = (Return [1], (CachingSpatialIndex.set_cache_hits 1 self1, frozen_world 9 0 0)).
Proof.
  intros wrapped self.
  destruct (@repeated_query_hits _ wrapped self (frozen_world 9 0 0)
              (512 # 10) (645 # 100) (5120000499 # 100000000) (645 # 100)
              (at_time 15 0 10) (at_time 15 0 50) [1]
              (SpatialIndex.build_index sample_restaurants_df SpatialIndex.init)
              (frozen_world 9 0 0))
    as (self1 & Hfirst & _ & _ & _ & Hsecond).
  - cbn. lia.
  - vm_compute. reflexivity.
  - vm_compute. reflexivity.
  - cbn. split; reflexivity.
  - reflexivity.
  - vm_compute. reflexivity.
  - exists self1. split; [exact Hfirst | exact Hsecond].
Defined.

Section CacheInvariant.

Context {S : Type} {wrapped : SpatialIndexInterface S}.

(** What a query leaves of the capacity, the size and the counters. *)
Lemma find_step (self : CachingSpatialIndex.t S) (w : World)
      (latitude longitude : Q) (current_time : option instant) :
  1 <= CachingSpatialIndex.cache_size self ->
  Z.of_nat (length (CachingSpatialIndex.cache self)) <= CachingSpatialIndex.cache_size self ->
  let self' :=
    fst (snd (CachingSpatialIndex.find_restaurants_in_radius
                latitude longitude current_time (self, w))) in
  CachingSpatialIndex.cache_size self' = CachingSpatialIndex.cache_size self /\
  Z.of_nat (length (CachingSpatialIndex.cache self')) <= CachingSpatialIndex.cache_size self /\
  CachingSpatialIndex.cache_hits self' + CachingSpatialIndex.cache_misses self' =
  CachingSpatialIndex.cache_hits self + CachingSpatialIndex.cache_misses self + 1.
Proof.
  intros Hsize Hlen.
  destruct (dict_get (CachingSpatialIndex.make_cache_key latitude longitude current_time)
              (CachingSpatialIndex.cache self)) as [result|] eqn:Hget.
  - rewrite (find_hit _ _ _ _ _ _ Hget). cbn. repeat split; [exact Hlen | lia].
  - destruct (find_restaurants_in_radius latitude longitude current_time
                (CachingSpatialIndex.spatial_index self, w)) as [r [s' w']] eqn:Hwrapped.
    rewrite (find_miss _ _ _ _ _ _ _ _ Hget Hwrapped). cbn zeta.
    destruct r as [result|e]; [|cbn; repeat split; [exact Hlen | lia]].
    destruct (Z.of_nat (length (CachingSpatialIndex.cache self)) >=?
              CachingSpatialIndex.cache_size self) eqn:Hfull.
    + destruct (CachingSpatialIndex.cache self) as [|kv d] eqn:Hcache;
        cbn; (repeat split; [|lia]).
      * rewrite Hcache. cbn. lia.
      * pose proof (dict_set_length
                      (CachingSpatialIndex.make_cache_key latitude longitude current_time)
                      result d) as Hset.
        cbn [length] in Hlen. lia.
    + rewrite Z.geb_leb, Z.leb_gt in Hfull. cbn. repeat split; [|lia].
      pose proof (dict_set_length
                    (CachingSpatialIndex.make_cache_key latitude longitude current_time)
                    result (CachingSpatialIndex.cache self)) as Hset.
      lia.
Qed.

Lemma run_calls_snoc (calls : list call) (c : call)
      (st : CachingSpatialIndex.t S * World) :
  run_calls (calls ++ [c]) st = run_call c (run_calls calls st).
Proof. unfold run_calls. now rewrite fold_left_app. Qed.

Lemma queries_since_build_snoc (calls : list call) (c : call) :
  queries_since_build (calls ++ [c]) =
  match c with
  | Call_find _ _ _ => queries_since_build calls + 1
  | Call_build _ => 0
  end.
Proof. unfold queries_since_build. now rewrite fold_left_app. Qed.

(** C10: on a caching index constructed with a capacity of at least 1,
    after any sequence of queries and rebuilds the cache holds at most
    [cache_size] entries, and hits plus misses is the number of queries
    made since construction or since the latest [build_index]; a miss on
    a full cache drops the oldest entry before it stores the new one. *)
Theorem cache_bounded_and_counted
        (spatial_index : S) (cache_size : Z) (w : World) (calls : list call) :
  1 <= cache_size ->
  (let self := fst (run_calls calls (CachingSpatialIndex.init spatial_index cache_size, w)) in
   Z.of_nat (length (CachingSpatialIndex.cache self)) <= cache_size /\
   CachingSpatialIndex.cache_hits self + CachingSpatialIndex.cache_misses self
   = queries_since_build calls) /\
  (forall (self : CachingSpatialIndex.t S) (w1 w2 : World) (latitude longitude : Q)
          (current_time : option instant) (result : list Z) (s' : S),
      CachingSpatialIndex.cache_size self = cache_size ->
      Z.of_nat (length (CachingSpatialIndex.cache self)) = cache_size ->
      dict_contains (CachingSpatialIndex.make_cache_key latitude longitude current_time)
                    (CachingSpatialIndex.cache self) = false ->
      find_restaurants_in_radius latitude longitude current_time
        (CachingSpatialIndex.spatial_index self, w1) = (Return result, (s', w2)) ->
      CachingSpatialIndex.cache
        (fst (snd (CachingSpatialIndex.find_restaurants_in_radius
                     latitude longitude current_time (self, w1))))
      = tl (CachingSpatialIndex.cache self) ++
        [(CachingSpatialIndex.make_cache_key latitude longitude current_time, result)]).
Proof.
  intros Hsize. split.
  - cbn zeta.
    enough (Hinv : CachingSpatialIndex.cache_size
                     (fst (run_calls calls
                             (CachingSpatialIndex.init spatial_index cache_size, w)))
                   = cache_size /\
                   Z.of_nat (length (CachingSpatialIndex.cache
                     (fst (run_calls calls
                             (CachingSpatialIndex.init spatial_index cache_size, w)))))
                   <= cache_size /\
                   CachingSpatialIndex.cache_hits
                     (fst (run_calls calls
                             (CachingSpatialIndex.init spatial_index cache_size, w)))
                   + CachingSpatialIndex.cache_misses
                       (fst (run_calls calls
                               (CachingSpatialIndex.init spatial_index cache_size, w)))
                   = queries_since_build calls) by tauto.
    induction calls as [|c calls IH] using rev_ind.
    + cbn. repeat split; lia.
    + rewrite run_calls_snoc, queries_since_build_snoc.
      destruct (run_calls calls _) as [self w0]. cbn [fst] in IH.
      destruct IH as (Hcap & Hlen & Hcount).
      destruct c as [latitude longitude current_time | restaurants_data];
        cbn [run_call].
      * rewrite <- Hcap in Hsize, Hlen.
        destruct (find_step self w0 latitude longitude current_time Hsize Hlen)
          as (Hcap' & Hlen' & Hcount').
        rewrite Hcap', Hcap in *. repeat split; [exact Hlen' | lia].
      * rewrite build_index_state. cbn. repeat split; [exact Hcap | lia].
  - intros self w1 w2 latitude longitude current_time result s' Hcap Hlen Habsent Hwrapped.
    apply dict_contains_get in Habsent.
    rewrite (find_miss _ _ _ _ _ _ _ _ Habsent Hwrapped). cbn zeta.
    rewrite Hlen, Hcap, Z.geb_leb, Z.leb_refl.
    destruct (CachingSpatialIndex.cache self) as [|[k v] d] eqn:Hcache.
    + cbn in Hlen. lia.
    + cbn. apply dict_set_absent. cbn [dict_get] in Habsent.
      destruct (cache_key_eqb _ k); [discriminate | exact Habsent].
Qed.

End CacheInvariant.

Lemma cache_bounded_and_counted_witness :
  let wrapped := @SpatialIndex_instance taxicab_calculator _ insertion_order_rtree in
  let self :=
    fst (run_calls sample_calls
           (CachingSpatialIndex.init
              (SpatialIndex.build_index sample_restaurants_df SpatialIndex.init) 1,
            frozen_world 15 0 0)) in
  Z.of_nat (length (CachingSpatialIndex.cache self)) <= 1 /\
  CachingSpatialIndex.cache_hits self + CachingSpatialIndex.cache_misses self = 2.
Proof.
  intros wrapped.
  exact (proj1 (@cache_bounded_and_counted _ wrapped
                  (SpatialIndex.build_index sample_restaurants_df SpatialIndex.init)
                  1 (frozen_world 15 0 0) sample_calls ltac:(lia))).
Defined.

(** ** The model on the data of the test suite *)

Example strptime_two_digits :
  strptime_HMS "14:00:00" = Return (mk_datetime 1900 1 1 (hms 14 0 0)).
Proof. reflexivity. Qed.

Example strptime_one_digit :
  strptime_HMS "7:5:9" = Return (mk_datetime 1900 1 1 (hms 7 5 9)).
Proof. reflexivity. Qed.

Example strptime_hour_24 : strptime_HMS "24:00:00" = Raise ValueError.
Proof. reflexivity. Qed.

Example strptime_second_60 : strptime_HMS "00:00:60" = Raise ValueError.
Proof. reflexivity. Qed.

Example strptime_unconverted : strptime_HMS "1:2:345" = Raise ValueError.
Proof. reflexivity. Qed.

(** [test_time_checker] *)
Example test_time_checker (w : World) :
  fst (TimeChecker.is_open "14:00:00" "23:00:00" (at_time 15 0 0) w) = Return true /\
  fst (TimeChecker.is_open "14:00:00" "23:00:00" (at_time 22 59 59) w) = Return true /\
  fst (TimeChecker.is_open "14:00:00" "23:00:00" (at_time 14 0 0) w) = Return true /\
  fst (TimeChecker.is_open "14:00:00" "23:00:00" (at_time 23 0 0) w) = Return true /\
  fst (TimeChecker.is_open "14:00:00" "23:00:00" (at_time 13 59 59) w) = Return false /\
  fst (TimeChecker.is_open "14:00:00" "23:00:00" (at_time 23 0 1) w) = Return false.
Proof. unfold at_time. rewrite !is_open_explicit. repeat split. Qed.

(** [test_find_restaurants_in_radius] *)
Example test_find_restaurants_in_radius (w : World) :
  let self := SpatialIndex.build_index sample_restaurants_df SpatialIndex.init in
  fst (@SpatialIndex.find_restaurants_in_radius
         taxicab_calculator _ insertion_order_rtree
         self (512 # 10) (645 # 100) (at_time 15 0 0) w) = Return [1] /\
  fst (@SpatialIndex.find_restaurants_in_radius
         taxicab_calculator _ insertion_order_rtree
         self (512 # 10) (645 # 100) (at_time 12 0 0) w) = Return [] /\
  fst (@SpatialIndex.find_restaurants_in_radius
         taxicab_calculator _ insertion_order_rtree
         self 40 0 (at_time 15 0 0) w) = Return [].
Proof.
  cbv zeta. unfold at_time.
  rewrite !(find_explicit_pure _ _ _ _ (frozen_world 0 0 0) w).
  repeat split; vm_compute; reflexivity.
Qed.

(** [test_decorator_pattern]: a miss, then a hit with the same result. *)
Example test_decorator_pattern :
  let wrapped := @SpatialIndex_instance taxicab_calculator _ insertion_order_rtree in
  let self :=
    CachingSpatialIndex.init
      (SpatialIndex.build_index sample_restaurants_df SpatialIndex.init) 1000 in
  let first :=
    CachingSpatialIndex.find_restaurants_in_radius (512 # 10) (645 # 100) None
      (self, frozen_world 15 0 0) in
  let second :=
    CachingSpatialIndex.find_restaurants_in_radius (512 # 10) (645 # 100) None
      (snd first) in
  CachingSpatialIndex.get_cache_stats (fst (snd first)) = (0, 1, 1, 1000) /\
  CachingSpatialIndex.get_cache_stats (fst (snd second)) = (1, 1, 1, 1000) /\
  fst first = Return [1] /\ fst second = fst first.
Proof. vm_compute. repeat split. Qed.

(** * Further properties of the code *)

(** ** The order on times of day *)

Lemma time_le_iff (a b : time) :
  time_le a b = true <->
  hour a < hour b \/
  (hour a = hour b /\
   (minute a < minute b \/
    (minute a = minute b /\
     (second a < second b \/
      (second a = second b /\ microsecond a <= microsecond b))))).
Proof.
  unfold time_le, time_compare.
  destruct (Z.compare_spec (hour a) (hour b));
    destruct (Z.compare_spec (minute a) (minute b));
    destruct (Z.compare_spec (second a) (second b));
    destruct (Z.compare_spec (microsecond a) (microsecond b));
    split; intros; try reflexivity; try discriminate; lia.
Qed.

Lemma time_le_false_iff (a b : time) :
  time_le a b = false <-> time_le b a = true /\ a <> b.
Proof.
  rewrite <- not_true_iff_false, !time_le_iff. split.
  - intros Hnot. split; [lia|]. intros ->. lia.
  - intros [Hle Hne] Hle'. apply Hne.
    destruct a, b; cbn in *. f_equal; lia.
Qed.

Lemma time_le_refl (a : time) : time_le a a = true.
Proof. apply time_le_iff. lia. Qed.

Lemma time_le_antisym (a b : time) :
  time_le a b = true -> time_le b a = true -> a = b.
Proof.
  rewrite !time_le_iff. intros H1 H2.
  destruct a, b; cbn in *. f_equal; lia.
Qed.

(** The window of [is_open] on parsed times. *)
Lemma is_open_parsed (open_hour close_hour : string) (o c : datetime)
      (i : instant) (w : World) :
  strptime_HMS open_hour = Return o ->
  strptime_HMS close_hour = Return c ->
  fst (TimeChecker.is_open open_hour close_hour (Some i) w) =
  Return (if time_le (dt_time o) (dt_time c)
          then time_le (dt_time o) (instant_time_of i)
               && time_le (instant_time_of i) (dt_time c)
          else time_le (dt_time o) (instant_time_of i)
               || time_le (instant_time_of i) (dt_time c)).
Proof. intros Ho Hc. now rewrite is_open_explicit, Ho, Hc. Qed.

(** X1: the opening instant and the closing instant are both open, for a
    window within the day and for one that crosses midnight. *)
Theorem is_open_at_both_bounds
        (open_hour close_hour : string) (o c : datetime) (w : World) :
  strptime_HMS open_hour = Return o ->
  strptime_HMS close_hour = Return c ->
  fst (TimeChecker.is_open open_hour close_hour (Some (Instant_time (dt_time o))) w)
  = Return true /\
  fst (TimeChecker.is_open open_hour close_hour (Some (Instant_time (dt_time c))) w)
  = Return true.
Proof.
  intros Ho Hc. rewrite !(is_open_parsed _ _ _ _ _ _ Ho Hc). cbn [instant_time_of].
  destruct (time_le (dt_time o) (dt_time c)) eqn:Hoc.
  - now rewrite !time_le_refl.
  - now rewrite !time_le_refl, orb_true_r.
Qed.

Lemma is_open_at_both_bounds_witness :
  fst (TimeChecker.is_open "22:00:00" "06:00:00" (Some (Instant_time (hms 22 0 0)))
         (frozen_world 0 0 0)) = Return true /\
  fst (TimeChecker.is_open "22:00:00" "06:00:00" (Some (Instant_time (hms 6 0 0)))
         (frozen_world 0 0 0)) = Return true.
Proof.
  exact (is_open_at_both_bounds "22:00:00" "06:00:00" _ _ (frozen_world 0 0 0)
           eq_refl eq_refl).
Defined.

(** X2: when the opening and the closing hour are the same time, the
    place is open at that very instant and at no other. *)
Theorem is_open_same_open_and_close
        (open_hour close_hour : string) (o c : datetime) (i : instant) (w : World) :
  strptime_HMS open_hour = Return o ->
  strptime_HMS close_hour = Return c ->
  dt_time o = dt_time c ->
  (fst (TimeChecker.is_open open_hour close_hour (Some i) w) = Return true
   <-> instant_time_of i = dt_time o).
Proof.
  intros Ho Hc Heq. rewrite (is_open_parsed _ _ _ _ _ _ Ho Hc), <- Heq, time_le_refl.
  split.
  - intros H. injection H as H. apply andb_true_iff in H as [H1 H2].
    now apply time_le_antisym.
  - intros ->. now rewrite time_le_refl.
Qed.

Lemma is_open_same_open_and_close_witness :
  fst (TimeChecker.is_open "12:00:00" "12:0:0" (Some (Instant_time (hms 12 0 0)))
         (frozen_world 0 0 0)) = Return true.
Proof.
  apply (is_open_same_open_and_close "12:00:00" "12:0:0" _ _
           (Instant_time (hms 12 0 0)) (frozen_world 0 0 0) eq_refl eq_refl eq_refl).
  reflexivity.
Defined.

(** X3: exchanging the opening and the closing hour turns a window into
    its complement, the two bounds apart: at any other instant exactly one
    of the two windows is open. *)
Theorem is_open_swapped_window
        (open_hour close_hour : string) (o c : datetime) (i : instant) (w : World) :
  strptime_HMS open_hour = Return o ->
  strptime_HMS close_hour = Return c ->
  dt_time o <> dt_time c ->
  instant_time_of i <> dt_time o ->
  instant_time_of i <> dt_time c ->
  exists b : bool,
    fst (TimeChecker.is_open open_hour close_hour (Some i) w) = Return b /\
    fst (TimeChecker.is_open close_hour open_hour (Some i) w) = Return (negb b).
Proof.
  intros Ho Hc Hoc Hio Hic.
  rewrite (is_open_parsed _ _ _ _ _ _ Ho Hc), (is_open_parsed _ _ _ _ _ _ Hc Ho).
  eexists. split; [reflexivity|]. f_equal.
  set (t := instant_time_of i) in *.
  assert (Hsw : forall a b : time, a <> b -> time_le b a = negb (time_le a b)).
  { intros a b Hne. destruct (time_le a b) eqn:Hab; cbn.
    - apply not_true_iff_false. intros Hba. apply Hne. now apply time_le_antisym.
    - now apply time_le_false_iff in Hab as [Hba _]. }
  rewrite (Hsw _ _ Hoc), (Hsw t (dt_time o) Hio), (Hsw (dt_time c) t (not_eq_sym Hic)).
  destruct (time_le (dt_time o) (dt_time c)) eqn:H1,
           (time_le t (dt_time o)) eqn:H2,
           (time_le (dt_time c) t) eqn:H3; reflexivity.
Qed.

Lemma is_open_swapped_window_witness :
  exists b : bool,
    fst (TimeChecker.is_open "09:00:00" "20:00:00" (at_time 21 30 0) (frozen_world 0 0 0))
    = Return b /\
    fst (TimeChecker.is_open "20:00:00" "09:00:00" (at_time 21 30 0) (frozen_world 0 0 0))
    = Return (negb b).
Proof.
  apply (is_open_swapped_window "09:00:00" "20:00:00" _ _
           (Instant_datetime (mk_datetime 1900 1 1 (hms 21 30 0)))
           (frozen_world 0 0 0) eq_refl eq_refl); cbn; discriminate.
Defined.

(** ** The index before, between and after builds *)

Lemma last_row_with_id_In (i : Z) (df : DataFrame) :
  In i (List.map row_id df) -> last_row_with_id i df <> None.
Proof.
  induction df as [|row df IH]; cbn; [tauto|].
  intros [Heq|Hin].
  - destruct (last_row_with_id i df); [discriminate|].
    rewrite Heq, Z.eqb_refl. discriminate.
  - specialize (IH Hin). destruct (last_row_with_id i df); [discriminate | tauto].
Qed.

Lemma build_all_concat (dfs : list DataFrame) :
  build_all dfs = SpatialIndex.build_index (concat dfs) SpatialIndex.init.
Proof.
  unfold build_all. generalize SpatialIndex.init.
  induction dfs as [|df dfs IH]; intros self; [reflexivity|].
  cbn [fold_left concat]. rewrite IH.
  unfold SpatialIndex.build_index. now rewrite fold_left_app.
Qed.

Lemma is_open_raises (open_hour close_hour : string) (current_time : option instant)
      (w w' : World) (e : exception) :
  TimeChecker.is_open open_hour close_hour current_time w = (Raise e, w') ->
  e = ValueError.
Proof.
  destruct current_time as [i|].
  - rewrite is_open_explicit.
    destruct (strptime_HMS open_hour) as [o|e1] eqn:Ho.
    + destruct (strptime_HMS close_hour) as [c|e2] eqn:Hc; [discriminate|].
      intros H. injection H as <- _. eapply strptime_HMS_raises; eassumption.
    + intros H. injection H as <- _. eapply strptime_HMS_raises; eassumption.
  - rewrite is_open_omitted, is_open_explicit. cbn [fst].
    destruct (strptime_HMS open_hour) as [o|e1] eqn:Ho.
    + destruct (strptime_HMS close_hour) as [c|e2] eqn:Hc; [discriminate|].
      intros H. injection H as <- _. eapply strptime_HMS_raises; eassumption.
    + intros H. injection H as <- _. eapply strptime_HMS_raises; eassumption.
Qed.

Section IndexStates.

Context {distance_calculator : DistanceCalculatorInterface}.
Context {rtree_library : RTreeInterface}.

(** X4: a query on an index that holds nothing yet, as [create_index]
    makes it for the type ["rtree"], returns the empty list, whatever the
    point and the instant, and does not read the clock; every other type
    name makes [create_index] raise [ValueError]. *)
Theorem query_on_new_index (index_type : string) :
  (index_type = "rtree" ->
   exists self,
     SpatialIndexFactory.create_index index_type = Return self /\
     forall (latitude longitude : Q) (current_time : option instant) (w : World),
       SpatialIndex.find_restaurants_in_radius self latitude longitude current_time w
       = (Return [], w)) /\
  (index_type <> "rtree" ->
   SpatialIndexFactory.create_index index_type = Raise ValueError).
Proof.
  unfold SpatialIndexFactory.create_index. split.
  - intros ->. exists SpatialIndex.init. split; [reflexivity|].
    intros latitude longitude current_time w.
    unfold SpatialIndex.find_restaurants_in_radius, SpatialIndex._filter_candidates.
    rewrite candidates_one_leaf by (cbn; unfold leaf_capacity; lia).
    reflexivity.
  - intros Hne. destruct (String.eqb_spec index_type "rtree"); [contradiction | reflexivity].
Qed.

(** The loop raises no [KeyError] when its candidates are all stored. *)
Lemma filter_loop_no_KeyError (self : SpatialIndex.t) (candidates : list Z)
      (latitude longitude : Q) (current_time : option instant) :
  (forall c, In c candidates -> SpatialIndex.restaurants self !! c <> None) ->
  forall (available : list Z) (w : World),
    fst (SpatialIndex.filter_loop self candidates latitude longitude current_time
           available w) <> Raise KeyError.
Proof.
  induction candidates as [|c candidates IH]; intros Hstored available w; [discriminate|].
  rewrite filter_loop_cons.
  pose proof (Hstored c (or_introl eq_refl)) as Hc.
  assert (Hrest : forall c', In c' candidates ->
                             SpatialIndex.restaurants self !! c' <> None)
    by (intros c' Hin; apply Hstored; now right).
  destruct (SpatialIndex.restaurants self !! c) as [r|]; [|contradiction].
  destruct (Qle_bool _ _); [|now apply IH].
  cbn [is_open TimeChecker_instance].
  destruct (TimeChecker.is_open _ _ _ w) as [[keep|e] w1] eqn:Hopen.
  - now apply IH.
  - apply is_open_raises in Hopen as ->. discriminate.
Qed.

(** X5: however many data frames [build_index] has loaded into a new
    index, if their ids are 64-bit integers, which the R-tree keeps as they
    are, then the R-tree and the dictionary hold the same ids, and no query
    raises [KeyError]. *)
Theorem index_and_dictionary_agree (dfs : list DataFrame) :
  List.Forall (List.Forall (fun row => is_int64 (row_id row))) dfs ->
  (forall i : Z,
      In i (List.map fst (rtree_entries (SpatialIndex.idx (build_all dfs)))) <->
      SpatialIndex.restaurants (build_all dfs) !! i <> None) /\
  (forall (latitude longitude : Q) (current_time : option instant) (w : World),
      fst (SpatialIndex.find_restaurants_in_radius (build_all dfs)
             latitude longitude current_time w) <> Raise KeyError).
Proof.
  intros Hint.
  assert (Hids : List.map fst (rtree_entries (SpatialIndex.idx (build_all dfs))) =
                 List.map row_id (concat dfs)).
  { rewrite build_all_concat, built_index_entries, map_map.
    apply map_ext_in. intros row Hin. cbn [entry_of_row fst]. apply int64_id.
    apply in_concat in Hin as (df & Hdf & Hin).
    rewrite List.Forall_forall in Hint. specialize (Hint df Hdf).
    rewrite List.Forall_forall in Hint. now apply Hint. }
  assert (Hagree : forall i : Z,
             In i (List.map fst (rtree_entries (SpatialIndex.idx (build_all dfs)))) <->
             SpatialIndex.restaurants (build_all dfs) !! i <> None).
  { intros i. rewrite Hids, build_all_concat, build_index_lookup.
    cbn [SpatialIndex.init SpatialIndex.restaurants]. split.
    - intros Hin. apply last_row_with_id_In in Hin.
      destruct (last_row_with_id i (concat dfs)); [discriminate | contradiction].
    - intros Hsome.
      destruct (in_dec Z.eq_dec i (List.map row_id (concat dfs))) as [Hin|Hnot];
        [exact Hin|].
      rewrite (last_row_with_id_None _ _ Hnot), lookup_empty in Hsome.
      now destruct Hsome. }
  split; [exact Hagree|].
  intros latitude longitude current_time w.
  unfold SpatialIndex.find_restaurants_in_radius, SpatialIndex._filter_candidates.
  apply filter_loop_no_KeyError.
  intros c Hc. apply Hagree.
  apply (Permutation_in _ (candidates_Permutation _ _ _)) in Hc.
  apply in_map_iff in Hc as (e & <- & He). apply filter_In in He as [He _].
  now apply in_map.
Qed.

End IndexStates.

Lemma query_on_new_index_witness :
  SpatialIndexFactory.create_index "RTree" = Raise ValueError.
Proof.
  apply (proj2 (@query_on_new_index taxicab_calculator insertion_order_rtree "RTree")).
  discriminate.
Defined.

Lemma index_and_dictionary_agree_witness :
  fst (@SpatialIndex.find_restaurants_in_radius
         taxicab_calculator _ insertion_order_rtree
         (build_all [sample_restaurants_df; street_df]) 60 0 None (frozen_world 12 0 0))
  <> Raise KeyError.
Proof.
  apply (proj2 (@index_and_dictionary_agree taxicab_calculator insertion_order_rtree
                  [sample_restaurants_df; street_df]
                  ltac:(repeat constructor; cbn; lia))).
Defined.

(** An id that is not a 64-bit integer is kept as one by the R-tree and
    as it is by the dictionary: the query finds the candidate and raises
    [KeyError] on looking it up. *)
Lemma unrepresentable_id_raises_KeyError :
  fst (@SpatialIndex.find_restaurants_in_radius
         taxicab_calculator _ insertion_order_rtree
         (SpatialIndex.build_index [mk_Row (2 ^ 63) 0 0 5 "00:00:00" "23:59:59" 5]
            SpatialIndex.init)
         0 0 (Some noon) (frozen_world 12 0 0))
  = Raise KeyError.
Proof. vm_compute. reflexivity. Qed.

Section Rebuilding.

Context {distance_calculator : DistanceCalculatorInterface}.
Context {rtree_library : RTreeInterface}.

(** The loop returns at an explicit instant exactly when it gets past
    each candidate, and then it returns the candidates the fine filter
    accepts. *)
Lemma filter_loop_returns_passes (self : SpatialIndex.t) (candidates : list Z)
      (latitude longitude : Q) (i : instant) :
  forall (available ids : list Z) (w w' : World),
    SpatialIndex.filter_loop self candidates latitude longitude (Some i) available w =
    (Return ids, w') ->
    forall c, In c candidates -> candidate_passes self latitude longitude c.
Proof.
  induction candidates as [|c candidates IH]; intros available ids w w' Hrun c' Hin;
    [destruct Hin|].
  rewrite filter_loop_cons in Hrun.
  destruct (SpatialIndex.restaurants self !! c) as [r|] eqn:Hr; [|discriminate].
  destruct (Qle_bool (calculate_distance latitude longitude (r_latitude r) (r_longitude r))
                     (r_availability_radius r)) eqn:Hd.
  - cbn [is_open TimeChecker_instance] in Hrun. rewrite is_open_explicit in Hrun.
    destruct (strptime_HMS (r_open_hour r)) as [o|e] eqn:Ho; [|discriminate].
    destruct (strptime_HMS (r_close_hour r)) as [cl|e] eqn:Hcl; [|discriminate].
    cbn zeta in Hrun. destruct Hin as [<-|Hin]; [|exact (IH _ _ _ _ Hrun c' Hin)].
    unfold candidate_passes. rewrite Hr. intros _. rewrite Ho, Hcl.
    split; eexists; reflexivity.
  - destruct Hin as [<-|Hin]; [|exact (IH _ _ _ _ Hrun c' Hin)].
    unfold candidate_passes. rewrite Hr, Hd. discriminate.
Qed.

Lemma filter_loop_passes_returns (self : SpatialIndex.t) (candidates : list Z)
      (latitude longitude : Q) (i : instant) :
  (forall c, In c candidates -> candidate_passes self latitude longitude c) ->
  forall (available : list Z) (w : World),
    SpatialIndex.filter_loop self candidates latitude longitude (Some i) available w =
    (Return (available ++
             List.filter (candidate_available self latitude longitude i) candidates), w).
Proof.
  induction candidates as [|c candidates IH]; intros Hpass available w.
  - cbn. now rewrite app_nil_r.
  - pose proof (Hpass c (or_introl eq_refl)) as Hc.
    assert (Hrest : forall c', In c' candidates ->
                               candidate_passes self latitude longitude c')
      by (intros c' Hin; apply Hpass; now right).
    rewrite filter_loop_cons. cbn [List.filter].
    unfold candidate_passes in Hc. unfold candidate_available at 1.
    destruct (SpatialIndex.restaurants self !! c) as [r|]; [|destruct Hc].
    destruct (Qle_bool _ _); cbn [andb]; [|now apply IH].
    destruct (Hc eq_refl) as [[o Ho] [cl Hcl]].
    cbn [is_open TimeChecker_instance]. rewrite is_open_explicit.
    unfold open_at. rewrite Ho, Hcl. cbn zeta. rewrite (IH Hrest).
    match goal with
    | |- context [if ?b then available ++ [c] else available] => destruct b
    end; [now rewrite <- app_assoc | reflexivity].
Qed.

(** X6: [build_index] does not empty the R-tree.  After a second call
    with the same data frame every provider is in the R-tree twice, and a
    query that returned [ids] returns each of them twice: the list [ids]
    twice over as long as the doubled entries fit one leaf, and those ids
    in the order of the R-tree beyond that. *)
Theorem rebuilding_doubles_results
        (df : DataFrame) (latitude longitude : Q) (i : instant)
        (ids : list Z) (w w' : World) :
  SpatialIndex.find_restaurants_in_radius
    (SpatialIndex.build_index df SpatialIndex.init) latitude longitude (Some i) w
  = (Return ids, w') ->
  exists ids2,
    SpatialIndex.find_restaurants_in_radius
      (SpatialIndex.build_index df (SpatialIndex.build_index df SpatialIndex.init))
      latitude longitude (Some i) w
    = (Return ids2, w) /\
    Permutation ids2 (ids ++ ids) /\
    ((2 * length df <= leaf_capacity)%nat -> ids2 = ids ++ ids).
Proof.
  set (once := SpatialIndex.build_index df SpatialIndex.init).
  set (twice := SpatialIndex.build_index df once).
  set (base := List.map fst (entries_meeting (prefilter_box latitude longitude)
                               (List.map entry_of_row df))).
  assert (Hdict : SpatialIndex.restaurants twice = SpatialIndex.restaurants once).
  { apply map_eq. intros k. unfold twice. rewrite build_index_lookup.
    destruct (last_row_with_id k df) as [row|] eqn:Hrow; [|reflexivity].
    unfold once. now rewrite build_index_lookup, Hrow. }
  assert (Hentries1 : rtree_entries (SpatialIndex.idx once) = List.map entry_of_row df)
    by apply built_index_entries.
  assert (Hentries2 : rtree_entries (SpatialIndex.idx twice) =
                      List.map entry_of_row df ++ List.map entry_of_row df)
    by (unfold twice; now rewrite build_index_entries, Hentries1).
  assert (Hcands1 : Permutation
                      (SpatialIndex._get_candidate_restaurants once latitude longitude)
                      base)
    by (unfold base; rewrite <- Hentries1; apply candidates_Permutation).
  assert (Hcands2 : Permutation
                      (SpatialIndex._get_candidate_restaurants twice latitude longitude)
                      (base ++ base)).
  { unfold base. rewrite <- List.map_app, <- entries_meeting_app, <- Hentries2.
    apply candidates_Permutation. }
  assert (Havail : forall c,
             candidate_available twice latitude longitude i c =
             candidate_available once latitude longitude i c)
    by (intros c; unfold candidate_available; now rewrite Hdict).
  unfold SpatialIndex.find_restaurants_in_radius, SpatialIndex._filter_candidates.
  intros Hrun.
  pose proof (filter_loop_returns_passes _ _ _ _ _ _ _ _ _ Hrun) as Hpass.
  apply filter_loop_returns in Hrun. cbn [app] in Hrun.
  assert (Hpass2 : forall c,
             In c (SpatialIndex._get_candidate_restaurants twice latitude longitude) ->
             candidate_passes twice latitude longitude c).
  { intros c Hc. unfold candidate_passes. rewrite Hdict. apply Hpass.
    apply (Permutation_in _ Hcands2) in Hc.
    apply (Permutation_in _ (Permutation_sym Hcands1)).
    apply in_app_or in Hc. tauto. }
  eexists. split; [|split].
  - rewrite (filter_loop_passes_returns _ _ _ _ _ Hpass2). reflexivity.
  - cbn [app]. rewrite (filter_ext _ _ Havail). subst ids.
    rewrite (filter_Permutation_list _ _ _ Hcands2), List.filter_app.
    apply Permutation_app; apply filter_Permutation_list, Permutation_sym, Hcands1.
  - intros Hfit. cbn [app]. rewrite (filter_ext _ _ Havail). subst ids.
    rewrite !candidates_one_leaf.
    + rewrite Hentries1, Hentries2, entries_meeting_app, List.map_app, List.filter_app.
      reflexivity.
    + rewrite Hentries1, length_map. lia.
    + rewrite Hentries2, length_app, length_map. lia.
Qed.

(** X7: when the instant is omitted, a query that returns has read the
    clock once for each candidate within its radius, and not at all if
    there is none. *)
Theorem clock_read_per_candidate_in_range
        (self : SpatialIndex.t) (latitude longitude : Q) (ids : list Z) (w w' : World) :
  SpatialIndex.find_restaurants_in_radius self latitude longitude None w
  = (Return ids, w') ->
  clock w' = clock w /\
  reads w' =
  (reads w +
   length (List.filter (candidate_within_radius self latitude longitude)
             (SpatialIndex._get_candidate_restaurants self latitude longitude)))%nat.
Proof.
  unfold SpatialIndex.find_restaurants_in_radius, SpatialIndex._filter_candidates.
  generalize (SpatialIndex._get_candidate_restaurants self latitude longitude) as candidates.
  generalize (@nil Z) as available. intros available candidates. revert available w.
  induction candidates as [|c candidates IH]; intros available w Hrun.
  - cbn in Hrun. injection Hrun as _ <-. cbn. split; [reflexivity | lia].
  - rewrite filter_loop_cons in Hrun. cbn [List.filter].
    unfold candidate_within_radius at 1.
    destruct (SpatialIndex.restaurants self !! c) as [r|]; [|discriminate].
    destruct (Qle_bool _ _); [|now apply IH in Hrun].
    cbn [is_open TimeChecker_instance] in Hrun. rewrite is_open_omitted in Hrun.
    destruct (fst (TimeChecker.is_open _ _ _ w)) as [keep|e]; [|discriminate].
    apply IH in Hrun as [Hclock Hreads]. cbn in *. split; [exact Hclock | lia].
Qed.

End Rebuilding.

Lemma rebuilding_doubles_results_witness :
  exists ids2,
    @SpatialIndex.find_restaurants_in_radius
         taxicab_calculator _ insertion_order_rtree
      (SpatialIndex.build_index street_df
         (SpatialIndex.build_index street_df SpatialIndex.init))
      60 0 (Some noon) (frozen_world 9 0 0)
    = (Return ids2, frozen_world 9 0 0) /\
    ids2 = [1; 3; 4; 1; 3; 4].
Proof.
  destruct (@rebuilding_doubles_results taxicab_calculator insertion_order_rtree
              street_df 60 0 noon [1; 3; 4] (frozen_world 9 0 0) (frozen_world 9 0 0))
    as (ids2 & Hrun & _ & Hfit).
  - vm_compute. reflexivity.
  - exists ids2. split; [exact Hrun|]. apply Hfit. cbn. unfold leaf_capacity. lia.
Defined.

Lemma clock_read_per_candidate_in_range_witness :
  reads (snd (@SpatialIndex.find_restaurants_in_radius
         taxicab_calculator _ insertion_order_rtree
                (SpatialIndex.build_index sample_restaurants_df SpatialIndex.init)
                (512 # 10) (645 # 100) None (frozen_world 15 0 0))) = 1%nat.
Proof.
  apply (proj2 (@clock_read_per_candidate_in_range taxicab_calculator insertion_order_rtree
                  (SpatialIndex.build_index sample_restaurants_df SpatialIndex.init)
                  (512 # 10) (645 # 100) [1] (frozen_world 15 0 0)
                  (mk_World (clock (frozen_world 15 0 0)) 1) ltac:(vm_compute; reflexivity))).
Defined.

(** ** The keys of the cache *)

(** The decimal notation of an integer is made of digits and a sign. *)
Lemma pretty_N_go_chars (P : ascii -> Prop) (x : N) (s : string) :
  (forall d : N, P (pretty_N_char d)) ->
  all_chars P s -> all_chars P (pretty_N_go x s).
Proof.
  intros Hdigit. revert s.
  induction (N.lt_wf_0 x) as [x _ IH]; intros s Hs.
  destruct (N.eq_dec x 0%N) as [->|Hpos].
  - now rewrite pretty_N_go_0.
  - rewrite pretty_N_go_step by lia.
    apply IH; [apply N.div_lt; lia|]. cbn. split; [apply Hdigit | exact Hs].
Qed.

Lemma pretty_Z_chars (P : ascii -> Prop) (z : Z) :
  (forall d : N, P (pretty_N_char d)) -> P "-"%char ->
  all_chars P (pretty z).
Proof.
  intros Hdigit Hdash.
  assert (HN : forall n : N, all_chars P (pretty n)).
  { intros n. unfold pretty, pretty_N. destruct (decide (n = 0%N)).
    - cbn. split; [apply (Hdigit 0%N) | exact I].
    - apply pretty_N_go_chars; [exact Hdigit | exact I]. }
  destruct z as [|p|p]; unfold pretty, pretty_Z.
  - cbn. split; [apply (Hdigit 0%N) | exact I].
  - apply (HN (Npos p)).
  - cbn. split; [exact Hdash | apply (HN (Npos p))].
Qed.

Lemma pretty_Z_without (c : ascii) (z : Z) :
  (forall d : N, pretty_N_char d <> c) -> "-"%char <> c ->
  all_chars (fun a => a <> c) (pretty z).
Proof. intros Hdigit Hdash. now apply pretty_Z_chars. Qed.

(** Two strings cut at the first occurrence of a separator. *)
Lemma split_at_separator (c : ascii) (a a' b b' : string) :
  all_chars (fun x => x <> c) a -> all_chars (fun x => x <> c) a' ->
  a +:+ String c b = a' +:+ String c b' -> a = a' /\ b = b'.
Proof.
  revert a'. induction a as [|x a IH]; intros [|x' a']; cbn; intros Ha Ha' Heq.
  - injection Heq as ->. split; reflexivity.
  - injection Heq as Hc _. destruct Ha' as [Hx' _]. now symmetry in Hc.
  - injection Heq as Hc _. destruct Ha as [Hx _]. contradiction.
  - injection Heq as -> Heq. destruct Ha as [_ Ha], Ha' as [_ Ha'].
    destruct (IH a' Ha Ha' Heq) as [-> ->]. split; reflexivity.
Qed.

Lemma digit_is_not_colon (d : N) : pretty_N_char d <> ":"%char.
Proof. unfold pretty_N_char. repeat case_match; discriminate. Qed.

Lemma time_key_same_minute (ct1 ct2 : option instant) :
  time_key_eqb
    (snd (@CachingSpatialIndex.make_cache_key 0 0 ct1))
    (snd (@CachingSpatialIndex.make_cache_key 0 0 ct2)) = true <->
  same_minute ct1 ct2.
Proof.
  unfold CachingSpatialIndex.make_cache_key. cbn [snd].
  destruct ct1 as [a|], ct2 as [b|]; cbn [time_key_eqb same_minute];
    try (split; [discriminate | tauto]); [|tauto].
  rewrite String.eqb_eq. split.
  - intros Heq.
    apply (split_at_separator ":"%char) in Heq as [Hh Hm].
    + split; apply (inj pretty); assumption.
    + apply pretty_Z_without; [apply digit_is_not_colon | discriminate].
    + apply pretty_Z_without; [apply digit_is_not_colon | discriminate].
  - intros [-> ->]. reflexivity.
Qed.

Lemma round_half_even_close (x : Q) :
  (inject_Z (round_half_even x) - (1 # 2) <= x /\
   x <= inject_Z (round_half_even x) + (1 # 2))%Q.
Proof.
  unfold round_half_even.
  pose proof (Qfloor_le x) as Hlo. pose proof (Qlt_floor x) as Hhi.
  rewrite inject_Z_plus in Hhi. change (inject_Z 1) with 1%Q in Hhi.
  destruct (Qcompare_spec (x - inject_Z (Qfloor x)) (1 # 2)) as [Heq|Hlt|Hgt];
    [destruct (Z.even (Qfloor x))| |];
    rewrite ?inject_Z_plus; change (inject_Z 1) with 1%Q; lra.
Qed.

Lemma round_ndigits_close (x : Q) :
  (round_ndigits x 4 - (1 # 20000) <= x /\ x <= round_ndigits x 4 + (1 # 20000))%Q.
Proof.
  unfold round_ndigits. change (inject_Z (10 ^ 4)) with (10000 # 1)%Q.
  pose proof (round_half_even_close (x * (10000 # 1))) as [Hlo Hhi].
  set (r := inject_Z (round_half_even (x * (10000 # 1)))) in *.
  assert (Hdiv : (r / (10000 # 1) == r * (1 # 10000))%Q) by (unfold Qdiv; reflexivity).
  rewrite Hdiv. lra.
Qed.

Lemma same_rounding_close (x y : Q) :
  (round_ndigits x 4 == round_ndigits y 4)%Q -> (Qabs (x - y) <= 1 # 10000)%Q.
Proof.
  intros Heq.
  pose proof (round_ndigits_close x) as [Hx1 Hx2].
  pose proof (round_ndigits_close y) as [Hy1 Hy2].
  apply Qabs_Qle_condition. lra.
Qed.

(** X8: two queries use the same cache entry exactly when their latitudes
    and their longitudes round to the same 4 decimals and their instants
    have the same hour and minute, or are both omitted. *)
Theorem cache_key_shared_iff
        (lat1 lon1 lat2 lon2 : Q) (ct1 ct2 : option instant) :
  cache_key_eqb (CachingSpatialIndex.make_cache_key lat1 lon1 ct1)
                (CachingSpatialIndex.make_cache_key lat2 lon2 ct2) = true <->
  (round_ndigits lat1 4 == round_ndigits lat2 4)%Q /\
  (round_ndigits lon1 4 == round_ndigits lon2 4)%Q /\
  same_minute ct1 ct2.
Proof.
  pose proof (time_key_same_minute ct1 ct2) as Htime.
  unfold CachingSpatialIndex.make_cache_key in *. cbn [snd] in Htime.
  unfold cache_key_eqb. rewrite !andb_true_iff, !Qeq_bool_iff, Htime. tauto.
Qed.

(** X9: a list stored in the cache is only ever returned for a query
    point within 0.0001 degrees, in latitude and in longitude, of the point
    it was computed for. *)
Theorem cache_key_shared_nearby
        (lat1 lon1 lat2 lon2 : Q) (ct1 ct2 : option instant) :
  cache_key_eqb (CachingSpatialIndex.make_cache_key lat1 lon1 ct1)
                (CachingSpatialIndex.make_cache_key lat2 lon2 ct2) = true ->
  (Qabs (lat1 - lat2) <= 1 # 10000)%Q /\ (Qabs (lon1 - lon2) <= 1 # 10000)%Q.
Proof.
  unfold CachingSpatialIndex.make_cache_key, cache_key_eqb.
  rewrite !andb_true_iff, !Qeq_bool_iff. intros [[Hlat Hlon] _].
  split; now apply same_rounding_close.
Qed.

Lemma cache_key_shared_nearby_witness :
  (Qabs ((512 # 10) - (5120000499 # 100000000)) <= 1 # 10000)%Q /\
  (Qabs ((645 # 100) - (645 # 100)) <= 1 # 10000)%Q.
Proof.
  apply (cache_key_shared_nearby (512 # 10) (645 # 100)
           (5120000499 # 100000000) (645 # 100) (at_time 15 0 10) (at_time 15 0 50)).
  vm_compute. reflexivity.
Defined.

Section CacheEdges.

Context {S : Type} {wrapped : SpatialIndexInterface S}.

(** X10: when the wrapped index raises on a miss, the exception reaches
    the caller, the miss is counted, and nothing is stored: the cache and
    the hit counter are as before, and the same query misses again. *)
Theorem failed_query_is_not_cached
        (self : CachingSpatialIndex.t S) (w : World) (latitude longitude : Q)
        (current_time : option instant) (e : exception) (s' : S) (w' : World) :
  dict_contains (CachingSpatialIndex.make_cache_key latitude longitude current_time)
                (CachingSpatialIndex.cache self) = false ->
  find_restaurants_in_radius latitude longitude current_time
    (CachingSpatialIndex.spatial_index self, w) = (Raise e, (s', w')) ->
  exists self1 : CachingSpatialIndex.t S,
    CachingSpatialIndex.find_restaurants_in_radius latitude longitude current_time (self, w)
    = (Raise e, (self1, w')) /\
    CachingSpatialIndex.cache self1 = CachingSpatialIndex.cache self /\
    CachingSpatialIndex.cache_hits self1 = CachingSpatialIndex.cache_hits self /\
    CachingSpatialIndex.cache_misses self1 = CachingSpatialIndex.cache_misses self + 1 /\
    CachingSpatialIndex.spatial_index self1 = s'.
Proof.
  intros Habsent Hwrapped. apply dict_contains_get in Habsent.
  rewrite (find_miss _ _ _ _ _ _ _ _ Habsent Hwrapped). cbn zeta.
  eexists. split; [reflexivity|]. repeat split.
Qed.

(** A query on an empty cache of capacity 0 or less. *)
Lemma find_without_capacity (self : CachingSpatialIndex.t S) (w : World)
      (latitude longitude : Q) (current_time : option instant) :
  CachingSpatialIndex.cache_size self <= 0 ->
  CachingSpatialIndex.cache self = [] ->
  CachingSpatialIndex.cache_hits self = 0 ->
  let st := CachingSpatialIndex.find_restaurants_in_radius
              latitude longitude current_time (self, w) in
  CachingSpatialIndex.cache_size (fst (snd st)) = CachingSpatialIndex.cache_size self /\
  CachingSpatialIndex.cache (fst (snd st)) = [] /\
  CachingSpatialIndex.cache_hits (fst (snd st)) = 0 /\
  (forall ids, fst st <> Return ids).
Proof.
  intros Hsize Hcache Hhits.
  assert (Hget : dict_get (CachingSpatialIndex.make_cache_key latitude longitude current_time)
                   (CachingSpatialIndex.cache self) = None) by now rewrite Hcache.
  destruct (find_restaurants_in_radius latitude longitude current_time
              (CachingSpatialIndex.spatial_index self, w)) as [r [s' w']] eqn:Hwrapped.
  cbv zeta. rewrite (find_miss _ _ _ _ _ _ _ _ Hget Hwrapped). cbn zeta.
  destruct r as [result|e].
  - rewrite Hcache.
    assert (Hfull : (Z.of_nat (length (@nil (cache_key * list Z)))
                     >=? CachingSpatialIndex.cache_size self) = true)
      by (rewrite Z.geb_leb; apply Z.leb_le; cbn; lia).
    rewrite Hfull. cbn [fst snd]. split; [reflexivity|]. split; [exact Hcache|].
    split; [exact Hhits | discriminate].
  - cbn [fst snd]. split; [reflexivity|]. split; [exact Hcache|].
    split; [exact Hhits | discriminate].
Qed.

(** X11: a caching index constructed with a capacity of 0 or less never
    stores anything and never answers: after any sequence of queries and
    rebuilds its cache is empty and its hit counter is 0, and every query
    ends in an exception ([StopIteration] when the wrapped index had
    answered). *)
Theorem cache_without_capacity_is_useless
        (spatial_index : S) (cache_size : Z) (w : World) (calls : list call) :
  cache_size <= 0 ->
  let st := run_calls calls (CachingSpatialIndex.init spatial_index cache_size, w) in
  CachingSpatialIndex.cache (fst st) = [] /\
  CachingSpatialIndex.cache_hits (fst st) = 0 /\
  (forall (latitude longitude : Q) (current_time : option instant),
      (forall ids,
          fst (CachingSpatialIndex.find_restaurants_in_radius
                 latitude longitude current_time st) <> Return ids) /\
      (forall result s' w',
          find_restaurants_in_radius latitude longitude current_time
            (CachingSpatialIndex.spatial_index (fst st), snd st)
          = (Return result, (s', w')) ->
          fst (CachingSpatialIndex.find_restaurants_in_radius
                 latitude longitude current_time st) = Raise StopIteration)).
Proof.
  intros Hsize. cbv zeta.
  assert (Hinv : CachingSpatialIndex.cache_size
                   (fst (run_calls calls
                           (CachingSpatialIndex.init spatial_index cache_size, w)))
                 = cache_size /\
                 CachingSpatialIndex.cache
                   (fst (run_calls calls
                           (CachingSpatialIndex.init spatial_index cache_size, w))) = [] /\
                 CachingSpatialIndex.cache_hits
                   (fst (run_calls calls
                           (CachingSpatialIndex.init spatial_index cache_size, w))) = 0).
  { induction calls as [|c calls IH] using rev_ind; [repeat split|].
    rewrite run_calls_snoc.
    destruct (run_calls calls _) as [self w0]. cbn [fst] in IH.
    destruct IH as (Hcap & Hcache & Hhits).
    destruct c as [latitude longitude current_time | restaurants_data]; cbn [run_call].
    - rewrite <- Hcap in Hsize.
      destruct (find_without_capacity self w0 latitude longitude current_time
                  Hsize Hcache Hhits) as (Hcap' & Hcache' & Hhits' & _).
      rewrite Hcap', Hcap. repeat split; assumption.
    - rewrite build_index_state. cbn. repeat split. exact Hcap. }
  destruct (run_calls calls _) as [self w0]. cbn [fst snd] in *.
  destruct Hinv as (Hcap & Hcache & Hhits). rewrite <- Hcap in Hsize.
  split; [exact Hcache|]. split; [exact Hhits|].
  intros latitude longitude current_time. split.
  - apply (find_without_capacity self w0 latitude longitude current_time
             Hsize Hcache Hhits).
  - intros result s' w' Hwrapped.
    assert (Hget : dict_get
                     (CachingSpatialIndex.make_cache_key latitude longitude current_time)
                     (CachingSpatialIndex.cache self) = None) by now rewrite Hcache.
    rewrite (find_miss _ _ _ _ _ _ _ _ Hget Hwrapped). cbn zeta.
    rewrite Hcache.
    assert (Hfull : (Z.of_nat (length (@nil (cache_key * list Z)))
                     >=? CachingSpatialIndex.cache_size self) = true)
      by (rewrite Z.geb_leb; apply Z.leb_le; cbn; lia).
    now rewrite Hfull.
Qed.

End CacheEdges.

Lemma failed_query_is_not_cached_witness :
  let wrapped := @SpatialIndex_instance taxicab_calculator _ insertion_order_rtree in
  let self :=
    CachingSpatialIndex.init (SpatialIndex.build_index malformed_df SpatialIndex.init) 10 in
  exists self1,
    CachingSpatialIndex.find_restaurants_in_radius 0 0 (at_time 12 0 0)
      (self, frozen_world 12 0 0) = (Raise ValueError, (self1, frozen_world 12 0 0)) /\
    CachingSpatialIndex.cache self1 = [].
Proof.
  intros wrapped self.
  destruct (@failed_query_is_not_cached _ wrapped self (frozen_world 12 0 0)
              0 0 (at_time 12 0 0) ValueError
              (SpatialIndex.build_index malformed_df SpatialIndex.init)
              (frozen_world 12 0 0))
    as (self1 & Hrun & Hcache & _).
  - reflexivity.
  - vm_compute. reflexivity.
  - exists self1. split; [exact Hrun | exact Hcache].
Defined.

Lemma cache_without_capacity_is_useless_witness :
  let wrapped := @SpatialIndex_instance taxicab_calculator _ insertion_order_rtree in
  CachingSpatialIndex.cache
    (fst (run_calls sample_calls
            (CachingSpatialIndex.init
               (SpatialIndex.build_index sample_restaurants_df SpatialIndex.init) 0,
             frozen_world 15 0 0))) = [].
Proof.
  intros wrapped.
  exact (proj1 (@cache_without_capacity_is_useless _ wrapped
                  (SpatialIndex.build_index sample_restaurants_df SpatialIndex.init)
                  0 (frozen_world 15 0 0) sample_calls ltac:(lia))).
Defined.

Lemma dict_get_set_other {V} (k k' : cache_key) (v : V) (d : dict V) :
  cache_key_eqb k k' = false -> dict_get k (dict_set k' v d) = dict_get k d.
Proof.
  intros Hne. induction d as [|[k0 v0] d IH]; cbn.
  - now rewrite Hne.
  - destruct (cache_key_eqb k' k0) eqn:E; cbn.
    + destruct (cache_key_eqb k k0) eqn:E0; [|reflexivity].
      rewrite cache_key_eqb_sym in E.
      now rewrite (cache_key_eqb_trans _ _ _ E0 E) in Hne.
    + destruct (cache_key_eqb k k0); [reflexivity | exact IH].
Qed.

Section Eviction.

Context {S : Type} {wrapped : SpatialIndexInterface S}.

(** X12: eviction follows the order of insertion, not of use.  On a full
    cache, a hit on the oldest entry does not save it: the next miss
    drops that entry, and the query that had just hit misses. *)
Theorem hit_does_not_protect_oldest_entry
        (self : CachingSpatialIndex.t S) (w : World)
        (k1 : cache_key) (v1 : list Z) (d : dict (list Z))
        (latA lonA latB lonB : Q) (ctA ctB : option instant)
        (result : list Z) (s' : S) (w' : World) :
  CachingSpatialIndex.cache self = (k1, v1) :: d ->
  dict_keys_distinct (CachingSpatialIndex.cache self) = true ->
  Z.of_nat (length (CachingSpatialIndex.cache self)) = CachingSpatialIndex.cache_size self ->
  cache_key_eqb (CachingSpatialIndex.make_cache_key latA lonA ctA) k1 = true ->
  dict_contains (CachingSpatialIndex.make_cache_key latB lonB ctB)
                (CachingSpatialIndex.cache self) = false ->
  find_restaurants_in_radius latB lonB ctB (CachingSpatialIndex.spatial_index self, w)
  = (Return result, (s', w')) ->
  let after_hit :=
    CachingSpatialIndex.find_restaurants_in_radius latA lonA ctA (self, w) in
  let after_miss :=
    CachingSpatialIndex.find_restaurants_in_radius latB lonB ctB (snd after_hit) in
  fst after_hit = Return v1 /\
  fst after_miss = Return result /\
  dict_contains (CachingSpatialIndex.make_cache_key latA lonA ctA)
                (CachingSpatialIndex.cache (fst (snd after_miss))) = false.
Proof.
  intros Hcache Hdistinct Hfull HkeyA HabsentB Hwrapped.
  set (kA := CachingSpatialIndex.make_cache_key latA lonA ctA) in *.
  set (kB := CachingSpatialIndex.make_cache_key latB lonB ctB) in *.
  assert (HgetA : dict_get kA (CachingSpatialIndex.cache self) = Some v1)
    by (rewrite Hcache; cbn [dict_get]; now rewrite HkeyA).
  apply dict_contains_get in HabsentB.
  assert (HgetB : dict_get kB (CachingSpatialIndex.cache
                    (CachingSpatialIndex.set_cache_hits
                       (CachingSpatialIndex.cache_hits self + 1) self)) = None)
    by exact HabsentB.
  assert (HneB : cache_key_eqb kA kB = false).
  { destruct (cache_key_eqb kA kB) eqn:E; [|reflexivity].
    rewrite Hcache in HabsentB. cbn [dict_get] in HabsentB.
    rewrite cache_key_eqb_sym in E.
    now rewrite (cache_key_eqb_trans _ _ _ E HkeyA) in HabsentB. }
  assert (HnotinA : dict_get kA d = None).
  { rewrite (dict_get_eqb _ _ _ HkeyA).
    rewrite Hcache in Hdistinct. cbn [dict_keys_distinct] in Hdistinct.
    apply andb_true_iff in Hdistinct as [Hk1 _].
    apply negb_true_iff in Hk1. now apply dict_contains_get. }
  cbv zeta. rewrite (find_hit _ _ _ _ _ _ HgetA). cbn [fst snd].
  split; [reflexivity|].
  rewrite (find_miss _ _ _ _ _ _ _ _ HgetB Hwrapped). cbn zeta.
  change (CachingSpatialIndex.cache
            (CachingSpatialIndex.set_cache_hits
               (CachingSpatialIndex.cache_hits self + 1) self))
    with (CachingSpatialIndex.cache self).
  change (CachingSpatialIndex.cache_size
            (CachingSpatialIndex.set_cache_hits
               (CachingSpatialIndex.cache_hits self + 1) self))
    with (CachingSpatialIndex.cache_size self).
  rewrite Hfull, Z.geb_leb, Z.leb_refl, Hcache. cbn [fst snd].
  split; [reflexivity|].
  apply dict_contains_get.
  unfold CachingSpatialIndex.set_cache. cbn [CachingSpatialIndex.cache].
  now rewrite dict_get_set_other.
Qed.

End Eviction.

Lemma hit_does_not_protect_oldest_entry_witness :
  let wrapped := @SpatialIndex_instance taxicab_calculator _ insertion_order_rtree in
  let self :=
    CachingSpatialIndex.mk (SpatialIndex.build_index sample_restaurants_df SpatialIndex.init)
      two_entries 2 0 2 in
  let after_hit :=
    CachingSpatialIndex.find_restaurants_in_radius 0 0 None (self, frozen_world 15 0 0) in
  let after_miss :=
    CachingSpatialIndex.find_restaurants_in_radius 2 2 None (snd after_hit) in
  dict_contains (@CachingSpatialIndex.make_cache_key 0 0 None)
                (CachingSpatialIndex.cache (fst (snd after_miss))) = false.
Proof.
  intros wrapped self.
  refine (proj2 (proj2 (@hit_does_not_protect_oldest_entry _ wrapped self
                          (frozen_world 15 0 0) _ _ _ 0 0 2 2 None None []
                          (SpatialIndex.build_index sample_restaurants_df SpatialIndex.init)
                          (frozen_world 15 0 0) eq_refl _ _ _ _ _))).
  - reflexivity.
  - reflexivity.
  - vm_compute. reflexivity.
  - reflexivity.
  - vm_compute. reflexivity.
Defined.

(** ** The logging decorator *)

Ltac run_logging :=
  unfold LoggingSpatialIndex.find_restaurants_in_radius,
    LoggingSpatialIndex.build_index, LoggingSpatialIndex._log, bind,
    LoggingSpatialIndex.get_self, LoggingSpatialIndex.update_self,
    LoggingSpatialIndex.on_spatial_index, ret,
    LoggingSpatialIndex.set_query_count, LoggingSpatialIndex.set_spatial_index;
  cbn.

Section Logging.

Context {S : Type} {wrapped : SpatialIndexInterface S}.

Lemma logged_find (self : LoggingSpatialIndex.t S) (w : World)
      (latitude longitude : Q) (current_time : option instant)
      (r : outcome (list Z)) (s' : S) (w' : World) :
  find_restaurants_in_radius latitude longitude current_time
    (LoggingSpatialIndex.spatial_index self, w) = (r, (s', w')) ->
  LoggingSpatialIndex.find_restaurants_in_radius latitude longitude current_time (self, w)
  = (r,
     (LoggingSpatialIndex.mk s' (LoggingSpatialIndex.log_file self)
        (LoggingSpatialIndex.query_count self + 1)
        (LoggingSpatialIndex.output self ++
         [(LoggingSpatialIndex.destination self,
           Log_query (LoggingSpatialIndex.query_count self + 1)
             latitude longitude current_time)] ++
         match r with
         | Return result =>
             [(LoggingSpatialIndex.destination self,
               Log_found (LoggingSpatialIndex.query_count self + 1) (length result))]
         | Raise _ => []
         end),
      w')).
Proof.
  intros Hwrapped. destruct self as [s file n out]. cbn in Hwrapped.
  run_logging. rewrite Hwrapped.
  destruct r as [result|e]; cbn; rewrite <- ?app_assoc; reflexivity.
Qed.

Lemma logged_build (self : LoggingSpatialIndex.t S) (w : World)
      (restaurants_data : DataFrame) (r : outcome unit) (s' : S) (w' : World) :
  build_index restaurants_data (LoggingSpatialIndex.spatial_index self, w)
  = (r, (s', w')) ->
  LoggingSpatialIndex.build_index restaurants_data (self, w)
  = (r,
     (LoggingSpatialIndex.mk s' (LoggingSpatialIndex.log_file self) 0
        (LoggingSpatialIndex.output self ++
         [(LoggingSpatialIndex.destination self,
           Log_building (length restaurants_data))] ++
         match r with
         | Return _ => [(LoggingSpatialIndex.destination self, Log_built)]
         | Raise _ => []
         end),
      w')).
Proof.
  intros Hwrapped. destruct self as [s file n out]. cbn in Hwrapped.
  run_logging. rewrite Hwrapped.
  destruct r as [[]|e]; cbn; rewrite <- ?app_assoc; reflexivity.
Qed.


End Logging.

Section LoggingOverCaching.

Context {S : Type} {wrapped : SpatialIndexInterface S}.

(** Every query on a caching index is counted once, as a hit or as a
    miss. *)
Lemma find_counts_once (self : CachingSpatialIndex.t S) (w : World)
      (latitude longitude : Q) (current_time : option instant) :
  let self' :=
    fst (snd (CachingSpatialIndex.find_restaurants_in_radius
                latitude longitude current_time (self, w))) in
  CachingSpatialIndex.cache_hits self' + CachingSpatialIndex.cache_misses self' =
  CachingSpatialIndex.cache_hits self + CachingSpatialIndex.cache_misses self + 1.
Proof.
  cbv zeta.
  destruct (dict_get (CachingSpatialIndex.make_cache_key latitude longitude current_time)
              (CachingSpatialIndex.cache self)) as [result|] eqn:Hget.
  - rewrite (find_hit _ _ _ _ _ _ Hget). cbn. lia.
  - destruct (find_restaurants_in_radius latitude longitude current_time
                (CachingSpatialIndex.spatial_index self, w)) as [r [s' w']] eqn:Hwrapped.
    rewrite (find_miss _ _ _ _ _ _ _ _ Hget Hwrapped). cbn zeta.
    destruct r as [result|e]; [|cbn; lia].
    destruct (Z.of_nat (length (CachingSpatialIndex.cache self)) >=?
              CachingSpatialIndex.cache_size self); [|cbn; lia].
    destruct (CachingSpatialIndex.cache self); cbn; lia.
Qed.

Lemma run_logged_calls_snoc (calls : list call) (c : call)
      (st : LoggingSpatialIndex.t (CachingSpatialIndex.t S) * World) :
  run_logged_calls (calls ++ [c]) st = run_logged_call c (run_logged_calls calls st).
Proof. unfold run_logged_calls. now rewrite fold_left_app. Qed.

(** X14: decorators nest.  On a logging index set up around a caching
    index, after any sequence of queries and rebuilds made through the
    logging index, its query count is the sum of the hits and the misses of
    the cache, and both are the number of queries since the latest
    rebuild. *)
Theorem logging_count_matches_cache
        (spatial_index : S) (cache_size : Z) (log_file : option string)
        (w : World) (calls : list call) :
  let logging :=
    fst (run_logged_calls calls
           (LoggingSpatialIndex.init
              (CachingSpatialIndex.init spatial_index cache_size) log_file, w)) in
  let caching := LoggingSpatialIndex.spatial_index logging in
  LoggingSpatialIndex.query_count logging = queries_since_build calls /\
  CachingSpatialIndex.cache_hits caching + CachingSpatialIndex.cache_misses caching
  = queries_since_build calls.
Proof.
  cbv zeta. induction calls as [|c calls IH] using rev_ind; [split; reflexivity|].
  rewrite run_logged_calls_snoc, queries_since_build_snoc.
  destruct (run_logged_calls calls _) as [logging w0]. cbn [fst] in IH.
  destruct IH as [Hcount Hcache].
  destruct c as [latitude longitude current_time | restaurants_data];
    cbn [run_logged_call].
  - pose proof (find_counts_once (LoggingSpatialIndex.spatial_index logging) w0
                  latitude longitude current_time) as Hstep. cbv zeta in Hstep.
    destruct (find_restaurants_in_radius latitude longitude current_time
                (LoggingSpatialIndex.spatial_index logging, w0))
      as [r [s' w']] eqn:Hwrapped.
    rewrite (logged_find _ _ _ _ _ _ _ _ Hwrapped). cbn [fst snd].
    cbn [LoggingSpatialIndex.query_count LoggingSpatialIndex.spatial_index].
    cbn [find_restaurants_in_radius CachingSpatialIndex_instance] in Hwrapped.
    rewrite Hwrapped in Hstep. cbn [fst snd] in Hstep. split; lia.
  - pose proof (build_index_state (LoggingSpatialIndex.spatial_index logging) w0
                  restaurants_data) as Hstep.
    destruct (build_index restaurants_data
                (LoggingSpatialIndex.spatial_index logging, w0))
      as [r [s' w']] eqn:Hwrapped.
    rewrite (logged_build _ _ _ _ _ _ Hwrapped). cbn [fst snd].
    cbn [LoggingSpatialIndex.query_count LoggingSpatialIndex.spatial_index].
    cbn [build_index CachingSpatialIndex_instance] in Hwrapped.
    rewrite Hwrapped in Hstep. cbn [fst snd] in Hstep. rewrite Hstep. cbn. split; lia.
Qed.

End LoggingOverCaching.

(** ** The filter strategies *)

Section Strategies.

Context {distance_calculator : DistanceCalculatorInterface}.

(** One turn of the loop of the strategy. *)
Lemma strategy_loop_cons
      {time_checker : TimeCheckerInterface}
      (restaurants : gmap Z Restaurant) (restaurant_id : Z) (candidates : list Z)
      (latitude longitude : Q) (current_time : option instant)
      (available : list Z) (w : World) :
  DistanceAndTimeFilterStrategy.filter_loop (restaurant_id :: candidates) restaurants
    latitude longitude current_time available w =
  match restaurants !! restaurant_id with
  | None => (Raise KeyError, w)
  | Some r =>
      if Qle_bool (calculate_distance latitude longitude (r_latitude r) (r_longitude r))
                  (r_availability_radius r)
      then
        match is_open (r_open_hour r) (r_close_hour r) current_time w with
        | (Return keep, w') =>
            DistanceAndTimeFilterStrategy.filter_loop candidates restaurants
              latitude longitude current_time
              (if keep then available ++ [restaurant_id] else available) w'
        | (Raise e, w') => (Raise e, w')
        end
      else
        DistanceAndTimeFilterStrategy.filter_loop candidates restaurants
          latitude longitude current_time available w
  end.
Proof.
  cbn [DistanceAndTimeFilterStrategy.filter_loop]. unfold bind at 1.
  destruct (restaurants !! restaurant_id) as [r|]; [|reflexivity].
  cbn [ret]. unfold bind at 1.
  destruct (Qle_bool _ _); [|reflexivity].
  destruct (is_open _ _ _ w) as [[keep|e] w']; reflexivity.
Qed.

(** X15: the strategy of distance and time is the fine filter of the
    index: run on the dictionary of an index, it computes what
    [_filter_candidates] computes, in every world and for every time
    checker. *)
Theorem strategy_is_the_fine_filter
        {time_checker : TimeCheckerInterface}
        (self : SpatialIndex.t) (candidates : list Z)
        (latitude longitude : Q) (current_time : option instant) (w : World) :
  DistanceAndTimeFilterStrategy.filter_restaurants candidates
    (SpatialIndex.restaurants self) latitude longitude current_time w =
  SpatialIndex._filter_candidates self candidates latitude longitude current_time w.
Proof.
  unfold DistanceAndTimeFilterStrategy.filter_restaurants, SpatialIndex._filter_candidates.
  generalize (@nil Z) as available. revert w.
  induction candidates as [|c candidates IH]; intros w available; [reflexivity|].
  rewrite strategy_loop_cons, filter_loop_cons.
  destruct (SpatialIndex.restaurants self !! c) as [r|]; [|reflexivity].
  destruct (Qle_bool _ _); [|apply IH].
  destruct (is_open _ _ _ w) as [[keep|e] w1]; [apply IH | reflexivity].
Qed.

(** The strategy of distance and time returns stored ids only. *)
Lemma strategy_returns_stored
      {time_checker : TimeCheckerInterface}
      (restaurants : gmap Z Restaurant) (candidates : list Z)
      (latitude longitude : Q) (current_time : option instant) :
  forall (available ids : list Z) (w w' : World),
    DistanceAndTimeFilterStrategy.filter_loop candidates restaurants
      latitude longitude current_time available w = (Return ids, w') ->
    (forall i, In i available -> restaurants !! i <> None) ->
    forall i, In i ids -> restaurants !! i <> None.
Proof.
  induction candidates as [|c candidates IH]; intros available ids w w' Hrun Havail.
  - cbn in Hrun. injection Hrun as <- _. exact Havail.
  - rewrite strategy_loop_cons in Hrun.
    destruct (restaurants !! c) as [r|] eqn:Hc; [|discriminate].
    destruct (Qle_bool _ _); [|now apply (IH _ _ _ _ Hrun)].
    destruct (is_open _ _ _ w) as [[keep|e] w1]; [|discriminate].
    apply (IH _ _ _ _ Hrun). intros i Hi.
    destruct keep; [|now apply Havail].
    apply in_app_iff in Hi as [Hi|[<-|[]]]; [now apply Havail | now rewrite Hc].
Qed.

End Strategies.

Lemma by_rating_stored (restaurants : gmap Z Restaurant) (min_rating : Q) (ids : list Z) :
  (forall i, In i ids -> restaurants !! i <> None) ->
  RatingFilterStrategy.by_rating restaurants min_rating ids =
  Return (List.filter (rated_at_least restaurants min_rating) ids).
Proof.
  induction ids as [|i ids IH]; intros Hstored; [reflexivity|].
  cbn [RatingFilterStrategy.by_rating List.filter]. unfold rated_at_least at 1.
  pose proof (Hstored i (or_introl eq_refl)) as Hi.
  destruct (restaurants !! i) as [r|]; [|contradiction].
  rewrite IH by (intros j Hj; apply Hstored; now right).
  reflexivity.
Qed.

Lemma stored_or_missing (restaurants : gmap Z Restaurant) (ids : list Z) :
  (forall i, In i ids -> restaurants !! i <> None) \/
  (exists i, In i ids /\ restaurants !! i = None).
Proof.
  induction ids as [|i ids [IH|(j & Hj & Hnone)]].
  - left. intros i [].
  - destruct (restaurants !! i) as [r|] eqn:Hi.
    + left. intros j [<-|Hj]; [now rewrite Hi | now apply IH].
    + right. exists i. split; [now left | exact Hi].
  - right. exists j. split; [now right | exact Hnone].
Qed.

Lemma by_rating_missing (restaurants : gmap Z Restaurant) (min_rating : Q) (ids : list Z) :
  (exists i, In i ids /\ restaurants !! i = None) ->
  RatingFilterStrategy.by_rating restaurants min_rating ids = Raise KeyError.
Proof.
  induction ids as [|i ids IH]; intros (j & Hj & Hnone); [destruct Hj|].
  cbn [RatingFilterStrategy.by_rating].
  destruct (restaurants !! i) as [r|] eqn:Hi; [|reflexivity].
  rewrite IH; [reflexivity|].
  destruct Hj as [->|Hj]; [congruence|]. now exists j.
Qed.

(** X16: the rating strategy on top of the strategy of distance and time
    returns, whenever that one returns, the ids it returned whose stored
    rating is at least [min_rating], in the same order, and never a
    [KeyError] of its own; what the base raises, it raises. *)
Theorem rating_strategy_filters_base_results
        {distance_calculator : DistanceCalculatorInterface}
        {time_checker : TimeCheckerInterface}
        (min_rating : Q) (candidates : list Z) (restaurants : gmap Z Restaurant)
        (latitude longitude : Q) (current_time : option instant) (w : World) :
  let base :=
    DistanceAndTimeFilterStrategy.filter_restaurants candidates restaurants
      latitude longitude current_time w in
  RatingFilterStrategy.filter_restaurants DistanceAndTimeFilterStrategy_instance
    min_rating candidates restaurants latitude longitude current_time w =
  (match fst base with
   | Return ids => Return (List.filter (rated_at_least restaurants min_rating) ids)
   | Raise e => Raise e
   end, snd base).
Proof.
  cbv zeta. unfold RatingFilterStrategy.filter_restaurants, bind, of_outcome.
  cbn [filter_restaurants DistanceAndTimeFilterStrategy_instance].
  destruct (DistanceAndTimeFilterStrategy.filter_restaurants candidates restaurants
              latitude longitude current_time w) as [[ids|e] w'] eqn:Hbase;
    [|reflexivity].
  cbn [fst snd]. rewrite by_rating_stored; [reflexivity|].
  unfold DistanceAndTimeFilterStrategy.filter_restaurants in Hbase.
  apply (strategy_returns_stored _ _ _ _ _ _ _ _ _ Hbase). intros i [].
Qed.

Lemma filter_rated_twice (restaurants : gmap Z Restaurant) (a b : Q) (ids : list Z) :
  List.filter (rated_at_least restaurants b)
    (List.filter (rated_at_least restaurants a) ids) =
  List.filter (rated_at_least restaurants (if Qle_bool a b then b else a)) ids.
Proof.
  rewrite filter_filter_andb. apply filter_ext. intros i.
  unfold rated_at_least. destruct (restaurants !! i) as [r|]; [|reflexivity].
  destruct (Qle_bool a b) eqn:Hab.
  - destruct (Qle_bool b (r_rating r)) eqn:Hb; [|apply andb_false_r].
    rewrite andb_true_r. apply Qle_bool_iff. apply Qle_bool_iff in Hab, Hb. lra.
  - destruct (Qle_bool a (r_rating r)) eqn:Ha; [|reflexivity].
    cbn. apply Qle_bool_iff. apply Qle_bool_iff in Ha.
    apply not_true_iff_false in Hab. rewrite Qle_bool_iff in Hab. lra.
Qed.

(** X17: rating strategies stack into one.  A rating strategy with
    threshold [b] on top of one with threshold [a] behaves, whatever the
    base strategy, as a single rating strategy with the larger of the two
    thresholds: same list, same exception, same world. *)
Theorem rating_strategies_stack
        (base : FilterStrategy) (a b : Q)
        (candidates : list Z) (restaurants : gmap Z Restaurant)
        (latitude longitude : Q) (current_time : option instant) (w : World) :
  RatingFilterStrategy.filter_restaurants (RatingFilterStrategy_instance base a) b
    candidates restaurants latitude longitude current_time w =
  RatingFilterStrategy.filter_restaurants base (if Qle_bool a b then b else a)
    candidates restaurants latitude longitude current_time w.
Proof.
  unfold RatingFilterStrategy.filter_restaurants, bind, of_outcome.
  cbn [filter_restaurants RatingFilterStrategy_instance].
  unfold RatingFilterStrategy.filter_restaurants, bind, of_outcome.
  destruct (filter_restaurants candidates restaurants latitude longitude current_time w)
    as [[ids|e] w']; [|reflexivity].
  destruct (stored_or_missing restaurants ids) as [Hstored|Hmissing].
  - rewrite !by_rating_stored; try exact Hstored.
    + now rewrite filter_rated_twice.
    + intros i Hi. apply filter_In in Hi as [Hi _]. now apply Hstored.
  - now rewrite !by_rating_missing.
Qed.

(** ** Regions *)

Section Regions.

Context {distance_calculator : DistanceCalculatorInterface}.


Lemma rectangle_contains_iff (sw_lat sw_lon ne_lat ne_lon latitude longitude : Q) :
  contains (RectangleRegion sw_lat sw_lon ne_lat ne_lon) latitude longitude = true <->
  (sw_lat <= latitude /\ latitude <= ne_lat /\
   sw_lon <= longitude /\ longitude <= ne_lon)%Q.
Proof. cbn [contains]. rewrite !andb_true_iff, !Qle_bool_iff. tauto. Qed.

(** X19: the intersection of two rectangles is the rectangle between the
    larger of their south-west corners and the smaller of their north-east
    corners. *)
Theorem intersection_of_rectangles
        (sw_lat1 sw_lon1 ne_lat1 ne_lon1 sw_lat2 sw_lon2 ne_lat2 ne_lon2 : Q)
        (latitude longitude : Q) :
  contains
    (CompositeRegion Intersection
       [RectangleRegion sw_lat1 sw_lon1 ne_lat1 ne_lon1;
        RectangleRegion sw_lat2 sw_lon2 ne_lat2 ne_lon2]) latitude longitude =
  contains
    (RectangleRegion (Qmax sw_lat1 sw_lat2) (Qmax sw_lon1 sw_lon2)
                     (Qmin ne_lat1 ne_lat2) (Qmin ne_lon1 ne_lon2)) latitude longitude.
Proof.
  set (r1 := RectangleRegion sw_lat1 sw_lon1 ne_lat1 ne_lon1).
  set (r2 := RectangleRegion sw_lat2 sw_lon2 ne_lat2 ne_lon2).
  assert (Hboth : contains (CompositeRegion Intersection [r1; r2]) latitude longitude =
                  contains r1 latitude longitude && contains r2 latitude longitude)
    by (cbn [contains forallb]; now rewrite andb_true_r).
  rewrite Hboth. apply eq_true_iff_eq.
  rewrite andb_true_iff. unfold r1, r2. rewrite !rectangle_contains_iff.
  rewrite !Q.max_lub_iff, !Q.min_glb_iff. tauto.
Qed.

(** X20: whatever the regions, a point of their intersection is a point
    of each of them and of their union, and a point of one of them is a
    point of their union; with no region at all, both are empty. *)
Theorem intersection_within_union (regions : list Region) (latitude longitude : Q) :
  (contains (CompositeRegion Intersection regions) latitude longitude = true ->
   contains (CompositeRegion Union regions) latitude longitude = true /\
   forall region, In region regions -> contains region latitude longitude = true) /\
  (forall region, In region regions -> contains region latitude longitude = true ->
                  contains (CompositeRegion Union regions) latitude longitude = true) /\
  contains (CompositeRegion Intersection []) latitude longitude = false /\
  contains (CompositeRegion Union []) latitude longitude = false.
Proof.
  split; [|split; [|split; reflexivity]].
  - intros Hall. destruct regions as [|r regions]; [discriminate|].
    cbn [contains] in Hall. rewrite forallb_forall in Hall. split.
    + cbn [contains existsb]. rewrite (Hall r (or_introl eq_refl)). reflexivity.
    + exact Hall.
  - intros region Hin Hr. cbn [contains]. apply existsb_exists. now exists region.
Qed.

Lemma union_contains_app (kind : composite_kind) (regions1 regions2 : list Region)
      (latitude longitude : Q) :
  kind <> Intersection ->
  contains (CompositeRegion kind (regions1 ++ regions2)) latitude longitude =
  contains (CompositeRegion kind regions1) latitude longitude
  || contains (CompositeRegion kind regions2) latitude longitude.
Proof.
  intros Hkind. destruct kind; [| |contradiction]; cbn [contains]; apply existsb_app.
Qed.

(** X21: adding a region enlarges a union by that region.  It narrows an
    intersection to the points of that region too, unless the
    intersection had no region yet: then it contained nothing, and now is
    that region. *)
Theorem add_region_contains (kind : composite_kind) (regions : list Region)
        (region : Region) (latitude longitude : Q) :
  exists added,
    add_region (CompositeRegion kind regions) region = Some added /\
    contains added latitude longitude =
    match kind, regions with
    | Intersection, [] => contains region latitude longitude
    | Intersection, _ =>
        contains (CompositeRegion kind regions) latitude longitude
        && contains region latitude longitude
    | _, _ =>
        contains (CompositeRegion kind regions) latitude longitude
        || contains region latitude longitude
    end.
Proof.
  eexists. split; [reflexivity|].
  destruct kind.
  - rewrite union_contains_app by discriminate. cbn [contains existsb].
    now rewrite orb_false_r.
  - rewrite union_contains_app by discriminate. cbn [contains existsb].
    now rewrite orb_false_r.
  - destruct regions as [|r regions].
    + cbn. now rewrite andb_true_r.
    + cbn [contains app forallb]. rewrite forallb_app. cbn [forallb].
      now rewrite andb_true_r, andb_assoc.
Qed.

(** X22: unions nest freely: a union of unions contains the points that
    the union of all their parts contains, and a [CompositeRegion] is a
    union. *)
Theorem union_of_unions (groups : list (list Region)) (latitude longitude : Q) :
  contains (CompositeRegion Union (List.map (CompositeRegion Union) groups))
           latitude longitude =
  contains (CompositeRegion Union (concat groups)) latitude longitude /\
  contains (CompositeRegion Composite (concat groups)) latitude longitude =
  contains (CompositeRegion Union (concat groups)) latitude longitude.
Proof.
  split; [|reflexivity].
  induction groups as [|g groups IH]; [reflexivity|].
  cbn [List.map concat]. rewrite union_contains_app by discriminate.
  rewrite <- IH. reflexivity.
Qed.

End Regions.


(** ** The subject and its observers *)

Lemma ref_in_In (o : nat) (l : list nat) :
  RestaurantAvailabilitySubject.ref_in o l = true <-> In o l.
Proof.
  unfold RestaurantAvailabilitySubject.ref_in. rewrite existsb_exists. split.
  - intros (x & Hx & Heq). apply Nat.eqb_eq in Heq. now subst.
  - intros Hin. exists o. split; [exact Hin | apply Nat.eqb_refl].
Qed.

Lemma list_remove_In (o x : nat) (l : list nat) :
  In x (RestaurantAvailabilitySubject.list_remove o l) -> In x l.
Proof.
  induction l as [|y l IH]; cbn; [tauto|].
  destruct (Nat.eqb o y); cbn; tauto.
Qed.

Lemma list_remove_other (o x : nat) (l : list nat) :
  x <> o -> In x l -> In x (RestaurantAvailabilitySubject.list_remove o l).
Proof.
  intros Hne. induction l as [|y l IH]; cbn; [tauto|].
  destruct (Nat.eqb_spec o y) as [->|Hoy]; cbn; intuition congruence.
Qed.

Lemma list_remove_NoDup (o : nat) (l : list nat) :
  List.NoDup l ->
  List.NoDup (RestaurantAvailabilitySubject.list_remove o l) /\
  ~ In o (RestaurantAvailabilitySubject.list_remove o l).
Proof.
  induction l as [|y l IH]; cbn; intros Hnd; [split; [constructor | tauto]|].
  apply NoDup_cons_iff in Hnd as [Hy Hnd]. destruct (IH Hnd) as [IH1 IH2].
  destruct (Nat.eqb_spec o y) as [->|Hoy]; [split; assumption|].
  split.
  - apply List.NoDup_cons; [|exact IH1]. intros Hin. apply Hy.
    now apply list_remove_In in Hin.
  - cbn. intros [Heq|Hin]; [congruence | contradiction].
Qed.

(** Updating the observers of a list without repetition, one after the
    other, updates each of them once and no other object. *)
Lemma notify_each_once (f : Observer -> Observer) (l : list nat)
      (heap : gmap nat Observer) (o : nat) :
  List.NoDup l ->
  fold_left (fun heap observer => alter f observer heap) l heap !! o =
  if RestaurantAvailabilitySubject.ref_in o l then f <$> heap !! o else heap !! o.
Proof.
  revert heap. induction l as [|x l IH]; intros heap Hnd; [reflexivity|].
  apply NoDup_cons_iff in Hnd as [Hx Hnd]. cbn [fold_left]. rewrite (IH _ Hnd).
  unfold RestaurantAvailabilitySubject.ref_in. cbn [existsb].
  destruct (Nat.eqb_spec o x) as [->|Hox].
  - cbn [orb].
    replace (existsb (Nat.eqb x) l) with false.
    + now rewrite lookup_alter_eq.
    + symmetry. apply not_true_iff_false. intros Hin.
      apply Hx. now apply (ref_in_In x l).
  - cbn [orb]. rewrite lookup_alter_ne by congruence. reflexivity.
Qed.

Lemma run_subject_calls_snoc (calls : list subject_call) (c : subject_call)
      (st : RestaurantAvailabilitySubject.t * gmap nat Observer) :
  run_subject_calls (calls ++ [c]) st = run_subject_call c (run_subject_calls calls st).
Proof. unfold run_subject_calls. now rewrite fold_left_app. Qed.

Lemma observers_distinct (calls : list subject_call) (heap : gmap nat Observer) :
  List.NoDup
    (RestaurantAvailabilitySubject.observers
       (fst (run_subject_calls calls (RestaurantAvailabilitySubject.init, heap)))).
Proof.
  induction calls as [|c calls IH] using rev_ind; [constructor|].
  rewrite run_subject_calls_snoc.
  destruct (run_subject_calls calls _) as [self h]. cbn [fst] in IH.
  destruct c as [o|o|i a]; cbn [run_subject_call fst snd].
  - unfold RestaurantAvailabilitySubject.attach.
    destruct (RestaurantAvailabilitySubject.ref_in o _) eqn:Hin; cbn; [exact IH|].
    apply not_true_iff_false in Hin. rewrite ref_in_In in Hin.
    apply List.NoDup_app; [exact IH | repeat constructor; intros [] |].
    intros x Hx [<-|[]]. contradiction.
  - unfold RestaurantAvailabilitySubject.detach.
    destruct (RestaurantAvailabilitySubject.ref_in o _); cbn; [|exact IH].
    now apply list_remove_NoDup.
  - destruct a; exact IH.
Qed.

(** X23: however observers were attached and detached, the subject lists
    none of them twice, so a notification updates each attached observer
    exactly once and touches no other object. *)
Theorem notification_reaches_each_observer_once
        (calls : list subject_call) (heap0 : gmap nat Observer)
        (restaurant_id : Z) (is_available : bool) (o : nat) :
  let st := run_subject_calls calls (RestaurantAvailabilitySubject.init, heap0) in
  let st' :=
    RestaurantAvailabilitySubject.notify_availability_change
      restaurant_id is_available st in
  List.NoDup (RestaurantAvailabilitySubject.observers (fst st)) /\
  RestaurantAvailabilitySubject.observers (fst st')
  = RestaurantAvailabilitySubject.observers (fst st) /\
  snd st' !! o =
  if RestaurantAvailabilitySubject.ref_in o
       (RestaurantAvailabilitySubject.observers (fst st))
  then (fun ob => update ob restaurant_id is_available) <$> snd st !! o
  else snd st !! o.
Proof.
  cbv zeta. pose proof (observers_distinct calls heap0) as Hnd.
  destruct (run_subject_calls calls _) as [self heap]. cbn [fst snd] in *.
  split; [exact Hnd|].
  unfold RestaurantAvailabilitySubject.notify_availability_change.
  destruct is_available; cbn [fst snd RestaurantAvailabilitySubject.observers];
    (split; [reflexivity | now apply notify_each_once]).
Qed.

(** Equalities of sets of ids, by membership. *)
Ltac set_ext :=
  apply set_eq; intros ?;
  rewrite ?elem_of_intersection, ?elem_of_union, ?elem_of_difference,
    ?elem_of_intersection, ?elem_of_singleton, ?elem_of_empty;
  unfold not in *; intuition (subst; tauto).

(** What the calls leave of a monitor that stays attached. *)
Lemma monitor_invariant (interest : gset Z) (m : nat) (calls : list subject_call)
      (self : RestaurantAvailabilitySubject.t) (heap : gmap nat Observer) :
  never_detaches m calls ->
  List.NoDup (RestaurantAvailabilitySubject.observers self) ->
  In m (RestaurantAvailabilitySubject.observers self) ->
  heap !! m =
  Some (AvailabilityMonitor interest
          (RestaurantAvailabilitySubject.available_restaurants self ∩ interest)) ->
  let st := run_subject_calls calls (self, heap) in
  List.NoDup (RestaurantAvailabilitySubject.observers (fst st)) /\
  In m (RestaurantAvailabilitySubject.observers (fst st)) /\
  snd st !! m =
  Some (AvailabilityMonitor interest
          (RestaurantAvailabilitySubject.available_restaurants (fst st) ∩ interest)).
Proof.
  intros Hkept Hnd Hin Hm. cbv zeta.
  induction calls as [|c calls IH] using rev_ind; [now repeat split|].
  rewrite run_subject_calls_snoc.
  assert (Hkept' : never_detaches m calls).
  { intros Hd. apply Hkept. apply in_app_iff. now left. }
  specialize (IH Hkept').
  destruct (run_subject_calls calls _) as [self1 heap1]. cbn [fst snd] in IH.
  destruct IH as (Hnd1 & Hin1 & Hm1).
  destruct c as [o|o|i a]; cbn [run_subject_call fst snd].
  - unfold RestaurantAvailabilitySubject.attach.
    destruct (RestaurantAvailabilitySubject.ref_in o _) eqn:Ho; cbn;
      [now repeat split|].
    apply not_true_iff_false in Ho. rewrite ref_in_In in Ho.
    split; [|split; [apply in_app_iff; now left | exact Hm1]].
    apply List.NoDup_app; [exact Hnd1 | repeat constructor; intros [] |].
    intros x Hx [<-|[]]. contradiction.
  - assert (Hom : m <> o).
    { intros ->. apply Hkept. apply in_app_iff. right. now left. }
    unfold RestaurantAvailabilitySubject.detach.
    destruct (RestaurantAvailabilitySubject.ref_in o _); cbn; [|now repeat split].
    split; [now apply list_remove_NoDup|].
    split; [now apply list_remove_other | exact Hm1].
  - unfold RestaurantAvailabilitySubject.notify_availability_change.
    destruct a; cbn [fst snd RestaurantAvailabilitySubject.observers
                     RestaurantAvailabilitySubject.available_restaurants];
      (split; [exact Hnd1|]; split; [exact Hin1|]);
      rewrite (notify_each_once _ _ _ _ Hnd1);
      replace (RestaurantAvailabilitySubject.ref_in m
                 (RestaurantAvailabilitySubject.observers self1)) with true
        by (symmetry; now apply ref_in_In);
      rewrite Hm1; cbn [fmap option_fmap option_map update];
      destruct (decide (i ∈ interest)) as [Hi|Hi]; do 2 f_equal; set_ext.
Qed.

(** X24: a new monitor that is attached to a new subject and stays
    attached keeps track of it: after any sequence of notifications, and of
    other observers coming and going, its available restaurants of
    interest are the available restaurants of the subject that are of
    interest, and [is_any_available] tells whether there is one. *)
Theorem monitor_tracks_subject
        (restaurants_of_interest : list Z) (m : nat)
        (calls : list subject_call) (heap0 : gmap nat Observer) :
  heap0 !! m = Some (new_monitor restaurants_of_interest) ->
  never_detaches m calls ->
  let st :=
    run_subject_calls (Attach m :: calls) (RestaurantAvailabilitySubject.init, heap0) in
  let tracked :=
    RestaurantAvailabilitySubject.get_available_restaurants (fst st)
    ∩ list_to_set restaurants_of_interest in
  snd st !! m = Some (AvailabilityMonitor (list_to_set restaurants_of_interest) tracked) /\
  (is_any_available (AvailabilityMonitor (list_to_set restaurants_of_interest) tracked)
   = true <-> exists i, i ∈ tracked).
Proof.
  intros Hm Hkept. cbv zeta.
  unfold run_subject_calls. cbn [fold_left run_subject_call fst snd].
  change (RestaurantAvailabilitySubject.attach m RestaurantAvailabilitySubject.init)
    with (RestaurantAvailabilitySubject.mk [m] ∅).
  destruct (monitor_invariant (list_to_set restaurants_of_interest) m calls
              (RestaurantAvailabilitySubject.mk [m] ∅) heap0 Hkept)
    as (_ & _ & Htracked).
  - repeat constructor. intros [].
  - now left.
  - rewrite Hm. unfold new_monitor. do 2 f_equal. cbn. set_ext.
  - split; [exact Htracked|].
    unfold is_any_available. rewrite negb_true_iff, Nat.eqb_neq.
    rewrite size_non_empty_iff. split.
    + apply set_choose.
    + intros [i Hi] Hempty. apply Hempty in Hi. now apply not_elem_of_empty in Hi.
Qed.

(** X25: once detached, an observer is out of reach: the next
    notification leaves it as it is. *)
Theorem detached_observer_is_left_alone
        (calls : list subject_call) (heap0 : gmap nat Observer) (o : nat)
        (restaurant_id : Z) (is_available : bool) :
  let st :=
    run_subject_calls (calls ++ [Detach o]) (RestaurantAvailabilitySubject.init, heap0) in
  snd (RestaurantAvailabilitySubject.notify_availability_change
         restaurant_id is_available st) !! o = snd st !! o.
Proof.
  cbv zeta. pose proof (observers_distinct (calls ++ [Detach o]) heap0) as Hnd.
  assert (Hout : ~ In o (RestaurantAvailabilitySubject.observers
                           (fst (run_subject_calls (calls ++ [Detach o])
                                   (RestaurantAvailabilitySubject.init, heap0))))).
  { rewrite run_subject_calls_snoc. pose proof (observers_distinct calls heap0) as Hnd0.
    destruct (run_subject_calls calls _) as [self heap]. cbn [fst snd run_subject_call] in *.
    unfold RestaurantAvailabilitySubject.detach.
    destruct (RestaurantAvailabilitySubject.ref_in o _) eqn:Ho; cbn.
    - now apply list_remove_NoDup.
    - apply not_true_iff_false in Ho. now rewrite ref_in_In in Ho. }
  destruct (run_subject_calls (calls ++ [Detach o]) _) as [self heap].
  cbn [fst snd] in *.
  unfold RestaurantAvailabilitySubject.notify_availability_change.
  destruct is_available; cbn [fst snd RestaurantAvailabilitySubject.observers];
    rewrite (notify_each_once _ _ _ _ Hnd);
    (replace (RestaurantAvailabilitySubject.ref_in o
                (RestaurantAvailabilitySubject.observers self)) with false;
     [reflexivity | symmetry; apply not_true_iff_false; now rewrite ref_in_In]).
Qed.

Lemma monitor_tracks_subject_witness :
  snd (run_subject_calls (Attach 1 :: test_notifications)
         (RestaurantAvailabilitySubject.init, test_heap)) !! 1%nat
  = Some (AvailabilityMonitor (list_to_set [1; 3; 5])
            (RestaurantAvailabilitySubject.get_available_restaurants
               (fst (run_subject_calls (Attach 1 :: test_notifications)
                       (RestaurantAvailabilitySubject.init, test_heap)))
             ∩ list_to_set [1; 3; 5])).
Proof.
  apply (proj1 (monitor_tracks_subject [1; 3; 5] 1 test_notifications test_heap
                  eq_refl
                  ltac:(unfold never_detaches, test_notifications; cbn;
                        intuition discriminate))).
Defined.

Lemma intersection_within_union_witness :
  @contains taxicab_calculator
    (CompositeRegion Intersection
       [CircleRegion 51 6 50; RectangleRegion 50 5 (515 # 10) (65 # 10)]) 51 6 = true /\
  @contains taxicab_calculator
    (CompositeRegion Union
       [CircleRegion 51 6 50; RectangleRegion 50 5 (515 # 10) (65 # 10)]) 51 6 = true.
Proof.
  split; [reflexivity|].
  exact (proj1 (proj1 (@intersection_within_union taxicab_calculator
                         [CircleRegion 51 6 50; RectangleRegion 50 5 (515 # 10) (65 # 10)]
                         51 6) eq_refl)).
Defined.

(** ** The rows of the result file *)

Lemma pretty_N_go_nonempty (x : N) (s : string) : s <> EmptyString -> pretty_N_go x s <> EmptyString.
Proof.
  revert s. induction (N.lt_wf_0 x) as [x _ IH]; intros s Hs.
  destruct (N.eq_dec x 0%N) as [->|Hpos].
  - now rewrite pretty_N_go_0.
  - rewrite pretty_N_go_step by lia. apply IH; [apply N.div_lt; lia | discriminate].
Qed.

Lemma pretty_Z_nonempty (z : Z) : pretty z <> EmptyString.
Proof.
  assert (HN : forall n : N, pretty n <> EmptyString).
  { intros n. unfold pretty, pretty_N. destruct (decide (n = 0%N)); [discriminate|].
    destruct (N.eq_dec n 0%N) as [->|Hpos]; [contradiction|].
    rewrite pretty_N_go_step by lia. apply pretty_N_go_nonempty. discriminate. }
  destruct z as [|p|p]; unfold pretty, pretty_Z; [discriminate | apply (HN (Npos p)) |].
  cbn. discriminate.
Qed.

Lemma digit_is_not_semicolon (d : N) : pretty_N_char d <> ";"%char.
Proof. unfold pretty_N_char. repeat case_match; discriminate. Qed.

Lemma no_separator_inside (c : ascii) (a b : string) :
  all_chars (fun x => x <> c) (a +:+ String c b) -> False.
Proof.
  induction a as [|x a IH]; cbn; intros [H1 H2]; [now apply H1 | now apply IH].
Qed.

Lemma join_single (sep part : string) : join sep [part] = part.
Proof. reflexivity. Qed.

Lemma join_cons (sep part part' : string) (rest : list string) :
  join sep (part :: part' :: rest) = part +:+ sep +:+ join sep (part' :: rest).
Proof. reflexivity. Qed.

Lemma join_ids_injective (ids1 ids2 : list Z) :
  join ";" (List.map pretty ids1) = join ";" (List.map pretty ids2) -> ids1 = ids2.
Proof.
  assert (Hclean : forall z : Z, all_chars (fun x => x <> ";"%char) (pretty z))
    by (intros z; apply pretty_Z_without; [apply digit_is_not_semicolon | discriminate]).
  revert ids2. induction ids1 as [|x ids1 IH]; intros [|y ids2] Heq.
  - reflexivity.
  - exfalso. cbn in Heq. destruct ids2 as [|y' ids2]; cbn in Heq.
    + now apply (pretty_Z_nonempty y).
    + destruct (pretty y); discriminate.
  - exfalso. cbn in Heq. destruct ids1 as [|x' ids1]; cbn in Heq.
    + now apply (pretty_Z_nonempty x).
    + destruct (pretty x); discriminate.
  - destruct ids1 as [|x' ids1], ids2 as [|y' ids2];
      cbn [List.map] in Heq; rewrite ?join_cons, ?join_single in Heq.
    + apply (inj pretty) in Heq. now subst.
    + exfalso. apply (no_separator_inside ";"%char (pretty y)
                        (join ";" (pretty y' :: List.map pretty ids2))).
      change (String ";"%char ?r) with (";" +:+ r). rewrite <- Heq. apply Hclean.
    + exfalso. apply (no_separator_inside ";"%char (pretty x)
                        (join ";" (pretty x' :: List.map pretty ids1))).
      change (String ";"%char ?r) with (";" +:+ r). rewrite Heq. apply Hclean.
    + apply (split_at_separator ";"%char) in Heq as [Hx Hrest];
        [|apply Hclean|apply Hclean].
      apply (inj pretty) in Hx. subst y. f_equal. apply IH. exact Hrest.
Qed.

Lemma row_fields (result : string * list Z) :
  CSVResultWriter.row result
  = [fst result; join ";" (List.map pretty (snd result))].
Proof. destruct result as [location [|id ids]]; reflexivity. Qed.

(** X26: the rows written tell the results apart: the field of ids, the
    decimal ids joined by semicolons, is empty for no restaurant only and
    determines the list of ids, so two lists of results with the same rows
    are the same. *)
Theorem written_rows_determine_results (results1 results2 : list (string * list Z)) :
  CSVResultWriter.write_results results1 = CSVResultWriter.write_results results2 ->
  results1 = results2.
Proof.
  unfold CSVResultWriter.write_results.
  revert results2. induction results1 as [|[loc1 ids1] results1 IH];
    intros [|[loc2 ids2] results2] Heq; try discriminate; [reflexivity|].
  cbn [List.map] in Heq. injection Heq as Hrow Hrest.
  f_equal; [|now apply IH].
  rewrite !row_fields in Hrow. cbn [fst snd] in Hrow.
  injection Hrow as Hloc Hfield.
  apply join_ids_injective in Hfield. now subst.
Qed.

Lemma written_rows_determine_results_witness :
  [("51.2,6.45", [1; 4]); ("40.0,0.0", [])] = [("51.2,6.45", [1; 4]); ("40.0,0.0", [])].
Proof.
  apply (written_rows_determine_results
           [("51.2,6.45", [1; 4]); ("40.0,0.0", [])]
           [("51.2,6.45", [1; 4]); ("40.0,0.0", [])]).
  reflexivity.
Defined.
